(** * mcp-logic: solver input synthesis, process running, output
      classification and formula validation

    A shallow embedding of [mcp_logic/server.py], [mcp_logic/mace4_wrapper.py],
    [mcp_logic/syntax_validator.py] and [mcp_logic/categorical_helpers.py].

    Python [str] values are modelled as [string]; a character is a code point
    below 256, and the character classes below ([str.isspace], the regular
    expression classes [\s] and [\w], [str.isupper], [str.islower]) are
    Python's on that range.  Dictionaries are [gmap]s keyed by strings. *)

From Stdlib Require Import ZArith Ascii String List Bool Lia DecimalString.
From Stdlib Require DecimalPos DecimalZ.
From stdpp Require Import base option gmap strings.

Import ListNotations.
Open Scope string_scope.
Open Scope list_scope.

(** ** Python string primitives *)

Module PyStr.

Definition code (c : ascii) : N := N_of_ascii c.

Definition in_range (lo hi : N) (c : ascii) : bool :=
  ((lo <=? code c) && (code c <=? hi))%N.

(** [c.isspace()], also the class [\s] of [re] on [str] patterns. *)
Definition isspace (c : ascii) : bool :=
  in_range 9 13 c || in_range 28 32 c || in_range 133 133 c
  || in_range 160 160 c.

(** The explicit class [[a-zA-Z_]]. *)
Definition is_ident_start (c : ascii) : bool :=
  in_range 97 122 c || in_range 65 90 c || in_range 95 95 c.

(** The explicit class [[a-zA-Z0-9_]]. *)
Definition is_ident_char (c : ascii) : bool :=
  is_ident_start c || in_range 48 57 c.

(** The class [\w] of [re] on [str] patterns: alphanumeric or underscore. *)
Definition is_word (c : ascii) : bool :=
  is_ident_char c
  || in_range 170 170 c || in_range 178 179 c || in_range 181 181 c
  || in_range 185 186 c || in_range 188 190 c
  || in_range 192 214 c || in_range 216 246 c || in_range 248 255 c.

(** [c.isupper()] and [c.islower()] for one character. *)
Definition isupper (c : ascii) : bool :=
  in_range 65 90 c || in_range 192 214 c || in_range 216 222 c.

Definition islower (c : ascii) : bool :=
  in_range 97 122 c || in_range 170 170 c || in_range 181 181 c
  || in_range 186 186 c || in_range 223 246 c || in_range 248 255 c.

Definition is_digit (c : ascii) : bool := in_range 48 57 c.

(** [len(s)] *)
Definition len (s : string) : Z := Z.of_nat (String.length s).

(** [s.startswith(p)] *)
Definition startswith (p s : string) : bool := String.prefix p s.

(** [s.endswith(suffix)] *)
Fixpoint endswith (suffix s : string) : bool :=
  (s =? suffix)%string
  || match s with
     | EmptyString => false
     | String _ t => endswith suffix t
     end.

(** Index of the first occurrence of [sub] in [s], if any. *)
Fixpoint find_nat (sub s : string) : option nat :=
  if String.prefix sub s then Some 0
  else match s with
       | EmptyString => None
       | String _ t => S <$> find_nat sub t
       end.

(** [sub in s] *)
Definition contains (sub s : string) : bool :=
  match find_nat sub s with Some _ => true | None => false end.

(** Removal of the first [n] characters, [s[n:]] for [0 <= n]. *)
Fixpoint drop (n : nat) (s : string) : string :=
  match n, s with
  | O, _ => s
  | S _, EmptyString => EmptyString
  | S k, String _ t => drop k t
  end.

(** The first [n] characters, [s[:n]] for [0 <= n]. *)
Fixpoint take (n : nat) (s : string) : string :=
  match n, s with
  | O, _ => EmptyString
  | S _, EmptyString => EmptyString
  | S k, String c t => String c (take k t)
  end.

(** [s.find(sub)]: index of the first occurrence, [-1] when absent. *)
Definition find (sub s : string) : Z :=
  match find_nat sub s with Some i => Z.of_nat i | None => (-1)%Z end.

(** Normalisation of a slice bound against a length. *)
Definition clamp (n i : Z) : Z :=
  if (i <? 0)%Z then Z.max 0 (i + n) else Z.min i n.

(** [s.find(sub, start)] *)
Definition find_from (sub s : string) (start : Z) : Z :=
  let b := clamp (len s) start in
  if (len s <? start)%Z then (-1)%Z
  else match find_nat sub (drop (Z.to_nat b) s) with
       | Some i => (b + Z.of_nat i)%Z
       | None => (-1)%Z
       end.

(** [s[a:b]] *)
Definition slice (s : string) (a b : Z) : string :=
  let a' := clamp (len s) a in
  let b' := clamp (len s) b in
  take (Z.to_nat (b' - a')) (drop (Z.to_nat a') s).

(** [s.lstrip(chars)], [s.rstrip(chars)] and [s.strip(chars)] for a
    character class [p]. *)
Fixpoint lstrip_by (p : ascii -> bool) (s : string) : string :=
  match s with
  | EmptyString => EmptyString
  | String c t => if p c then lstrip_by p t else s
  end.

Fixpoint rstrip_by (p : ascii -> bool) (s : string) : string :=
  match s with
  | EmptyString => EmptyString
  | String c t =>
      match rstrip_by p t with
      | EmptyString => if p c then EmptyString else String c EmptyString
      | r => String c r
      end
  end.

Definition lstrip (s : string) : string := lstrip_by isspace s.
Definition rstrip (s : string) : string := rstrip_by isspace s.
Definition strip (s : string) : string := lstrip (rstrip s).

(** [s.rstrip(".")] *)
Definition rstrip_dot (s : string) : string :=
  rstrip_by (fun c => Ascii.eqb c ".") s.

(** [s.split(sep)] for a non-empty separator: the pieces between the
    successive non-overlapping occurrences of [sep], left to right.  The
    recursion is on a bound that the length of [s] always meets
    ([split_unfold]). *)
Fixpoint split_upto (bound : nat) (sep s : string) : list string :=
  match find_nat sep s with
  | None => [s]
  | Some i =>
      match bound with
      | O => [s]
      | S k =>
          take i s :: split_upto k sep (drop (i + String.length sep) s)
      end
  end.

Definition split (sep s : string) : list string :=
  split_upto (String.length s) sep s.

(** [s.count(sub)] for a non-empty [sub]: non-overlapping occurrences. *)
Definition count (sub s : string) : Z :=
  Z.of_nat (List.length (split sub s)) - 1.

(** [s.split()]: the maximal runs of non-whitespace characters.  [cur] is
    the run being read, if one has started. *)
Fixpoint fields_from (cur : option string) (s : string) : list string :=
  match s with
  | EmptyString => match cur with Some w => [w] | None => [] end
  | String c t =>
      if isspace c then
        match cur with
        | Some w => w :: fields_from None t
        | None => fields_from None t
        end
      else
        fields_from
          (Some (match cur with
                 | Some w => w +:+ String c EmptyString
                 | None => String c EmptyString
                 end)) t
  end.

Definition fields (s : string) : list string := fields_from None s.

(** [sep.join(xs)] *)
Fixpoint join (sep : string) (xs : list string) : string :=
  match xs with
  | [] => EmptyString
  | [x] => x
  | x :: rest => x +:+ sep +:+ join sep rest
  end.

(** [str(n)] for an integer. *)
Definition str_of_Z (n : Z) : string := NilZero.string_of_int (Z.to_int n).

(** The value of a run of decimal digits in which single underscores may
    separate digits; [acc] is the value read so far and [prev_digit] tells
    whether the previous character was a digit. *)
Fixpoint digits_value (acc : Z) (prev_digit : bool) (s : string)
  : option Z :=
  match s with
  | EmptyString => if prev_digit then Some acc else None
  | String c t =>
      if is_digit c then
        digits_value (10 * acc + Z.of_N (code c - 48)) true t
      else if Ascii.eqb c "_" then
        if prev_digit then digits_value acc false t else None
      else None
  end.

(** The interpreter's cap on the number of digits of a decimal literal,
    [sys.get_int_max_str_digits()], at its default; the sign and the
    underscores do not count, leading zeros do. *)
Definition max_str_digits : N := 4300.

Fixpoint digit_count (s : string) : N :=
  match s with
  | EmptyString => 0
  | String c t => ((if is_digit c then 1 else 0) + digit_count t)%N
  end.

(** [int(tok)] for a token without surrounding whitespace; [None] stands
    for [ValueError], which a literal with more digits than the cap raises
    too. *)
Definition int (tok : string) : option Z :=
  if (max_str_digits <? digit_count tok)%N then None
  else
    match tok with
    | String "-" t => Z.opp <$> digits_value 0 false t
    | String "+" t => digits_value 0 false t
    | _ => digits_value 0 false tok
    end.

(** [c.lower()] for one character, and [s.lower()]. *)
Definition lower_char (c : ascii) : ascii :=
  if isupper c then ascii_of_N (code c + 32) else c.

Fixpoint lower (s : string) : string :=
  match s with
  | EmptyString => EmptyString
  | String c t => String (lower_char c) (lower t)
  end.

End PyStr.

Import PyStr.

(** ** Exceptions, the file system and the effect monad *)

(** The exception classes that the modelled code raises, handles or lets
    through.  [KeyboardInterrupt] and [SystemExit] derive from
    [BaseException] only, so that an [except Exception] clause does not
    catch them; all the others derive from [Exception], and
    [FileNotFoundError] and [PermissionError] derive from [OSError]. *)
Inductive exn_class : Type :=
| TimeoutExpired | IndexError | ValueError
| FileNotFoundError | PermissionError | OSError | OtherException
| KeyboardInterrupt | SystemExit.

#[global] Instance exn_class_eq_dec : EqDecision exn_class.
Proof. solve_decision. Defined.

(** An exception: its class and its text [str(e)]. *)
Record exn : Type := Exn { exn_cls : exn_class; exn_str : string }.

Definition is_OSError (c : exn_class) : bool :=
  match c with
  | FileNotFoundError | PermissionError | OSError => true
  | _ => false
  end.

(** What an [except Exception] clause catches. *)
Definition is_Exception (c : exn_class) : bool :=
  match c with
  | KeyboardInterrupt | SystemExit => false
  | _ => true
  end.

(** A [pathlib.Path], as its components; an absolute path starts with the
    empty component. *)
Definition path : Type := list string.

Definition str_of_path (p : path) : string := join "/" p.

(** [p / name] and [p.parent] *)
Definition joinpath (p : path) (name : string) : path := p ++ [name].
Definition parent (p : path) : path := removelast p.

(** The files that exist, with their text. *)
Abbreviation filesystem := (gmap path string).

(** What the operating system decides: the name [tempfile.mkstemp] picks
    (or how it fails), whether writing a text to a file just created goes
    through (and otherwise the exception, with the number of characters that
    reached the file), what a spawned process prints (or how
    [subprocess.run] fails) and what it does to the files, and which files
    [unlink] is refused on. *)
Record os_model : Type := {
  os_mkstemp : string -> filesystem -> exn + path;
  os_write : path -> string -> filesystem -> option (exn * nat);
  os_run : list string -> string -> Z -> filesystem
           -> (exn + string * string) * filesystem;
  os_unlink_refused : path -> bool
}.

(** Computations over the file system that may raise. *)
Definition M (A : Type) : Type := filesystem -> (exn + A) * filesystem.

Definition ret {A} (a : A) : M A := fun fs => (inr a, fs).
Definition raise {A} (e : exn) : M A := fun fs => (inl e, fs).

Definition bind {A B} (m : M A) (k : A -> M B) : M B :=
  fun fs =>
    match m fs with
    | (inr a, fs') => k a fs'
    | (inl e, fs') => (inl e, fs')
    end.

Notation "x <- m ;; k" := (bind m (fun x => k))
  (at level 100, m at next level, right associativity).

(** [try: m except ...: h]; the handler answers [None] for an exception that
    none of its clauses matches. *)
Definition try_except {A} (m : M A) (h : exn -> option (M A)) : M A :=
  fun fs =>
    match m fs with
    | (inr a, fs') => (inr a, fs')
    | (inl e, fs') =>
        match h e with
        | Some k => k fs'
        | None => (inl e, fs')
        end
    end.

(** [try: m finally: c]: [c] always runs; an exception of [c] replaces the
    outcome of [m], and otherwise that outcome stands. *)
Definition try_finally {A} (m : M A) (c : M unit) : M A :=
  fun fs =>
    match m fs with
    | (r, fs') =>
        match c fs' with
        | (inr _, fs'') => (r, fs'')
        | (inl e, fs'') => (inl e, fs'')
        end
    end.

(** [xs[i]] on a list, with Python's negative indices. *)
Definition getitem {A} (xs : list A) (i : Z) : M A :=
  let n := Z.of_nat (List.length xs) in
  let j := if (i <? 0)%Z then (i + n)%Z else i in
  match (if (j <? 0)%Z then None else nth_error xs (Z.to_nat j)) with
  | Some x => ret x
  | None => raise (Exn IndexError "list index out of range")
  end.

Section OS.

Variable os : os_model.

(** [p.exists()] *)
Definition path_exists (p : path) : M bool :=
  fun fs => (inr (bool_decide (is_Some (fs !! p))), fs).

(** [p.unlink()] *)
Definition unlink (p : path) : M unit :=
  fun fs =>
    match fs !! p with
    | None =>
        (inl (Exn FileNotFoundError
                ("[Errno 2] No such file or directory: '"
                 +:+ str_of_path p +:+ "'")), fs)
    | Some _ =>
        if os_unlink_refused os p then
          (inl (Exn PermissionError
                  ("[Errno 13] Permission denied: '"
                   +:+ str_of_path p +:+ "'")), fs)
        else (inr tt, delete p fs)
    end.

(** [fd, path = tempfile.mkstemp(suffix=..., text=True)] followed by
    [with os.fdopen(fd, "w") as f: f.write(content)].  The file exists from
    [mkstemp] on: when the write or the close fails, the exception leaves
    with the file in place, holding what was written of [content]. *)
Definition write_temp (suffix content : string) : M path :=
  fun fs =>
    match os_mkstemp os suffix fs with
    | inl e => (inl e, fs)
    | inr p =>
        match os_write os p content fs with
        | None => (inr p, <[p := content]> fs)
        | Some (e, written) => (inl e, <[p := take written content]> fs)
        end
    end.

(** [subprocess.run(argv, capture_output=True, text=True,
    timeout=timeout, cwd=cwd)]; the result is the pair of [stdout] and
    [stderr]. *)
Definition subprocess_run (argv : list string) (timeout : Z) (cwd : string)
  : M (string * string) :=
  fun fs => os_run os argv cwd timeout fs.

End OS.

(** The one-character string [chr(10)]. *)
Definition newline : string := String "010" EmptyString.

(** ** server.py: the prover wrapper *)

(** The expression [p if p.endswith(".") else p + "."], written out at each
    of its uses in the builders. *)
Definition terminate (p : string) : string :=
  if endswith "." p then p else p +:+ ".".

Module LogicEngine.

Record t : Type := { prover_path : path; prover_exe : path }.

Section Methods.

Variable os : os_model.

(** [LogicEngine.__init__] *)
Definition __init__ (prover_path : path) : M t :=
  let prover_exe := joinpath prover_path "prover9.exe" in
  found <- path_exists prover_exe ;;
  if negb found then
    raise (Exn FileNotFoundError
             ("Prover9 not found at " +:+ str_of_path prover_exe))
  else
    ret {| prover_path := prover_path; prover_exe := prover_exe |}.

(** The list [content] of [_create_input_file]. *)
Definition input_lines (premises : list string) (goal : string)
  : list string :=
  ["formulas(assumptions)."]
  ++ map terminate premises
  ++ ["end_of_list.";
      "";
      "formulas(goals).";
      terminate goal;
      "end_of_list."].

(** [LogicEngine._create_input_file] *)
Definition _create_input_file (premises : list string) (goal : string)
  : M path :=
  let content := input_lines premises goal in
  let input_content := join newline content in
  write_temp os ".in" input_content.

(** [LogicEngine._run_prover] *)
Definition _run_prover (self : t) (input_path : path) (timeout : Z)
  : M (gmap string string) :=
  try_finally
    (try_except
       (let cwd := str_of_path (parent (prover_exe self)) in
        result <- subprocess_run os
                    [str_of_path (prover_exe self); "-f";
                     str_of_path input_path] timeout cwd ;;
        let '(stdout, stderr) := result in
        if contains "THEOREM PROVED" stdout then
          after <- getitem (split "PROOF =" stdout) 1 ;;
          before <- getitem (split "====" after) 0 ;;
          let proof := strip before in
          ret {[ "result" := "proved";
                 "proof" := proof;
                 "complete_output" := stdout ]}
        else if contains "SEARCH FAILED" stdout then
          ret {[ "result" := "unprovable";
                 "reason" := "Proof search failed";
                 "complete_output" := stdout ]}
        else if contains "Fatal error" stderr then
          ret {[ "result" := "error";
                 "reason" := "Syntax error";
                 "error" := stderr ]}
        else
          ret {[ "result" := "error";
                 "reason" := "Unexpected output";
                 "output" := stdout;
                 "error" := stderr ]})
       (fun e =>
          match exn_cls e with
          | TimeoutExpired =>
              Some (ret {[ "result" := "timeout";
                           "reason" := "Proof search exceeded "
                                       +:+ str_of_Z timeout
                                       +:+ " seconds" ]})
          | c =>
              if is_Exception c then
                Some (ret {[ "result" := "error";
                             "reason" := exn_str e ]})
              else None
          end))
    (try_except (unlink os input_path) (fun _ => Some (ret tt))).

End Methods.

End LogicEngine.

(** ** server.py: the tool dispatcher *)

(** A tool call with its arguments, as the tools' input schemas type them. *)
Inductive tool_call : Type :=
| Prove (premises : list string) (conclusion : string)
| CheckWellFormed (statements : list string)
| OtherTool (name : string).

(** What [handle_call_tool] hands to [str] for the text of its reply. *)
Inductive tool_reply : Type :=
| ReplyResults (results : gmap string string)
| ReplyValid (valid : bool) (details : gmap string string)
| ReplyError (text : string).

(** [handle_call_tool]; its [except Exception] clause answers every
    exception that derives from [Exception]. *)
Definition handle_call_tool (os : os_model) (engine : LogicEngine.t)
    (call : tool_call) : M tool_reply :=
  try_except
    (match call with
     | Prove premises conclusion =>
         input_file <- LogicEngine._create_input_file os premises conclusion ;;
         results <- LogicEngine._run_prover os engine input_file 60 ;;
         ret (ReplyResults results)
     | CheckWellFormed statements =>
         check_file <- LogicEngine._create_input_file os statements "true" ;;
         results <- LogicEngine._run_prover os engine check_file 5 ;;
         let is_valid :=
           negb (contains "Fatal error" (default "" (results !! "error"))) in
         ret (ReplyValid is_valid results)
     | OtherTool name =>
         raise (Exn ValueError ("Unknown tool: " +:+ name))
     end)
    (fun e =>
       if is_Exception (exn_cls e)
       then Some (ret (ReplyError ("Error: " +:+ exn_str e)))
       else None).

(** ** mace4_wrapper.py: the model finder wrapper *)

Module Mace4Wrapper.

Record t : Type := { mace4_path : path; mace4_exe : path }.

(** The dictionary [model] of [_parse_model]; its keys are fixed. *)
Record model : Type := {
  domain_size : option Z;
  predicates : gmap string string;
  functions : gmap string string;
  constants : gmap string string;
  raw_interpretation : string
}.

Definition set_domain_size (m : model) (size : Z) : model :=
  {| domain_size := Some size;
     predicates := predicates m;
     functions := functions m;
     constants := constants m;
     raw_interpretation := raw_interpretation m |}.

Definition set_raw_interpretation (m : model) (text : string) : model :=
  {| domain_size := domain_size m;
     predicates := predicates m;
     functions := functions m;
     constants := constants m;
     raw_interpretation := text |}.

(** The values of a result dictionary. *)
Inductive value : Type :=
| VStr (s : string)
| VModel (m : model).

(** The body of the first loop of [_parse_model], for one line: the [try]
    block sets the size, and [except: pass] keeps the model when the last
    token is not an integer. *)
Definition read_size (m : model) (line : string) : model :=
  if contains "DOMAIN SIZE" line then
    match last (fields line) ≫= int with
    | Some size => set_domain_size m size
    | None => m
    end
  else m.

(** The body of its second loop, for one line of the interpretation. *)
Definition list_line (m : model) (line : string) : model :=
  let line := strip line in
  if startswith "function(" line || startswith "relation(" line
  then set_raw_interpretation m (raw_interpretation m +:+ newline +:+ line)
  else m.

(** [Mace4Wrapper._parse_model] *)
Definition _parse_model (output : string) : model :=
  let model0 :=
    {| domain_size := None;
       predicates := ∅;
       functions := ∅;
       constants := ∅;
       raw_interpretation := "" |} in
  let model1 := fold_left read_size (split newline output) model0 in
  if contains "interpretation(" output then
    let start := find "interpretation(" output in
    let end_ := find_from "end_of_list" output start in
    if (end_ >? start)%Z then
      let interpretation :=
        slice output start (end_ + len "end_of_list") in
      let model2 := set_raw_interpretation model1 (strip interpretation) in
      fold_left list_line (split newline interpretation) model2
    else model1
  else model1.

Section Methods.

Variable os : os_model.

(** [Mace4Wrapper.__init__] *)
Definition __init__ (mace4_path : path) : M t :=
  let mace4_exe := joinpath mace4_path "mace4.exe" in
  found <- path_exists mace4_exe ;;
  if negb found then
    let mace4_exe := joinpath mace4_path "mace4" in
    found <- path_exists mace4_exe ;;
    if negb found then
      raise (Exn FileNotFoundError
               ("Mace4 not found at " +:+ str_of_path mace4_exe
                +:+ " or with .exe extension"))
    else ret {| mace4_path := mace4_path; mace4_exe := mace4_exe |}
  else ret {| mace4_path := mace4_path; mace4_exe := mace4_exe |}.

(** The list [content] of [_create_input_file].  A goal that is [None] or
    empty is falsy, and adds no goals block. *)
Definition input_lines (premises : list string) (goal : option string)
    (domain_size : option Z) : list string :=
  (match domain_size with
   | Some n => ["assign(domain_size, " +:+ str_of_Z n +:+ ")."]
   | None => ["assign(domain_size, 2)."; "assign(end_size, 10)."]
   end)
  ++ ["assign(max_seconds, 60)."; ""]
  ++ ["formulas(assumptions)."]
  ++ map terminate premises
  ++ ["end_of_list."; ""]
  ++ (match goal with
      | Some g =>
          if (g =? "")%string then []
          else
            let negated_goal := "-((" +:+ rstrip_dot g +:+ "))" in
            ["formulas(goals)."; negated_goal +:+ "."; "end_of_list."]
      | None => []
      end).

(** [Mace4Wrapper._create_input_file] *)
Definition _create_input_file (premises : list string)
    (goal : option string) (domain_size : option Z) : M path :=
  let content := input_lines premises goal domain_size in
  let input_content := join newline content in
  write_temp os ".in" input_content.

(** [Mace4Wrapper._run_mace4] *)
Definition _run_mace4 (self : t) (input_path : path) (timeout : Z)
  : M (gmap string value) :=
  try_finally
    (try_except
       (let cwd := str_of_path (parent (mace4_exe self)) in
        result <- subprocess_run os
                    [str_of_path (mace4_exe self); "-f";
                     str_of_path input_path] timeout cwd ;;
        let '(stdout, stderr) := result in
        if contains "DOMAIN SIZE" stdout
           && contains "interpretation(" stdout then
          let model := _parse_model stdout in
          ret {[ "result" := VStr "model_found";
                 "model" := VModel model;
                 "complete_output" := VStr stdout ]}
        else if contains "SEARCH FAILED" stdout
                || contains "SEARCH TERMINATED" stdout then
          ret {[ "result" := VStr "no_model_found";
                 "reason" :=
                   VStr "No finite model found within domain size limits";
                 "complete_output" := VStr stdout ]}
        else if contains "Fatal error" stderr
                || contains "Fatal error" stdout then
          ret {[ "result" := VStr "error";
                 "reason" := VStr "Syntax error or invalid input";
                 "error" :=
                   VStr (if (stderr =? "")%string then stdout
                         else stderr) ]}
        else
          ret {[ "result" := VStr "unknown";
                 "reason" := VStr "Unexpected Mace4 output";
                 "output" := VStr stdout;
                 "error" := VStr stderr ]})
       (fun e =>
          match exn_cls e with
          | TimeoutExpired =>
              Some (ret {[ "result" := VStr "timeout";
                           "reason" :=
                             VStr ("Model search exceeded "
                                   +:+ str_of_Z timeout
                                   +:+ " seconds") ]})
          | c =>
              if is_Exception c then
                Some (ret {[ "result" := VStr "error";
                             "reason" := VStr (exn_str e) ]})
              else None
          end))
    (try_except (unlink os input_path)
       (fun e =>
          if is_OSError (exn_cls e) then Some (ret tt) else None)).

(** [Mace4Wrapper.find_model] *)
Definition find_model (self : t) (premises : list string)
    (domain_size : option Z) : M (gmap string value) :=
  input_file <- _create_input_file premises None domain_size ;;
  _run_mace4 self input_file 60.

(** [Mace4Wrapper.find_counterexample] *)
Definition find_counterexample (self : t) (premises : list string)
    (conclusion : string) (domain_size : option Z)
  : M (gmap string value) :=
  input_file <-
    _create_input_file premises (Some conclusion) domain_size ;;
  result <- _run_mace4 self input_file 60 ;;
  match result !! "result" with
  | Some (VStr "model_found") =>
      ret (<[ "interpretation" :=
                VStr ("Counterexample found: The premises are satisfied "
                      +:+ "but the conclusion '" +:+ conclusion
                      +:+ "' is FALSE in this model.") ]> result)
  | _ => ret result
  end.

End Methods.

End Mace4Wrapper.

(** ** syntax_validator.py: the regular expressions *)

Module Re.

(** The longest prefix of [s] whose characters satisfy [p]; what is left
    after it is [lstrip_by p s]. *)
Fixpoint take_while (p : ascii -> bool) (s : string) : string :=
  match s with
  | EmptyString => EmptyString
  | String c t => if p c then String c (take_while p t) else EmptyString
  end.

Definition is_word_opt (c : option ascii) : bool :=
  match c with Some c => is_word c | None => false end.

Definition head (s : string) : option ascii :=
  match s with String c _ => Some c | EmptyString => None end.

(** [\b] between the character [prev] before the position and the text [s]
    from the position on. *)
Definition word_boundary (prev : option ascii) (s : string) : bool :=
  xorb (is_word_opt prev) (is_word_opt (head s)).

(** A match attempt at one position: the text of group 1 and the length
    of the match. *)
Definition matcher : Type := option ascii -> string -> option (string * nat).

(** The pattern of [_check_naming] at one position: a word boundary, group
    1 made of a character of [[a-zA-Z_]] and then characters of
    [[a-zA-Z0-9_]], whitespace if any, and an opening parenthesis.  Both
    repetitions are greedy, and giving back characters never helps: a
    shorter name would be followed by a name character, a shorter run of
    whitespace by whitespace, and neither is whitespace or a parenthesis. *)
Definition match_name : matcher :=
  fun prev s =>
    match s with
    | String c _ =>
        if word_boundary prev s && is_ident_start c then
          let name := take_while is_ident_char s in
          let after := lstrip_by is_ident_char s in
          let ws := take_while isspace after in
          match lstrip_by isspace after with
          | String "(" _ =>
              Some (name, String.length name + String.length ws + 1)
          | _ => None
          end
        else None
    | EmptyString => None
    end.

(** The pattern of [_check_quantifiers] at one position, for a quantifier
    [q] free of regular-expression operators: a word boundary, [q], one or
    more whitespace characters, and group 1 made of one or more word
    characters.  Again giving back characters never helps, as no character
    is both whitespace and a word character. *)
Definition match_quantifier (q : string) : matcher :=
  fun prev s =>
    if word_boundary prev s && String.prefix q s then
      let after := PyStr.drop (String.length q) s in
      let ws := take_while isspace after in
      let var := take_while is_word (lstrip_by isspace after) in
      if negb (ws =? "")%string && negb (var =? "")%string then
        Some (var, String.length q + String.length ws + String.length var)
      else None
    else None.

(** [re.finditer]: the matches from left to right, each search resuming
    where the previous match ended.  [skip] counts the characters still
    covered by the last match, [pos] is the index of the head of [s] and
    [prev] the character before it.  The result pairs group 1 with
    [match.end()]. *)
Fixpoint finditer_from (m : matcher) (skip pos : nat) (prev : option ascii)
    (s : string) : list (string * nat) :=
  match s with
  | EmptyString => []
  | String c t =>
      match skip with
      | S k => finditer_from m k (S pos) (Some c) t
      | O =>
          match m prev s with
          | Some (g, n) =>
              (g, pos + n) :: finditer_from m (n - 1) (S pos) (Some c) t
          | None => finditer_from m 0 (S pos) (Some c) t
          end
      end
  end.

Definition finditer (m : matcher) (s : string) : list (string * nat) :=
  finditer_from m 0 0 None s.

(** The search of [_check_common_mistakes], as a truth value: [op] between
    two word characters, anywhere in [s]. *)
Fixpoint search_between_words (op : string) (s : string) : bool :=
  match s with
  | EmptyString => false
  | String c t =>
      (is_word c && String.prefix op t
       && is_word_opt (head (PyStr.drop (String.length op) t)))
      || search_between_words op t
  end.

End Re.

(** ** syntax_validator.py: the validator *)

Module SyntaxValidator.

Definition QUANTIFIERS : gset string := {[ "all"; "exists" ]}.
Definition RESERVED : gset string :=
  QUANTIFIERS ∪ {[ "true"; "false"; "end_of_list" ]}.

(** The order in which [for quantifier in self.QUANTIFIERS] visits the
    set; it depends on the hash seed of the interpreter. *)
Inductive set_order : Type := AllFirst | ExistsFirst.

Definition quantifiers_in (o : set_order) : list string :=
  match o with
  | AllFirst => ["all"; "exists"]
  | ExistsFirst => ["exists"; "all"]
  end.

(** The attributes of a validator object. *)
Record t : Type := { errors : list string; warnings : list string }.

Definition add_error (msg : string) (self : t) : t :=
  {| errors := errors self ++ [msg]; warnings := warnings self |}.

Definition add_warning (msg : string) (self : t) : t :=
  {| errors := errors self; warnings := warnings self ++ [msg] |}.

Definition str_of_nat (n : nat) : string := str_of_Z (Z.of_nat n).

(** The loop of [_check_balanced_parens]: [i] is the index of the head of
    the text left, [stack] the list of the source (last element on top). *)
Fixpoint scan_parens (i : nat) (stack : list nat) (formula : string)
    (self : t) : list nat * t :=
  match formula with
  | EmptyString => (stack, self)
  | String char rest =>
      if Ascii.eqb char "(" then
        scan_parens (S i) (stack ++ [i]) rest self
      else if Ascii.eqb char ")" then
        match stack with
        | [] =>
            scan_parens (S i) stack rest
              (add_error ("Unmatched closing parenthesis at position "
                          +:+ str_of_nat i) self)
        | _ => scan_parens (S i) (removelast stack) rest self
        end
      else scan_parens (S i) stack rest self
  end.

Definition _check_balanced_parens (formula : string) (self : t) : t :=
  let '(stack, self) := scan_parens 0 [] formula self in
  match stack with
  | [] => self
  | first :: _ =>
      add_error ("Unmatched opening parenthesis at position "
                 +:+ str_of_nat first) self
  end.

Definition _check_quantifiers (order : set_order) (formula : string)
    (self : t) : t :=
  fold_left
    (fun self quantifier =>
       fold_left
         (fun self m =>
            let '(var, pos) := m in
            let self :=
              if negb (match Re.head var with
                       | Some c => islower c
                       | None => false
                       end)
              then add_warning ("Quantifier variable '" +:+ var
                                +:+ "' should start with lowercase") self
              else self in
            let remaining := lstrip (PyStr.drop pos formula) in
            match remaining with
            | String "(" _ => self
            | _ =>
                add_error ("Quantifier '" +:+ quantifier +:+ " " +:+ var
                           +:+ "' must be followed by a formula in "
                           +:+ "parentheses") self
            end)
         (Re.finditer (Re.match_quantifier quantifier) formula) self)
    (quantifiers_in order) self.

Definition _check_operators (formula : string) (self : t) : t :=
  let self :=
    fold_left
      (fun self op =>
         if contains (op +:+ op) formula then
           add_warning ("Double operator '" +:+ op +:+ op
                        +:+ "' found - did you mean to use it twice?") self
         else self)
      ["&"; "|"] self in
  if (count "->" formula >? 1)%Z && (count "(" formula =? 0)%Z then
    add_warning ("Multiple implications without parentheses - consider "
                 +:+ "adding parentheses for clarity") self
  else self.

Definition _check_naming (formula : string) (self : t) : t :=
  fold_left
    (fun self m =>
       let name := fst m in
       if bool_decide (name ∈ QUANTIFIERS) then self
       else
         let self :=
           if match Re.head name with
              | Some c => isupper c
              | None => false
              end
           then add_warning ("Predicate/function '" +:+ name
                             +:+ "' starts with uppercase - consider using "
                             +:+ "lowercase for consistency") self
           else self in
         if bool_decide (name ∈ RESERVED) then
           add_error ("'" +:+ name +:+ "' is a reserved keyword and cannot "
                      +:+ "be used as a predicate/function") self
         else self)
    (Re.finditer Re.match_name formula) self.

Definition _check_common_mistakes (formula : string) (self : t) : t :=
  let self :=
    fold_left
      (fun self op =>
         if Re.search_between_words op formula then
           add_warning ("Consider adding spaces around '" +:+ op
                        +:+ "' for readability") self
         else self)
      ["->"; "<->"] self in
  let self :=
    if contains (String "034" "") formula || contains "'" formula then
      add_warning ("Strings in quotes are not standard in first-order "
                   +:+ "logic - use predicates or constants instead") self
    else self in
  if contains "()" formula then
    add_error ("Empty parentheses found - predicates and functions must "
               +:+ "have arguments") self
  else self.

(** [SyntaxValidator.validate]; the attributes are reset at entry, so the
    outcome does not depend on the object's earlier state. *)
Definition validate (order : set_order) (formula : string)
  : bool * list string * list string :=
  let self := {| errors := []; warnings := [] |} in
  let formula_clean := rstrip_dot formula in
  let self := _check_balanced_parens formula_clean self in
  let self := _check_quantifiers order formula_clean self in
  let self := _check_operators formula_clean self in
  let self := _check_naming formula_clean self in
  let self := _check_common_mistakes formula_clean self in
  (Nat.eqb (List.length (errors self)) 0, errors self, warnings self).

End SyntaxValidator.


(** ** syntax_validator.py: the module-level functions *)

(** One entry of the list [formula_results]. *)
Module FormulaResult.

Record t : Type := {
  formula : string;
  valid : bool;
  errors : list string;
  warnings : list string
}.

End FormulaResult.

(** The dictionary [results] of [validate_formulas]. *)
Module Results.

Record t : Type := {
  valid : bool;
  formula_results : list FormulaResult.t
}.

End Results.

(** The body of the loop of [validate_formulas], for one formula. *)
Definition validate_one (order : SyntaxValidator.set_order)
    (results : Results.t) (formula : string) : Results.t :=
  let '(is_valid, errors, warnings) :=
    SyntaxValidator.validate order formula in
  let formula_result :=
    {| FormulaResult.formula := formula;
       FormulaResult.valid := is_valid;
       FormulaResult.errors := errors;
       FormulaResult.warnings := warnings |} in
  let results :=
    {| Results.valid := Results.valid results;
       Results.formula_results :=
         Results.formula_results results ++ [formula_result] |} in
  if negb is_valid then
    {| Results.valid := false;
       Results.formula_results := Results.formula_results results |}
  else results.

(** [validate_formulas] *)
Definition validate_formulas (order : SyntaxValidator.set_order)
    (formulas : list string) : Results.t :=
  fold_left (validate_one order) formulas
    {| Results.valid := true; Results.formula_results := [] |}.

(** The dictionary [help_messages] of [get_syntax_help]. *)
Definition help_messages : gmap string string :=
  {[ "quantifier" :=
       newline
       +:+ "Quantifier syntax: all variable (formula) or exists variable (formula)"
       +:+ newline +:+ "Examples:"
       +:+ newline +:+ "  - all x (man(x) -> mortal(x))"
       +:+ newline +:+ "  - exists y (happy(y) & wise(y))"
       +:+ newline;
     "implication" :=
       newline
       +:+ "Implication syntax: premise -> conclusion"
       +:+ newline +:+ "For multiple premises, use conjunction:"
       +:+ newline +:+ "  - (premise1 & premise2) -> conclusion"
       +:+ newline +:+ "  - all x ((p(x) & q(x)) -> r(x))"
       +:+ newline;
     "parentheses" :=
       newline
       +:+ "Parentheses must be balanced. Common mistakes:"
       +:+ newline +:+ "  - Missing closing: all x (p(x) -> q(x)"
       +:+ newline +:+ "  - Extra closing: all x (p(x) -> q(x)))"
       +:+ newline
       +:+ "  - Missing around quantifier scope: all x p(x) -> q(x)  [should be: all x (p(x) -> q(x))]"
       +:+ newline ]}.

(** [get_syntax_help] *)
Definition get_syntax_help (error_type : string) : string :=
  default "No specific help available" (help_messages !! error_type).

(** ** categorical_helpers.py *)

Module CategoricalHelpers.

(** [CategoricalHelpers.category_axioms] *)
Definition category_axioms : list string :=
  ["all x (object(x) -> exists i (morphism(i) & source(i,x) & target(i,x) & identity(i,x)))";
   "all x all i1 all i2 ((identity(i1,x) & identity(i2,x)) -> i1 = i2)";
   "all f all g ((morphism(f) & morphism(g) & target(f) = source(g)) -> exists h (morphism(h) & compose(g,f,h)))";
   "all f all g all h all fg all gh all fgh all gfh ((compose(g,f,fg) & compose(h,g,gh) & compose(h,fg,fgh) & compose(gh,f,gfh)) -> fgh = gfh)";
   "all f all a all id ((morphism(f) & source(f,a) & identity(id,a) & compose(f,id,comp)) -> comp = f)";
   "all f all b all id ((morphism(f) & target(f,b) & identity(id,b) & compose(id,f,comp)) -> comp = f)"].

(** [CategoricalHelpers.functor_axioms] *)
Definition functor_axioms (functor_name : string) : list string :=
  let f := lower functor_name in
  ["all x all id (identity(id,x) -> identity(" +:+ f +:+ "(id), " +:+ f
   +:+ "(x)))";
   "all g all h all gh ((compose(g,h,gh)) -> compose(" +:+ f +:+ "(g), "
   +:+ f +:+ "(h), " +:+ f +:+ "(gh)))"].

(** [CategoricalHelpers.natural_transformation_condition] *)
Definition natural_transformation_condition
    (functor_f functor_g component : string) : list string :=
  let f_lower := lower functor_f in
  let g_lower := lower functor_g in
  ["all morph all a all b ((morphism(morph) & source(morph,a) & target(morph,b)) -> exists comp1 exists comp2 (compose("
   +:+ g_lower +:+ "(morph), " +:+ component +:+ "(a), comp1) & compose("
   +:+ component +:+ "(b), " +:+ f_lower
   +:+ "(morph), comp2) & comp1 = comp2))"].

(** The dictionary that [_compose_path_helper] returns. *)
Record composition : Type := {
  premises : list string;
  result : string
}.

(** The name that the loop of [_compose_path_helper] gives to the
    composition at index [i]. *)
Definition temp_name (path : list string) (result_name : string) (i : nat)
  : string :=
  if (i <? List.length path - 1)%nat
  then result_name +:+ "_temp_" +:+ str_of_Z (Z.of_nat i)
  else result_name.

(** The body of that loop at index [i]; [path[i]] is in range there. *)
Definition compose_step (path : list string) (result_name : string)
    (state : composition) (i : nat) : composition :=
  {| premises :=
       premises state
       ++ ["compose(" +:+ nth i path "" +:+ ", " +:+ result state +:+ ", "
           +:+ temp_name path result_name i +:+ ")"];
     result := temp_name path result_name i |}.

(** [_compose_path_helper] *)
Definition _compose_path_helper (path : list string) (result_name : string)
  : M composition :=
  if (List.length path =? 1)%nat then
    first <- getitem path 0 ;;
    ret {| premises := []; result := first |}
  else
    current <- getitem path 0 ;;
    ret (fold_left (compose_step path result_name)
           (seq 1 (List.length path - 1))
           {| premises := []; result := current |}).

(** The body of the two loops of [verify_commutativity] that declare the
    morphisms of a path, for the pair [(i, morph)] of [enumerate]. *)
Definition declare_step (path : list string) (object_start object_end : string)
    (premises : list string) (item : nat * string) : list string :=
  let '(i, morph) := item in
  let premises :=
    if (i =? 0)%nat then
      premises
      ++ ["morphism(" +:+ morph +:+ ")";
          "source(" +:+ morph +:+ ", " +:+ object_start +:+ ")"]
    else premises ++ ["morphism(" +:+ morph +:+ ")"] in
  if (i =? List.length path - 1)%nat then
    premises ++ ["target(" +:+ morph +:+ ", " +:+ object_end +:+ ")"]
  else premises.

(** [enumerate(xs)] *)
Definition enumerate {A} (xs : list A) : list (nat * A) :=
  combine (seq 0 (List.length xs)) xs.

(** [CategoricalHelpers.verify_commutativity] *)
Definition verify_commutativity (path_a path_b : list string)
    (object_start object_end : string) : M (list string * string) :=
  let premises :=
    fold_left (declare_step path_a object_start object_end)
      (enumerate path_a) [] in
  let premises :=
    fold_left (declare_step path_b object_start object_end)
      (enumerate path_b) premises in
  comp_a <- _compose_path_helper path_a "comp_a" ;;
  comp_b <- _compose_path_helper path_b "comp_b" ;;
  let premises :=
    (premises ++ CategoricalHelpers.premises comp_a)
    ++ CategoricalHelpers.premises comp_b in
  let conclusion := result comp_a +:+ " = " +:+ result comp_b in
  ret (premises, conclusion).

(** [monoid_axioms] and [group_axioms] *)
Definition monoid_axioms : list string :=
  ["all x all y exists z (mult(x,y,z))";
   "all x all y all z all xy all yz all xyz all ybc ((mult(x,y,xy) & mult(y,z,yz) & mult(xy,z,xyz) & mult(x,yz,xyz2)) -> xyz = xyz2)";
   "exists e (all x (mult(e,x,x) & mult(x,e,x)))"].

Definition group_axioms : list string :=
  monoid_axioms ++ ["all x exists y (mult(x,y,e) & mult(y,x,e))"].

End CategoricalHelpers.

(** ** Notions used to state the properties *)

(** The text before the first occurrence of [sep] (all of [s] when there is
    none), and the text after it. *)
Definition before (sep s : string) : string :=
  match find_nat sep s with Some i => take i s | None => s end.

Definition after (sep s : string) : option string :=
  match find_nat sep s with
  | Some i => Some (PyStr.drop (i + String.length sep) s)
  | None => None
  end.

(** A run of [k] periods. *)
Fixpoint dots (k : nat) : string :=
  match k with
  | O => ""
  | S k => String "." (dots k)
  end.

(** The domain sizes that an output announces, in order: for each line that
    mentions [DOMAIN SIZE], its last whitespace-delimited token where that
    token reads as an integer. *)
Definition sizes_read (output : string) : list Z :=
  omap (fun line => last (fields line) ≫= int)
    (List.filter (contains "DOMAIN SIZE") (split newline output)).

(** The [function(] and [relation(] lines among [lines], trimmed, each after
    a line break. *)
Fixpoint listed (lines : list string) : string :=
  match lines with
  | [] => ""
  | line :: rest =>
      (if startswith "function(" (strip line)
          || startswith "relation(" (strip line)
       then newline +:+ strip line else "")
      +:+ listed rest
  end.

(** The last character of [pre], or [prev] when [pre] is empty: what stands
    just before the text that follows [pre]. *)
Fixpoint last_before (prev : option ascii) (pre : string) : option ascii :=
  match pre with
  | EmptyString => prev
  | String c t => last_before (Some c) t
  end.

(** Every character of [s] is in the class [p]. *)
Fixpoint all_chars (p : ascii -> bool) (s : string) : bool :=
  match s with
  | EmptyString => true
  | String c t => p c && all_chars p t
  end.

(** An output of the model finder for the worked examples. *)
Definition sample_output : string :=
  "DOMAIN SIZE 2" +:+ newline +:+ "DOMAIN SIZE 3" +:+ newline
  +:+ "interpretation( 3, [number=1], [" +:+ newline
  +:+ "  relation(P(_), [1,0,0])" +:+ newline
  +:+ "]). end_of_list" +:+ newline.

(** The possible outcomes of a model finder run. *)
Inductive finder_outcome (t : Z) : gmap string Mace4Wrapper.value -> Prop :=
| FinderModel (stdout : string) :
    finder_outcome t
      {[ "result" := Mace4Wrapper.VStr "model_found";
         "model" := Mace4Wrapper.VModel (Mace4Wrapper._parse_model stdout);
         "complete_output" := Mace4Wrapper.VStr stdout ]}
| FinderNoModel (stdout : string) :
    finder_outcome t
      {[ "result" := Mace4Wrapper.VStr "no_model_found";
         "reason" :=
           Mace4Wrapper.VStr "No finite model found within domain size limits";
         "complete_output" := Mace4Wrapper.VStr stdout ]}
| FinderSyntax (text : string) :
    finder_outcome t
      {[ "result" := Mace4Wrapper.VStr "error";
         "reason" := Mace4Wrapper.VStr "Syntax error or invalid input";
         "error" := Mace4Wrapper.VStr text ]}
| FinderUnknown (stdout stderr : string) :
    finder_outcome t
      {[ "result" := Mace4Wrapper.VStr "unknown";
         "reason" := Mace4Wrapper.VStr "Unexpected Mace4 output";
         "output" := Mace4Wrapper.VStr stdout;
         "error" := Mace4Wrapper.VStr stderr ]}
| FinderTimeout :
    finder_outcome t
      {[ "result" := Mace4Wrapper.VStr "timeout";
         "reason" :=
           Mace4Wrapper.VStr
             ("Model search exceeded " +:+ str_of_Z t +:+ " seconds") ]}
| FinderRaised (text : string) :
    finder_outcome t
      {[ "result" := Mace4Wrapper.VStr "error";
         "reason" := Mace4Wrapper.VStr text ]}.

(** Reading [s] from left to right with [depth] parentheses open: the
    number of closing parentheses met while none is open, and the number of
    parentheses left open at the end. *)
Fixpoint unmatched_closings (depth : nat) (s : string) : nat :=
  match s with
  | EmptyString => 0
  | String c t =>
      if Ascii.eqb c "(" then unmatched_closings (S depth) t
      else if Ascii.eqb c ")" then
        match depth with
        | O => S (unmatched_closings 0 t)
        | S d => unmatched_closings d t
        end
      else unmatched_closings depth t
  end.

Fixpoint open_at_end (depth : nat) (s : string) : nat :=
  match s with
  | EmptyString => depth
  | String c t =>
      if Ascii.eqb c "(" then open_at_end (S depth) t
      else if Ascii.eqb c ")" then open_at_end (Nat.pred depth) t
      else open_at_end depth t
  end.

(** The parentheses of [s] are balanced. *)
Definition balanced (s : string) : bool :=
  Nat.eqb (unmatched_closings 0 s) 0 && Nat.eqb (open_at_end 0 s) 0.

(** An operating system for the worked examples: temporary files are
    named [/tmp/tmpq3x8.in], every write goes through, nothing is protected
    against deletion, and every solver run ends the way [outcome] says,
    leaving the files alone. *)
Definition sample_path : path := [""; "tmp"; "tmpq3x8.in"].

Definition sample_os (outcome : exn + string * string) : os_model :=
  {| os_mkstemp := fun _ _ => inr sample_path;
     os_write := fun _ _ _ => None;
     os_run := fun _ _ _ fs => (outcome, fs);
     os_unlink_refused := fun _ => false |}.

(** The same, with a disk that fills up once [written] characters of a new
    file have been written. *)
Definition full_disk_os (written : nat) : os_model :=
  {| os_mkstemp := fun _ _ => inr sample_path;
     os_write := fun _ _ _ =>
                   Some (Exn OSError "[Errno 28] No space left on device",
                         written);
     os_run := fun _ _ _ fs => (inr ("", ""), fs);
     os_unlink_refused := fun _ => false |}.

(** The outcome of a call that some exception outside [Exception] ended. *)
Definition interrupted {A} (outcome : exn + A) : bool :=
  match outcome with
  | inl e => negb (is_Exception (exn_cls e))
  | inr _ => false
  end.

(** How the [except Exception] clause of [handle_call_tool] ends a call
    that raised [e]: with the text of [e] as the reply, or with [e] itself
    when it is outside [Exception]. *)
Definition answered (e : exn) : exn + tool_reply :=
  if is_Exception (exn_cls e)
  then inr (ReplyError ("Error: " +:+ exn_str e))
  else inl e.

(** What [_create_input_file] leaves when the name [p] was picked for the
    text [text]: the path and the file, or the exception of the write and
    the part of the text that was written. *)
Definition written_file (os : os_model) (p : path) (text : string)
    (fs : filesystem) : (exn + path) * filesystem :=
  match os_write os p text fs with
  | None => (inr p, <[p := text]> fs)
  | Some (e, written) => (inl e, <[p := take written text]> fs)
  end.

(** The files left by the [finally] clause of a runner: the input file is
    gone unless its deletion was refused. *)
Definition after_cleanup (os : os_model) (p : path) (fs : filesystem)
  : filesystem :=
  if os_unlink_refused os p then fs else delete p fs.

(** The command line of a run and its working directory. *)
Definition argv (exe input_path : path) : list string :=
  [str_of_path exe; "-f"; str_of_path input_path].

Definition cwd (exe : path) : string := str_of_path (parent exe).

Definition sample_engine : LogicEngine.t :=
  {| LogicEngine.prover_path := [""; "opt"; "ladr"; "bin"];
     LogicEngine.prover_exe := [""; "opt"; "ladr"; "bin"; "prover9.exe"] |}.

Definition sample_finder : Mace4Wrapper.t :=
  {| Mace4Wrapper.mace4_path := [""; "opt"; "ladr"; "bin"];
     Mace4Wrapper.mace4_exe := [""; "opt"; "ladr"; "bin"; "mace4"] |}.

Arguments contains : simpl never.
Arguments split : simpl never.
Arguments strip : simpl never.
Arguments str_of_Z : simpl never.

(** ** The primitives on concrete inputs *)

Example split_overlapping : split "==" "=====" = [""; ""; "="].
Proof. reflexivity. Qed.

Example count_arrows : count "->" "a->b->c" = 2%Z.
Proof. reflexivity. Qed.

Example fields_of_line : fields "  DOMAIN  SIZE 2 " = ["DOMAIN"; "SIZE"; "2"].
Proof. reflexivity. Qed.

Example int_of_tokens :
  int "-1_0" = Some (-10)%Z /\ int "007" = Some 7%Z /\ int "1__0" = None
  /\ int "2." = None /\ int "=====" = None.
Proof. repeat split; reflexivity. Qed.

Example int_digit_cap :
  int (String.concat "" (repeat "7" 4300)) <> None
  /\ int (String.concat "" (repeat "7" 4301)) = None
  /\ int (String.concat "" ("-" :: repeat "0_0" 2150)) = Some 0%Z
  /\ int (String.concat "" (repeat "0" 4300 ++ ["1"])) = None.
Proof.
  repeat split; [vm_compute; discriminate|vm_compute; reflexivity..].
Qed.

Example names_found :
  Re.finditer Re.match_name "true(x) & all X p(X) & f() -> a"
  = [("true", 5); ("p", 18); ("f", 25)].
Proof. reflexivity. Qed.

Example quantifier_matches_do_not_overlap :
  Re.finditer (Re.match_quantifier "all") "all all x (p)" = [("all", 7)].
Proof. reflexivity. Qed.

Example validate_well_formed (order : SyntaxValidator.set_order) :
  SyntaxValidator.validate order "all x (man(x) -> mortal(x))"
  = (true, [], []).
Proof. destruct order; reflexivity. Qed.

Example validate_unbalanced (order : SyntaxValidator.set_order) :
  SyntaxValidator.validate order "all x (p(x) -> q(x)"
  = (false, ["Unmatched opening parenthesis at position 6"], []).
Proof. destruct order; reflexivity. Qed.

(** ** Facts about the string primitives *)

Section StringFacts.

Lemma sapp_nil_l (s : string) : "" +:+ s = s.
Proof. reflexivity. Qed.

Lemma sapp_cons (c : ascii) (a b : string) :
  String c a +:+ b = String c (a +:+ b).
Proof. reflexivity. Qed.

Lemma sapp_nil_r (s : string) : s +:+ "" = s.
Proof. induction s as [|c s IH]; [reflexivity|]. rewrite sapp_cons, IH. reflexivity. Qed.

Lemma sapp_assoc (a b c : string) : (a +:+ b) +:+ c = a +:+ b +:+ c.
Proof.
  induction a as [|x a IH]; [reflexivity|].
  rewrite !sapp_cons, IH. reflexivity.
Qed.

Lemma length_sapp (a b : string) :
  String.length (a +:+ b) = String.length a + String.length b.
Proof.
  induction a as [|x a IH]; [reflexivity|].
  rewrite sapp_cons. simpl. rewrite IH. reflexivity.
Qed.

Lemma prefix_nil (s : string) : String.prefix "" s = true.
Proof. destruct s; reflexivity. Qed.

Lemma prefix_cons (a b : ascii) (p s : string) :
  String.prefix (String a p) (String b s)
  = if Ascii.eqb a b then String.prefix p s else false.
Proof.
  simpl. destruct (ascii_dec a b) as [->|Hne].
  - rewrite Ascii.eqb_refl. reflexivity.
  - apply Ascii.eqb_neq in Hne. rewrite Hne. reflexivity.
Qed.

Lemma prefix_app (p s : string) : String.prefix p (p +:+ s) = true.
Proof.
  induction p as [|a p IH]; [apply prefix_nil|].
  rewrite sapp_cons, prefix_cons, Ascii.eqb_refl. exact IH.
Qed.

Lemma prefix_inv (p s : string) :
  String.prefix p s = true -> s = p +:+ PyStr.drop (String.length p) s.
Proof.
  revert s. induction p as [|a p IH]; intros s H; [reflexivity|].
  destruct s as [|b s]; [discriminate|].
  rewrite prefix_cons in H.
  destruct (Ascii.eqb a b) eqn:E; [|discriminate].
  apply Ascii.eqb_eq in E. subst b.
  rewrite sapp_cons. simpl. f_equal. apply IH, H.
Qed.

Lemma prefix_app_long (p a x : string) :
  String.length p <= String.length a ->
  String.prefix p (a +:+ x) = String.prefix p a.
Proof.
  revert a. induction p as [|c p IH]; intros a H.
  - rewrite !prefix_nil. reflexivity.
  - destruct a as [|d a]; [simpl in H; lia|].
    rewrite sapp_cons, !prefix_cons.
    destruct (Ascii.eqb c d); [|reflexivity].
    apply IH. simpl in H. lia.
Qed.

Lemma drop_0 (s : string) : PyStr.drop 0 s = s.
Proof. destruct s; reflexivity. Qed.

Lemma take_0 (s : string) : take 0 s = "".
Proof. destruct s; reflexivity. Qed.

Lemma drop_app (a b : string) : PyStr.drop (String.length a) (a +:+ b) = b.
Proof.
  induction a as [|x a IH]; [apply drop_0|].
  rewrite sapp_cons. simpl. exact IH.
Qed.

Lemma take_app (a b : string) : take (String.length a) (a +:+ b) = a.
Proof.
  induction a as [|x a IH]; [apply take_0|].
  rewrite sapp_cons. simpl. rewrite IH. reflexivity.
Qed.

Lemma take_drop (n : nat) (s : string) : take n s +:+ PyStr.drop n s = s.
Proof.
  revert s. induction n as [|n IH]; intros s.
  - rewrite take_0, drop_0. reflexivity.
  - destruct s as [|c s]; [reflexivity|].
    simpl. rewrite sapp_cons, IH. reflexivity.
Qed.

Lemma drop_app_le (n : nat) (a b : string) :
  n <= String.length a -> PyStr.drop n (a +:+ b) = PyStr.drop n a +:+ b.
Proof.
  revert a. induction n as [|n IH]; intros a H.
  - rewrite !drop_0. reflexivity.
  - destruct a as [|c a]; [simpl in H; lia|].
    rewrite sapp_cons. simpl. apply IH. simpl in H. lia.
Qed.

Lemma take_app_le (n : nat) (a b : string) :
  n <= String.length a -> take n (a +:+ b) = take n a.
Proof.
  revert a. induction n as [|n IH]; intros a H.
  - rewrite !take_0. reflexivity.
  - destruct a as [|c a]; [simpl in H; lia|].
    rewrite sapp_cons. simpl. rewrite IH; [reflexivity|]. simpl in H. lia.
Qed.

Lemma take_app_ge (n : nat) (a b : string) :
  take (String.length a + n) (a +:+ b) = a +:+ take n b.
Proof.
  induction a as [|c a IH]; [reflexivity|].
  rewrite !sapp_cons. simpl. rewrite IH. reflexivity.
Qed.

Lemma drop_drop (n m : nat) (s : string) :
  PyStr.drop n (PyStr.drop m s) = PyStr.drop (m + n) s.
Proof.
  revert s. induction m as [|m IH]; intros s.
  - rewrite drop_0. reflexivity.
  - destruct s as [|c s]; simpl.
    + destruct n; reflexivity.
    + apply IH.
Qed.

Lemma length_drop (n : nat) (s : string) :
  String.length (PyStr.drop n s) = String.length s - n.
Proof.
  revert s. induction n as [|n IH]; intros s.
  - rewrite drop_0. lia.
  - destruct s as [|c s]; [reflexivity|]. simpl. apply IH.
Qed.

Lemma find_nat_nil_l (s : string) : find_nat "" s = Some 0.
Proof. destruct s; reflexivity. Qed.

Lemma find_nat_cons (sub : string) (c : ascii) (t : string) :
  find_nat sub (String c t)
  = if String.prefix sub (String c t) then Some 0 else S <$> find_nat sub t.
Proof. reflexivity. Qed.

Lemma find_nat_bound (sub s : string) (i : nat) :
  find_nat sub s = Some i -> i + String.length sub <= String.length s.
Proof.
  revert i. induction s as [|c s IH]; intros i H.
  - destruct sub; [|discriminate]. injection H as <-. simpl. lia.
  - rewrite find_nat_cons in H.
    destruct (String.prefix sub (String c s)) eqn:E.
    + injection H as <-. apply prefix_inv in E.
      rewrite E, length_sapp. lia.
    + destruct (find_nat sub s) as [j|] eqn:F; [|discriminate].
      injection H as <-. specialize (IH j eq_refl). simpl. lia.
Qed.

Lemma find_nat_prefix (sub s : string) (i : nat) :
  find_nat sub s = Some i -> String.prefix sub (PyStr.drop i s) = true.
Proof.
  revert i. induction s as [|c s IH]; intros i H.
  - destruct sub; [|discriminate]. injection H as <-. reflexivity.
  - rewrite find_nat_cons in H.
    destruct (String.prefix sub (String c s)) eqn:E.
    + injection H as <-. exact E.
    + destruct (find_nat sub s) as [j|] eqn:F; [|discriminate].
      injection H as <-. simpl. apply IH. reflexivity.
Qed.

(** The first occurrence of [sub] in [m +:+ sub +:+ x] is found without
    looking at [x]. *)
Lemma find_nat_app_sub (sub m x : string) :
  find_nat sub (m +:+ sub +:+ x) = find_nat sub (m +:+ sub).
Proof.
  induction m as [|c m IH].
  - rewrite !sapp_nil_l.
    destruct sub as [|a sub]; [rewrite !find_nat_nil_l; reflexivity|].
    rewrite sapp_cons, !find_nat_cons.
    rewrite <- sapp_cons, prefix_app.
    replace (String a sub) with (String a sub +:+ "") at 2 by apply sapp_nil_r.
    rewrite prefix_app. reflexivity.
  - rewrite !sapp_cons, !find_nat_cons, IH.
    rewrite <- !sapp_cons, <- sapp_assoc.
    rewrite prefix_app_long; [reflexivity|].
    rewrite length_sapp. lia.
Qed.

Lemma find_nat_app_here (sub m x : string) :
  find_nat sub (m +:+ sub) = Some (String.length m) ->
  find_nat sub (m +:+ sub +:+ x) = Some (String.length m).
Proof. intros H. rewrite find_nat_app_sub. exact H. Qed.

Lemma contains_app (sub a b : string) : contains sub (a +:+ sub +:+ b) = true.
Proof.
  unfold contains. induction a as [|c a IH].
  - rewrite sapp_nil_l.
    destruct sub as [|x sub]; [rewrite find_nat_nil_l; reflexivity|].
    rewrite sapp_cons, find_nat_cons, <- sapp_cons, prefix_app. reflexivity.
  - rewrite sapp_cons, find_nat_cons.
    destruct (String.prefix sub _); [reflexivity|].
    destruct (find_nat sub (a +:+ sub +:+ b)); [reflexivity|discriminate].
Qed.

Lemma split_upto_stable (sep : string) (n m : nat) (s : string) :
  sep <> "" -> String.length s <= n -> String.length s <= m ->
  split_upto n sep s = split_upto m sep s.
Proof.
  intros Hsep. revert m s. induction n as [|n IH]; intros m s Hn Hm.
  - destruct s; [|simpl in Hn; lia].
    destruct sep; [congruence|].
    destruct m; reflexivity.
  - destruct m as [|m].
    + destruct s; [|simpl in Hm; lia].
      destruct sep; [congruence|]. reflexivity.
    + simpl. destruct (find_nat sep s) as [i|] eqn:F; [|reflexivity].
      f_equal. pose proof (find_nat_bound _ _ _ F) as B.
      assert (0 < String.length sep) by (destruct sep; [congruence|simpl; lia]).
      apply IH; rewrite length_drop; lia.
Qed.

(** The recursion equation of [split]: the bound is never exhausted. *)
Lemma split_unfold (sep s : string) :
  sep <> "" ->
  split sep s
  = match find_nat sep s with
    | None => [s]
    | Some i => take i s :: split sep (PyStr.drop (i + String.length sep) s)
    end.
Proof.
  intros Hsep. unfold split.
  destruct (find_nat sep s) as [i|] eqn:F.
  - pose proof (find_nat_bound _ _ _ F) as B.
    assert (0 < String.length sep) by (destruct sep; [congruence|simpl; lia]).
    destruct (String.length s) as [|n] eqn:L; [lia|].
    simpl. rewrite F. f_equal.
    apply split_upto_stable; [exact Hsep| |lia].
    rewrite length_drop. lia.
  - destruct (String.length s); simpl; rewrite F; reflexivity.
Qed.

Lemma split_0 (sep s : string) :
  sep <> "" -> getitem (split sep s) 0 = ret (before sep s).
Proof.
  intros Hsep. rewrite split_unfold by exact Hsep. unfold before.
  destruct (find_nat sep s); reflexivity.
Qed.

Lemma split_1 (sep s : string) :
  sep <> "" ->
  getitem (split sep s) 1
  = match after sep s with
    | Some r => ret (before sep r)
    | None => raise (Exn IndexError "list index out of range")
    end.
Proof.
  intros Hsep. rewrite split_unfold by exact Hsep. unfold after.
  destruct (find_nat sep s) as [i|]; [|reflexivity].
  rewrite split_unfold by exact Hsep. unfold before.
  destruct (find_nat sep _); reflexivity.
Qed.

Lemma contains_after (sep s : string) :
  contains sep s = true <-> exists r, after sep s = Some r.
Proof.
  unfold contains, after. destruct (find_nat sep s); split.
  - eauto.
  - reflexivity.
  - discriminate.
  - intros [r Hr]. discriminate.
Qed.

Lemma endswith_cons (suffix : string) (c : ascii) (t : string) :
  endswith suffix (String c t)
  = (String c t =? suffix)%string || endswith suffix t.
Proof. reflexivity. Qed.

Lemma endswith_app (suffix a : string) : endswith suffix (a +:+ suffix) = true.
Proof.
  induction a as [|c a IH].
  - rewrite sapp_nil_l. destruct suffix; simpl; rewrite ?String.eqb_refl;
      try rewrite Ascii.eqb_refl; reflexivity.
  - rewrite sapp_cons, endswith_cons, IH. apply orb_true_r.
Qed.

(** A text ends in two periods only if it ends in one. *)
Lemma endswith_dots_dot (s : string) :
  endswith ".." s = true -> endswith "." s = true.
Proof.
  induction s as [|c s IH]; [discriminate|].
  rewrite !endswith_cons. intros H. apply orb_true_iff in H as [H|H].
  - apply String.eqb_eq in H. injection H as -> ->. reflexivity.
  - rewrite (IH H). apply orb_true_r.
Qed.

Lemma endswith_dots_app_dot (s : string) :
  endswith ".." (s +:+ ".") = endswith "." s.
Proof.
  induction s as [|c s IH]; [reflexivity|].
  rewrite sapp_cons, !endswith_cons, IH. f_equal.
  destruct s as [|d s].
  - rewrite sapp_nil_l. simpl. destruct (Ascii.eqb c "."); reflexivity.
  - rewrite sapp_cons. simpl. destruct (Ascii.eqb c "."); [|reflexivity].
    destruct (Ascii.eqb d "."); [|reflexivity].
    destruct s; reflexivity.
Qed.

Lemma fmap_add_0 (o : option nat) : (fun j => 0 + j) <$> o = o.
Proof. destruct o; reflexivity. Qed.

(** Searching a one-character text in a concatenation. *)
Lemma find_nat_char (c : ascii) (a b : string) :
  find_nat (String c "") (a +:+ b)
  = match find_nat (String c "") a with
    | Some i => Some i
    | None => (fun j => String.length a + j) <$> find_nat (String c "") b
    end.
Proof.
  induction a as [|x a IH].
  - rewrite sapp_nil_l. simpl. symmetry. apply fmap_add_0.
  - rewrite sapp_cons, !find_nat_cons, !prefix_cons, !prefix_nil, IH.
    destruct (Ascii.eqb c x); [reflexivity|].
    destruct (find_nat (String c "") a); [reflexivity|].
    destruct (find_nat (String c "") b); reflexivity.
Qed.

Lemma contains_char_app (c : ascii) (a b : string) :
  contains (String c "") (a +:+ b)
  = contains (String c "") a || contains (String c "") b.
Proof.
  unfold contains. rewrite find_nat_char.
  destruct (find_nat (String c "") a); [reflexivity|].
  destruct (find_nat (String c "") b); reflexivity.
Qed.

Lemma drop_app_ge (n : nat) (a b : string) :
  PyStr.drop (String.length a + n) (a +:+ b) = PyStr.drop n b.
Proof.
  induction a as [|c a IH]; [reflexivity|].
  rewrite sapp_cons. simpl. exact IH.
Qed.

Lemma find_nat_char_first (c : ascii) (x r : string) :
  contains (String c "") x = false ->
  find_nat (String c "") (x +:+ String c r) = Some (String.length x).
Proof.
  intros Hx. rewrite find_nat_char. unfold contains in Hx.
  destruct (find_nat (String c "") x); [discriminate|].
  rewrite find_nat_cons, prefix_cons, Ascii.eqb_refl, prefix_nil.
  simpl. f_equal. lia.
Qed.

(** Joining lines that hold no line break and splitting the text again gives
    the lines back. *)
Lemma split_join (lines : list string) :
  lines <> [] ->
  Forall (fun l => contains newline l = false) lines ->
  split newline (join newline lines) = lines.
Proof.
  assert (Hnl : newline <> "") by discriminate.
  induction lines as [|x rest IH]; [congruence|].
  intros _ Hall. inversion Hall as [|? ? Hx Hrest]; subst.
  destruct rest as [|y rest].
  - simpl. rewrite split_unfold by exact Hnl.
    unfold contains in Hx. destruct (find_nat newline x); [discriminate|].
    reflexivity.
  - change (join newline (x :: y :: rest))
      with (x +:+ String "010" (join newline (y :: rest))).
    rewrite split_unfold by exact Hnl.
    change newline with (String "010" "") at 1.
    rewrite find_nat_char_first by exact Hx.
    rewrite take_app.
    change (String.length newline) with 1.
    rewrite drop_app_ge. simpl PyStr.drop.
    f_equal. apply IH; [discriminate|exact Hrest].
Qed.

Lemma contains_inv (sub s : string) :
  contains sub s = true -> exists a b, s = a +:+ sub +:+ b.
Proof.
  unfold contains. destruct (find_nat sub s) as [i|] eqn:F; [|discriminate].
  intros _. exists (take i s), (PyStr.drop (String.length sub) (PyStr.drop i s)).
  rewrite <- (prefix_inv _ _ (find_nat_prefix _ _ _ F)).
  symmetry. apply take_drop.
Qed.

(** A text joined from lines contains each of them. *)
Lemma contains_join_line (sep line : string) (lines : list string) :
  In line lines -> contains line (join sep lines) = true.
Proof.
  induction lines as [|x rest IH]; [intros []|].
  intros [->|Hin].
  - destruct rest as [|y rest].
    + simpl. rewrite <- (sapp_nil_r line) at 2.
      apply (contains_app line "" "").
    + change (join sep (line :: y :: rest))
        with (line +:+ sep +:+ join sep (y :: rest)).
      apply (contains_app line "").
  - destruct rest as [|y rest]; [destruct Hin|].
    change (join sep (x :: y :: rest))
      with (x +:+ sep +:+ join sep (y :: rest)).
    destruct (contains_inv _ _ (IH Hin)) as [a [b ->]].
    rewrite <- !sapp_assoc. rewrite sapp_assoc.
    apply contains_app.
Qed.

Lemma rstrip_by_cons (p : ascii -> bool) (c : ascii) (t : string) :
  rstrip_by p (String c t)
  = match rstrip_by p t with
    | EmptyString => if p c then EmptyString else String c EmptyString
    | r => String c r
    end.
Proof. reflexivity. Qed.

(** [rstrip] removes a run of periods and nothing else. *)
Lemma rstrip_dot_dots (s : string) : exists k, s = rstrip_dot s +:+ dots k.
Proof.
  unfold rstrip_dot. induction s as [|c s [k IH]]; [exists 0; reflexivity|].
  rewrite rstrip_by_cons.
  destruct (rstrip_by _ s) as [|d r] eqn:R.
  - destruct (Ascii.eqb c ".") eqn:E.
    + apply Ascii.eqb_eq in E. subst c. exists (S k).
      rewrite IH at 1. reflexivity.
    + exists k. rewrite IH at 1. reflexivity.
  - exists k. rewrite IH at 1. reflexivity.
Qed.

(** What [rstrip] leaves does not end in a period. *)
Lemma rstrip_dot_no_dot (s : string) : endswith "." (rstrip_dot s) = false.
Proof.
  unfold rstrip_dot. induction s as [|c s IH]; [reflexivity|].
  rewrite rstrip_by_cons.
  destruct (rstrip_by _ s) as [|d r] eqn:R.
  - destruct (Ascii.eqb c ".") eqn:E; [reflexivity|].
    simpl. rewrite E. reflexivity.
  - rewrite endswith_cons, IH. simpl.
    destruct (Ascii.eqb c "."); reflexivity.
Qed.

(** Text after a character that [p] rejects protects it from [rstrip]. *)
Lemma rstrip_by_app (p : ascii -> bool) (a : string) (c : ascii) (b : string) :
  p c = false ->
  rstrip_by p (a +:+ String c b) = a +:+ String c (rstrip_by p b).
Proof.
  intros Hc. induction a as [|x a IH].
  - rewrite !sapp_nil_l, rstrip_by_cons, Hc.
    destruct (rstrip_by p b); reflexivity.
  - rewrite !sapp_cons, rstrip_by_cons, IH.
    destruct a; reflexivity.
Qed.

End StringFacts.

(** ** The solver input builders *)

Section InputBuilder.

Lemma terminate_ends (f : string) : endswith "." (terminate f) = true.
Proof.
  unfold terminate. destruct (endswith "." f) eqn:E; [exact E|].
  apply endswith_app.
Qed.

Lemma terminate_same (f : string) :
  endswith "." f = true -> terminate f = f.
Proof. unfold terminate. intros ->. reflexivity. Qed.

Lemma terminate_adds (f : string) :
  endswith "." f = false -> terminate f = f +:+ ".".
Proof. unfold terminate. intros ->. reflexivity. Qed.

Lemma terminate_idem (f : string) : terminate (terminate f) = terminate f.
Proof. apply terminate_same, terminate_ends. Qed.

Lemma terminate_two_periods (f : string) :
  endswith ".." (terminate f) = endswith ".." f.
Proof.
  unfold terminate. destruct (endswith "." f) eqn:E; [reflexivity|].
  rewrite endswith_dots_app_dot, E.
  destruct (endswith ".." f) eqn:D; [|reflexivity].
  apply endswith_dots_dot in D. congruence.
Qed.

Lemma terminate_one_line (f : string) :
  contains newline f = false -> contains newline (terminate f) = false.
Proof.
  intros H. unfold terminate. destruct (endswith "." f); [exact H|].
  unfold newline in *. rewrite contains_char_app, H. reflexivity.
Qed.

Lemma prover_lines_one_line (premises : list string) (goal : string) :
  Forall (fun f => contains newline f = false) (goal :: premises) ->
  Forall (fun l => contains newline l = false)
    (LogicEngine.input_lines premises goal).
Proof.
  intros H. inversion H as [|? ? Hg Hp]; subst.
  unfold LogicEngine.input_lines.
  apply List.Forall_app. split; [repeat constructor|].
  apply List.Forall_app. split.
  - apply List.Forall_forall. intros l Hl.
    apply in_map_iff in Hl as [f [<- Hf]].
    apply terminate_one_line. rewrite List.Forall_forall in Hp. apply Hp, Hf.
  - repeat constructor. apply terminate_one_line, Hg.
Qed.

(** C6, as stated, fails: a premise that already ends in two periods is
    emitted unchanged, so its line ends in two periods. *)
Lemma two_periods_kept :
  ~ (forall premises goal line,
       In line (LogicEngine.input_lines premises goal) ->
       endswith ".." line = false).
Proof.
  intros H. specialize (H ["p.."] "q" "p..").
  assert (In "p.." (LogicEngine.input_lines ["p.."] "q")) as Hin
    by (right; left; reflexivity).
  apply H in Hin. discriminate.
Qed.

(** C6, amended: for every premise list and goal, the text that the
    prover input builder writes is, joined by line breaks, the assumptions
    header, each premise once and in order, the closing line, an empty
    string, the goals header, the goal once, and the closing line; the
    model-finder input holds the same assumptions block between its
    directives and what follows.  Each of these formula entries is the
    formula itself when that already ends in a period, and the formula with
    one period appended otherwise: every entry ends in a period, terminating
    twice changes nothing, and an entry ends in two periods exactly when the
    formula given did.  When no premise and no goal holds a line break, the
    entries are exactly the lines of the file. *)
Theorem input_block_lines (os : os_model) (premises : list string)
    (goal : string) (fs : filesystem) (p : path) :
  os_mkstemp os ".in" fs = inr p ->
  let lines :=
    ["formulas(assumptions)."] ++ map terminate premises
    ++ ["end_of_list."; ""; "formulas(goals)."; terminate goal;
        "end_of_list."] in
  LogicEngine._create_input_file os premises goal fs
  = written_file os p (join newline lines) fs
  /\ (Forall (fun f => contains newline f = false) (goal :: premises) ->
      split newline (join newline lines) = lines)
  /\ (forall g d, exists header tail,
        Mace4Wrapper.input_lines premises g d
        = header ++ ["formulas(assumptions)."] ++ map terminate premises
          ++ ["end_of_list."] ++ tail
        /\ Forall (fun l => startswith "assign(" l = true \/ l = "") header
        /\ (tail = [""]
            \/ exists negated,
                 tail = [""; "formulas(goals)."; negated; "end_of_list."]))
  /\ (forall f,
        endswith "." (terminate f) = true
        /\ (endswith "." f = true -> terminate f = f)
        /\ (endswith "." f = false -> terminate f = f +:+ ".")
        /\ terminate (terminate f) = terminate f
        /\ endswith ".." (terminate f) = endswith ".." f).
Proof.
  intros Hp lines. split; [|split; [|split]].
  - unfold LogicEngine._create_input_file, write_temp. rewrite Hp.
    reflexivity.
  - intros Hone. apply split_join.
    + discriminate.
    + apply prover_lines_one_line, Hone.
  - intros g d. unfold Mace4Wrapper.input_lines.
    exists ((match d with
             | Some n => ["assign(domain_size, " +:+ str_of_Z n +:+ ")."]
             | None => ["assign(domain_size, 2)."; "assign(end_size, 10)."]
             end) ++ ["assign(max_seconds, 60)."; ""]).
    exists ("" :: match g with
                  | Some g =>
                      if (g =? "")%string then []
                      else ["formulas(goals).";
                            ("-((" +:+ rstrip_dot g +:+ "))") +:+ ".";
                            "end_of_list."]
                  | None => []
                  end).
    split; [rewrite <- !app_assoc; reflexivity|]. split.
    + destruct d; simpl;
        repeat (apply List.Forall_cons;
                [first [left; reflexivity | right; reflexivity]|]);
        apply List.Forall_nil.
    + destruct g as [g|]; [destruct (g =? "")%string|]; eauto.
  - intros f. repeat split.
    + apply terminate_ends.
    + apply terminate_same.
    + apply terminate_adds.
    + apply terminate_idem.
    + apply terminate_two_periods.
Qed.

Lemma input_block_lines_socrates :
  let lines :=
    ["formulas(assumptions).";
     "all x (man(x) -> mortal(x)).";
     "man(socrates).";
     "end_of_list.";
     "";
     "formulas(goals).";
     "mortal(socrates).";
     "end_of_list."] in
  LogicEngine._create_input_file (sample_os (inr ("", "")))
    ["all x (man(x) -> mortal(x))"; "man(socrates)."] "mortal(socrates)" ∅
  = (inr sample_path, <[sample_path := join newline lines]> ∅)
  /\ split newline (join newline lines) = lines.
Proof.
  pose proof (input_block_lines (sample_os (inr ("", "")))
                ["all x (man(x) -> mortal(x))"; "man(socrates)."]
                "mortal(socrates)" ∅ sample_path eq_refl)
    as [Hfile [Hlines _]].
  split; [exact Hfile|exact (Hlines ltac:(repeat constructor))].
Defined.

(** C1, as stated, fails: an empty goal string counts as no goal, and the
    input gets no goals block at all. *)
Lemma empty_goal_no_block :
  ~ (forall premises goal d, exists lines,
       Mace4Wrapper.input_lines premises (Some goal) d
       = lines ++ ["formulas(goals).";
                   "-((" +:+ rstrip_dot goal +:+ ")).";
                   "end_of_list."]).
Proof.
  intros H. destruct (H [] "" None) as [lines Hl].
  apply (f_equal (@rev string)) in Hl.
  rewrite rev_app_distr in Hl. discriminate Hl.
Qed.

(** C1, amended: for every non-empty goal string the model-finder input is
    the input built without a goal followed by the goals block, whose only
    formula line is the goal without its trailing periods, wrapped as
    [-((goal))] and closed by a single period; the text handed to the input
    file is these lines joined by line breaks, and contains that line. *)
Theorem goal_negated (os : os_model) (premises : list string) (goal : string)
    (d : option Z) (fs : filesystem) (p : path) :
  goal <> "" ->
  os_mkstemp os ".in" fs = inr p ->
  let negated := "-((" +:+ rstrip_dot goal +:+ "))." in
  let lines := Mace4Wrapper.input_lines premises (Some goal) d in
  lines = Mace4Wrapper.input_lines premises None d
          ++ ["formulas(goals)."; negated; "end_of_list."]
  /\ (exists k, goal = rstrip_dot goal +:+ dots k)
  /\ endswith "." (rstrip_dot goal) = false
  /\ Mace4Wrapper._create_input_file os premises (Some goal) d fs
     = written_file os p (join newline lines) fs
  /\ contains negated (join newline lines) = true.
Proof.
  intros Hgoal Hp negated lines.
  assert (Hlines : lines = Mace4Wrapper.input_lines premises None d
                           ++ ["formulas(goals)."; negated; "end_of_list."]).
  { unfold lines, Mace4Wrapper.input_lines.
    apply String.eqb_neq in Hgoal. rewrite Hgoal.
    rewrite app_nil_r, <- !app_assoc.
    unfold negated. rewrite !sapp_assoc. reflexivity. }
  split; [exact Hlines|].
  split; [apply rstrip_dot_dots|].
  split; [apply rstrip_dot_no_dot|].
  split.
  - unfold Mace4Wrapper._create_input_file, write_temp. rewrite Hp.
    reflexivity.
  - rewrite Hlines. apply contains_join_line.
    apply in_or_app. right. right. left. reflexivity.
Qed.

Lemma goal_negated_P_b :
  Mace4Wrapper.input_lines ["P(a)"] (Some "P(b)") (Some 2%Z)
  = ["assign(domain_size, 2).";
     "assign(max_seconds, 60).";
     "";
     "formulas(assumptions).";
     "P(a).";
     "end_of_list.";
     "";
     "formulas(goals).";
     "-((P(b))).";
     "end_of_list."]
  /\ contains "-((P(b)))."
       (join newline
          (Mace4Wrapper.input_lines ["P(a)"] (Some "P(b)") (Some 2%Z)))
     = true.
Proof.
  pose proof (goal_negated (sample_os (inr ("", ""))) ["P(a)"] "P(b)"
                (Some 2%Z) ∅ sample_path ltac:(discriminate) eq_refl)
    as [Hlines [_ [_ [_ Hcontains]]]].
  split; [exact Hlines|exact Hcontains].
Defined.

End InputBuilder.

(** ** The process runners *)

Section Runner.

Lemma cleanup_any (os : os_model) (p : path) (fs : filesystem) :
  try_except (unlink os p) (fun _ => Some (ret tt)) fs
  = (inr tt, after_cleanup os p fs).
Proof.
  unfold try_except, unlink, after_cleanup.
  destruct (fs !! p) eqn:E.
  - destruct (os_unlink_refused os p); reflexivity.
  - simpl. rewrite delete_id by exact E.
    destruct (os_unlink_refused os p); reflexivity.
Qed.

Lemma cleanup_oserror (os : os_model) (p : path) (fs : filesystem) :
  try_except (unlink os p)
    (fun e => if is_OSError (exn_cls e) then Some (ret tt) else None) fs
  = (inr tt, after_cleanup os p fs).
Proof.
  unfold try_except, unlink, after_cleanup.
  destruct (fs !! p) eqn:E.
  - destruct (os_unlink_refused os p); reflexivity.
  - simpl. rewrite delete_id by exact E.
    destruct (os_unlink_refused os p); reflexivity.
Qed.

(** A [finally] clause that cannot raise leaves the outcome of the body as
    it is. *)
Lemma try_finally_quiet {A} (m : M A) (c : M unit)
    (g : filesystem -> filesystem) (fs : filesystem) :
  (forall fs', c fs' = (inr tt, g fs')) ->
  try_finally m c fs = (fst (m fs), g (snd (m fs))).
Proof.
  intros Hc. unfold try_finally. destruct (m fs) as [r fs'].
  rewrite Hc. reflexivity.
Qed.

(** A second [PROOF =] marker cannot begin before a [====] delimiter that is
    preceded by text free of the marker. *)
Lemma marker_after_delimiter (m post : string) (j : nat) :
  find_nat "PROOF =" (m +:+ "====") = None ->
  find_nat "PROOF =" (m +:+ "====" +:+ post) = Some j ->
  String.length m + 4 <= j.
Proof.
  revert j. induction m as [|c m IH]; intros j Hnone Hj.
  - rewrite sapp_nil_l in Hj.
    change ("====" +:+ post)
      with (String "=" (String "=" (String "=" (String "=" post)))) in Hj.
    rewrite !find_nat_cons, !prefix_cons in Hj. simpl in Hj.
    destruct (find_nat "PROOF =" post); [|discriminate].
    injection Hj as <-. simpl. lia.
  - rewrite sapp_cons, find_nat_cons in Hnone, Hj.
    destruct (String.prefix "PROOF =" (String c (m +:+ "===="))) eqn:P1;
      [discriminate|].
    assert (P2 : String.prefix "PROOF ="
                   (String c (m +:+ "====" +:+ post)) = false).
    { destruct m as [|d [|e m]].
      - rewrite sapp_nil_l.
        change ("====" +:+ post)
          with (String "=" (String "=" (String "=" (String "=" post)))).
        rewrite !prefix_cons. destruct (Ascii.eqb "P" c); reflexivity.
      - rewrite sapp_cons, sapp_nil_l.
        change ("====" +:+ post)
          with (String "=" (String "=" (String "=" (String "=" post)))).
        rewrite !prefix_cons.
        destruct (Ascii.eqb "P" c); [|reflexivity].
        destruct (Ascii.eqb "R" d); reflexivity.
      - rewrite <- sapp_cons, <- sapp_assoc, prefix_app_long.
        + rewrite sapp_cons. exact P1.
        + rewrite length_sapp. simpl. lia. }
    rewrite P2 in Hj.
    destruct (find_nat "PROOF =" (m +:+ "====")) eqn:F1; [discriminate|].
    destruct (find_nat "PROOF =" (m +:+ "====" +:+ post)) as [j'|] eqn:F2;
      [|discriminate].
    injection Hj as <-. specialize (IH j' eq_refl eq_refl). simpl. lia.
Qed.

Lemma before_second_marker (m post : string) :
  contains "PROOF =" (m +:+ "====") = false ->
  exists post', before "PROOF =" (m +:+ "====" +:+ post)
                = m +:+ "====" +:+ post'.
Proof.
  unfold contains, before. intros H.
  destruct (find_nat "PROOF =" (m +:+ "====")) eqn:F; [discriminate|].
  destruct (find_nat "PROOF =" (m +:+ "====" +:+ post)) as [j|] eqn:Fj.
  - pose proof (marker_after_delimiter _ _ _ F Fj) as B.
    exists (take (j - (String.length m + 4)) post).
    replace j with (String.length (m +:+ "====") + (j - (String.length m + 4)))
      at 1 by (rewrite length_sapp; simpl; lia).
    rewrite <- !sapp_assoc. apply take_app_ge.
  - exists post. reflexivity.
Qed.

(** The text between a first marker and the delimiter that follows it. *)
Lemma between_markers (pre mid post : string) :
  find_nat "PROOF =" (pre +:+ "PROOF =") = Some (String.length pre) ->
  find_nat "====" (mid +:+ "====") = Some (String.length mid) ->
  contains "PROOF =" (mid +:+ "====") = false ->
  exists rest,
    after "PROOF =" (pre +:+ "PROOF =" +:+ mid +:+ "====" +:+ post) = Some rest
    /\ before "====" (before "PROOF =" rest) = mid.
Proof.
  intros Hpre Hmid Hno.
  exists (mid +:+ "====" +:+ post). split.
  - unfold after. rewrite (find_nat_app_here _ _ _ Hpre).
    rewrite drop_app_ge. reflexivity.
  - destruct (before_second_marker mid post Hno) as [post' ->].
    unfold before. rewrite (find_nat_app_here _ _ _ Hmid).
    apply take_app.
Qed.

End Runner.

Ltac run_prover Hrun :=
  unfold LogicEngine._run_prover;
  rewrite (try_finally_quiet _ _ _ _ (cleanup_any _ _));
  unfold try_except, bind, subprocess_run;
  unfold argv, cwd in Hrun; rewrite Hrun.

Ltac run_mace4 Hrun :=
  unfold Mace4Wrapper._run_mace4;
  rewrite (try_finally_quiet _ _ _ _ (cleanup_oserror _ _));
  unfold try_except, bind, subprocess_run;
  unfold argv, cwd in Hrun; rewrite Hrun.

Lemma after_cleanup_gone (os : os_model) (p : path) (fs : filesystem) :
  after_cleanup os p fs !! p = None
  \/ os_unlink_refused os p = true /\ after_cleanup os p fs = fs.
Proof.
  unfold after_cleanup. destruct (os_unlink_refused os p).
  - right. split; reflexivity.
  - left. apply lookup_delete_eq.
Qed.

(** The outcome of a runner is determined by what the run produced. *)
Lemma prover_result_of_run (os os' : os_model) (self : LogicEngine.t)
    (p : path) (t : Z) (fs fs' : filesystem) :
  fst (os_run os' (argv (LogicEngine.prover_exe self) p)
         (cwd (LogicEngine.prover_exe self)) t fs')
  = fst (os_run os (argv (LogicEngine.prover_exe self) p)
           (cwd (LogicEngine.prover_exe self)) t fs) ->
  fst (LogicEngine._run_prover os' self p t fs')
  = fst (LogicEngine._run_prover os self p t fs).
Proof.
  unfold argv, cwd. intros Hsame.
  unfold LogicEngine._run_prover.
  rewrite !(try_finally_quiet _ _ _ _ (cleanup_any _ _)).
  unfold try_except, bind, subprocess_run, fst at 1 3.
  destruct (os_run os' _ _ _ _) as [o' f'], (os_run os _ _ _ _) as [o f].
  simpl in Hsame. subst o'.
  destruct o as [e|[out err]].
  - destruct (exn_cls e); reflexivity.
  - destruct (contains "THEOREM PROVED" out).
    + cbv beta iota. rewrite !split_1 by discriminate.
      destruct (after "PROOF =" out); [|reflexivity].
      unfold ret. cbv beta iota. rewrite !split_0 by discriminate.
      reflexivity.
    + destruct (contains "SEARCH FAILED" out); [reflexivity|].
      destruct (contains "Fatal error" err); reflexivity.
Qed.

Lemma mace4_result_of_run (os os' : os_model) (self : Mace4Wrapper.t)
    (p : path) (t : Z) (fs fs' : filesystem) :
  fst (os_run os' (argv (Mace4Wrapper.mace4_exe self) p)
         (cwd (Mace4Wrapper.mace4_exe self)) t fs')
  = fst (os_run os (argv (Mace4Wrapper.mace4_exe self) p)
           (cwd (Mace4Wrapper.mace4_exe self)) t fs) ->
  fst (Mace4Wrapper._run_mace4 os' self p t fs')
  = fst (Mace4Wrapper._run_mace4 os self p t fs).
Proof.
  unfold argv, cwd. intros Hsame.
  unfold Mace4Wrapper._run_mace4.
  rewrite !(try_finally_quiet _ _ _ _ (cleanup_oserror _ _)).
  unfold try_except, bind, subprocess_run, fst at 1 3.
  destruct (os_run os' _ _ _ _) as [o' f'], (os_run os _ _ _ _) as [o f].
  simpl in Hsame. subst o'.
  destruct o as [e|[out err]].
  - destruct (exn_cls e); reflexivity.
  - destruct (contains "DOMAIN SIZE" out && contains "interpretation(" out);
      [reflexivity|].
    destruct (contains "SEARCH FAILED" out || contains "SEARCH TERMINATED" out);
      [reflexivity|].
    destruct (contains "Fatal error" err || contains "Fatal error" out);
      reflexivity.
Qed.

(** A runner leaves the files of the run with the input file cleaned up.
    It hands back a result unless an exception outside [Exception] ended the
    run, and that exception it lets through. *)
Lemma prover_ended (os : os_model) (self : LogicEngine.t) (p : path) (t : Z)
    (fs : filesystem) :
  let run := os_run os (argv (LogicEngine.prover_exe self) p)
               (cwd (LogicEngine.prover_exe self)) t fs in
  let ended := LogicEngine._run_prover os self p t fs in
  snd ended = after_cleanup os p (snd run)
  /\ (interrupted (fst run) = false -> exists res, fst ended = inr res)
  /\ (forall e,
        fst run = inl e -> is_Exception (exn_cls e) = false ->
        fst ended = inl e).
Proof.
  unfold argv, cwd, LogicEngine._run_prover. cbv zeta.
  rewrite !(try_finally_quiet _ _ _ _ (cleanup_any _ _)).
  unfold try_except, bind, subprocess_run, fst, snd.
  destruct (os_run os _ _ _ _) as [o f].
  destruct o as [e|[out err]].
  - unfold interrupted.
    destruct (exn_cls e) eqn:Hcls;
      (split; [reflexivity|]);
      (split;
       [intros H; first [discriminate H|eexists; reflexivity]
       |intros e' He' Hcls'; injection He' as <-; rewrite Hcls in Hcls';
        first [discriminate Hcls'|reflexivity]]).
  - split; [|split; [intros _|intros e He; discriminate He]].
    + destruct (contains "THEOREM PROVED" out).
      * cbv beta iota. rewrite !split_1 by discriminate.
        destruct (after "PROOF =" out); [|reflexivity].
        unfold ret. cbv beta iota. rewrite !split_0 by discriminate.
        reflexivity.
      * destruct (contains "SEARCH FAILED" out); [reflexivity|].
        destruct (contains "Fatal error" err); reflexivity.
    + destruct (contains "THEOREM PROVED" out).
      * cbv beta iota. rewrite !split_1 by discriminate.
        destruct (after "PROOF =" out); [|eexists; reflexivity].
        unfold ret. cbv beta iota. rewrite !split_0 by discriminate.
        eexists; reflexivity.
      * destruct (contains "SEARCH FAILED" out); [eexists; reflexivity|].
        destruct (contains "Fatal error" err); eexists; reflexivity.
Qed.

Lemma mace4_ended (os : os_model) (self : Mace4Wrapper.t) (p : path) (t : Z)
    (fs : filesystem) :
  let run := os_run os (argv (Mace4Wrapper.mace4_exe self) p)
               (cwd (Mace4Wrapper.mace4_exe self)) t fs in
  let ended := Mace4Wrapper._run_mace4 os self p t fs in
  snd ended = after_cleanup os p (snd run)
  /\ (interrupted (fst run) = false -> exists res, fst ended = inr res)
  /\ (forall e,
        fst run = inl e -> is_Exception (exn_cls e) = false ->
        fst ended = inl e).
Proof.
  unfold argv, cwd, Mace4Wrapper._run_mace4. cbv zeta.
  rewrite !(try_finally_quiet _ _ _ _ (cleanup_oserror _ _)).
  unfold try_except, bind, subprocess_run, fst, snd.
  destruct (os_run os _ _ _ _) as [o f].
  destruct o as [e|[out err]].
  - unfold interrupted.
    destruct (exn_cls e) eqn:Hcls;
      (split; [reflexivity|]);
      (split;
       [intros H; first [discriminate H|eexists; reflexivity]
       |intros e' He' Hcls'; injection He' as <-; rewrite Hcls in Hcls';
        first [discriminate Hcls'|reflexivity]]).
  - split; [|split; [intros _|intros e He; discriminate He]].
    + destruct (contains "DOMAIN SIZE" out && contains "interpretation(" out);
        [reflexivity|].
      destruct (contains "SEARCH FAILED" out
                || contains "SEARCH TERMINATED" out); [reflexivity|].
      destruct (contains "Fatal error" err || contains "Fatal error" out);
        reflexivity.
    + destruct (contains "DOMAIN SIZE" out && contains "interpretation(" out);
        [eexists; reflexivity|].
      destruct (contains "SEARCH FAILED" out
                || contains "SEARCH TERMINATED" out); [eexists; reflexivity|].
      destruct (contains "Fatal error" err || contains "Fatal error" out);
        eexists; reflexivity.
Qed.

(** ** Classification of the prover output *)

Section ProverOutput.

Variable os : os_model.
Variable self : LogicEngine.t.
Variable p : path.
Variable t : Z.
Variables fs fs1 : filesystem.
Variables stdout stderr : string.

Hypothesis Hrun :
  os_run os (argv (LogicEngine.prover_exe self) p)
    (cwd (LogicEngine.prover_exe self)) t fs
  = (inr (stdout, stderr), fs1).

Lemma proved_with_marker (rest : string) :
  contains "THEOREM PROVED" stdout = true ->
  after "PROOF =" stdout = Some rest ->
  fst (LogicEngine._run_prover os self p t fs)
  = inr {[ "result" := "proved";
           "proof" := strip (before "====" (before "PROOF =" rest));
           "complete_output" := stdout ]}.
Proof.
  intros HTP Hafter. run_prover Hrun. rewrite HTP. cbv beta iota.
  rewrite split_1 by discriminate. rewrite Hafter. unfold ret at 1.
  rewrite split_0 by discriminate. reflexivity.
Qed.

Lemma error_without_marker :
  contains "THEOREM PROVED" stdout = true ->
  contains "PROOF =" stdout = false ->
  fst (LogicEngine._run_prover os self p t fs)
  = inr {[ "result" := "error"; "reason" := "list index out of range" ]}.
Proof.
  intros HTP Hno. run_prover Hrun. rewrite HTP. cbv beta iota.
  rewrite split_1 by discriminate.
  unfold contains, after in *.
  destruct (find_nat "PROOF =" stdout); [discriminate|]. reflexivity.
Qed.

Lemma unprovable_second :
  contains "THEOREM PROVED" stdout = false ->
  contains "SEARCH FAILED" stdout = true ->
  fst (LogicEngine._run_prover os self p t fs)
  = inr {[ "result" := "unprovable";
           "reason" := "Proof search failed";
           "complete_output" := stdout ]}.
Proof. intros H1 H2. run_prover Hrun. rewrite H1, H2. reflexivity. Qed.

Lemma syntax_error_third :
  contains "THEOREM PROVED" stdout = false ->
  contains "SEARCH FAILED" stdout = false ->
  contains "Fatal error" stderr = true ->
  fst (LogicEngine._run_prover os self p t fs)
  = inr {[ "result" := "error";
           "reason" := "Syntax error";
           "error" := stderr ]}.
Proof.
  intros H1 H2 H3. run_prover Hrun. rewrite H1, H2, H3. reflexivity.
Qed.

Lemma unexpected_last :
  contains "THEOREM PROVED" stdout = false ->
  contains "SEARCH FAILED" stdout = false ->
  contains "Fatal error" stderr = false ->
  fst (LogicEngine._run_prover os self p t fs)
  = inr {[ "result" := "error";
           "reason" := "Unexpected output";
           "output" := stdout;
           "error" := stderr ]}.
Proof.
  intros H1 H2 H3. run_prover Hrun. rewrite H1, H2, H3. reflexivity.
Qed.

End ProverOutput.

(** C2, as stated, fails: an output with [THEOREM PROVED] but without a
    [PROOF =] marker is classified as an error, not as proved. *)
Lemma proved_marker_alone_is_error :
  ~ (forall os self p t fs fs1 stdout stderr,
       os_run os (argv (LogicEngine.prover_exe self) p)
         (cwd (LogicEngine.prover_exe self)) t fs
       = (inr (stdout, stderr), fs1) ->
       contains "THEOREM PROVED" stdout = true ->
       exists res,
         fst (LogicEngine._run_prover os self p t fs) = inr res
         /\ res !! "result" = Some "proved").
Proof.
  intros H.
  destruct (H (sample_os (inr ("THEOREM PROVED", "Fatal error")))
              sample_engine sample_path 60%Z ∅ ∅
              "THEOREM PROVED" "Fatal error" eq_refl eq_refl)
    as [res [Hres Hlook]].
  rewrite (error_without_marker
             (sample_os (inr ("THEOREM PROVED", "Fatal error")))
             sample_engine sample_path 60%Z ∅ ∅
             "THEOREM PROVED" "Fatal error" eq_refl eq_refl eq_refl) in Hres.
  injection Hres as <-. discriminate Hlook.
Qed.

(** C2, amended: the marker checks are applied in a fixed order and the
    first match wins.  [THEOREM PROVED] in stdout together with a [PROOF =]
    marker gives proved, whatever stderr holds, and without that marker gives
    the error outcome whose reason is the text of the index failure; else
    [SEARCH FAILED] in stdout gives unprovable; else [Fatal error] in stderr
    gives the syntax error; else the unexpected-output error. *)
Theorem classification_order (os : os_model) (self : LogicEngine.t)
    (p : path) (t : Z) (fs fs1 : filesystem) (stdout stderr : string) :
  os_run os (argv (LogicEngine.prover_exe self) p)
    (cwd (LogicEngine.prover_exe self)) t fs
  = (inr (stdout, stderr), fs1) ->
  let outcome := fst (LogicEngine._run_prover os self p t fs) in
  (contains "THEOREM PROVED" stdout = true ->
   contains "PROOF =" stdout = true ->
   exists proof,
     outcome = inr {[ "result" := "proved";
                      "proof" := proof;
                      "complete_output" := stdout ]})
  /\ (contains "THEOREM PROVED" stdout = true ->
      contains "PROOF =" stdout = false ->
      outcome = inr {[ "result" := "error";
                       "reason" := "list index out of range" ]})
  /\ (contains "THEOREM PROVED" stdout = false ->
      contains "SEARCH FAILED" stdout = true ->
      outcome = inr {[ "result" := "unprovable";
                       "reason" := "Proof search failed";
                       "complete_output" := stdout ]})
  /\ (contains "THEOREM PROVED" stdout = false ->
      contains "SEARCH FAILED" stdout = false ->
      contains "Fatal error" stderr = true ->
      outcome = inr {[ "result" := "error";
                       "reason" := "Syntax error";
                       "error" := stderr ]})
  /\ (contains "THEOREM PROVED" stdout = false ->
      contains "SEARCH FAILED" stdout = false ->
      contains "Fatal error" stderr = false ->
      outcome = inr {[ "result" := "error";
                       "reason" := "Unexpected output";
                       "output" := stdout;
                       "error" := stderr ]}).
Proof.
  intros Hrun outcome. unfold outcome. repeat split.
  - intros HTP HP. apply contains_after in HP as [rest Hrest].
    eexists. eapply proved_with_marker; eauto.
  - eapply error_without_marker; eauto.
  - eapply unprovable_second; eauto.
  - eapply syntax_error_third; eauto.
  - eapply unexpected_last; eauto.
Qed.

Lemma classification_order_proved_despite_stderr :
  exists proof,
    fst (LogicEngine._run_prover
           (sample_os (inr ("THEOREM PROVED PROOF = 1 p. ====", "Fatal error")))
           sample_engine sample_path 60%Z ∅)
    = inr {[ "result" := "proved";
             "proof" := proof;
             "complete_output" := "THEOREM PROVED PROOF = 1 p. ====" ]}.
Proof.
  apply (proj1 (classification_order
                  (sample_os
                     (inr ("THEOREM PROVED PROOF = 1 p. ====", "Fatal error")))
                  sample_engine sample_path 60%Z ∅ ∅
                  "THEOREM PROVED PROOF = 1 p. ====" "Fatal error" eq_refl));
    reflexivity.
Defined.

(** C3, as stated, fails: when no [====] delimiter can be located the
    outcome is still proved, its proof being all the text after the marker. *)
Lemma proved_without_delimiter :
  ~ (forall os self p t fs fs1 stdout stderr,
       os_run os (argv (LogicEngine.prover_exe self) p)
         (cwd (LogicEngine.prover_exe self)) t fs
       = (inr (stdout, stderr), fs1) ->
       contains "THEOREM PROVED" stdout = true ->
       contains "====" stdout = false ->
       exists res,
         fst (LogicEngine._run_prover os self p t fs) = inr res
         /\ res !! "result" = Some "error").
Proof.
  intros H.
  destruct (H (sample_os (inr ("THEOREM PROVED PROOF = 1 p.", "")))
              sample_engine sample_path 60%Z ∅ ∅
              "THEOREM PROVED PROOF = 1 p." "" eq_refl eq_refl eq_refl)
    as [res [Hres Hlook]].
  rewrite (proved_with_marker
             (sample_os (inr ("THEOREM PROVED PROOF = 1 p.", "")))
             sample_engine sample_path 60%Z ∅ ∅
             "THEOREM PROVED PROOF = 1 p." "" eq_refl " 1 p."
             eq_refl eq_refl) in Hres.
  injection Hres as <-. discriminate Hlook.
Qed.

(** C3, amended: for a stdout containing [THEOREM PROVED], if it also
    contains [PROOF =] the outcome is proved, and the proof field is the text
    that follows the first [PROOF =] up to the next [PROOF =] or [====],
    whichever comes first, or up to the end of the output when neither
    follows, trimmed of surrounding whitespace; so when a [====] follows the
    first marker with no other marker before it, the proof is the text
    strictly between the two, trimmed.  If [PROOF =] cannot be located the
    outcome is error. *)
Theorem proof_extraction (os : os_model) (self : LogicEngine.t)
    (p : path) (t : Z) (fs fs1 : filesystem) (stdout stderr : string) :
  os_run os (argv (LogicEngine.prover_exe self) p)
    (cwd (LogicEngine.prover_exe self)) t fs
  = (inr (stdout, stderr), fs1) ->
  contains "THEOREM PROVED" stdout = true ->
  let outcome := fst (LogicEngine._run_prover os self p t fs) in
  (forall rest,
     after "PROOF =" stdout = Some rest ->
     outcome
     = inr {[ "result" := "proved";
              "proof" := strip (before "====" (before "PROOF =" rest));
              "complete_output" := stdout ]})
  /\ (forall pre mid post,
        stdout = pre +:+ "PROOF =" +:+ mid +:+ "====" +:+ post ->
        find_nat "PROOF =" (pre +:+ "PROOF =") = Some (String.length pre) ->
        find_nat "====" (mid +:+ "====") = Some (String.length mid) ->
        contains "PROOF =" (mid +:+ "====") = false ->
        outcome = inr {[ "result" := "proved";
                         "proof" := strip mid;
                         "complete_output" := stdout ]})
  /\ (contains "PROOF =" stdout = false ->
      outcome = inr {[ "result" := "error";
                       "reason" := "list index out of range" ]}).
Proof.
  intros Hrun HTP outcome. unfold outcome. repeat split.
  - intros rest Hrest. eapply proved_with_marker; eauto.
  - intros pre mid post Hout Hpre Hmid Hno.
    destruct (between_markers pre mid post Hpre Hmid Hno)
      as [rest [Hafter Hbefore]].
    rewrite <- Hout in Hafter.
    rewrite <- Hbefore. eapply proved_with_marker; eauto.
  - eapply error_without_marker; eauto.
Qed.

Lemma proof_extraction_between_markers :
  fst (LogicEngine._run_prover
         (sample_os
            (inr ("THEOREM PROVED PROOF = 1 mortal(socrates). ==== end", "")))
         sample_engine sample_path 60%Z ∅)
  = inr {[ "result" := "proved";
           "proof" := "1 mortal(socrates).";
           "complete_output" :=
             "THEOREM PROVED PROOF = 1 mortal(socrates). ==== end" ]}.
Proof.
  apply (proj1 (proj2
           (proof_extraction
              (sample_os
                 (inr ("THEOREM PROVED PROOF = 1 mortal(socrates). ==== end",
                       "")))
              sample_engine sample_path 60%Z ∅ ∅
              "THEOREM PROVED PROOF = 1 mortal(socrates). ==== end" ""
              eq_refl eq_refl))
           "THEOREM PROVED " " 1 mortal(socrates). " " end");
    reflexivity.
Defined.

(** ** Cleanup and failures of the run *)

(** C4: whatever the run does (an output of any kind, a timeout, any other
    exception), the runners end with the input file gone unless its deletion
    was refused, and a refused deletion changes nothing.  They return a
    result and raise nothing when the run ended with an output, a timeout or
    any other exception that derives from [Exception]; an exception outside
    [Exception] (a keyboard interrupt, an exit) leaves the runner, after the
    same cleanup.  What a runner answers is a function of what the run
    produced alone, so neither the presence of the input file nor a refusal
    to delete it changes it. *)
Theorem cleanup_always (os : os_model) (p : path) (t : Z) (fs : filesystem) :
  (forall self,
     let run := os_run os (argv (LogicEngine.prover_exe self) p)
                  (cwd (LogicEngine.prover_exe self)) t fs in
     let ended := LogicEngine._run_prover os self p t fs in
     (interrupted (fst run) = false -> exists res, fst ended = inr res)
     /\ (forall e,
           fst run = inl e -> is_Exception (exn_cls e) = false ->
           fst ended = inl e)
     /\ snd ended = after_cleanup os p (snd run)
     /\ (snd ended !! p = None
         \/ os_unlink_refused os p = true /\ snd ended = snd run)
     /\ (forall os' fs',
           fst (os_run os' (argv (LogicEngine.prover_exe self) p)
                  (cwd (LogicEngine.prover_exe self)) t fs') = fst run ->
           fst (LogicEngine._run_prover os' self p t fs') = fst ended))
  /\ (forall self,
        let run := os_run os (argv (Mace4Wrapper.mace4_exe self) p)
                     (cwd (Mace4Wrapper.mace4_exe self)) t fs in
        let ended := Mace4Wrapper._run_mace4 os self p t fs in
        (interrupted (fst run) = false -> exists res, fst ended = inr res)
        /\ (forall e,
              fst run = inl e -> is_Exception (exn_cls e) = false ->
              fst ended = inl e)
        /\ snd ended = after_cleanup os p (snd run)
        /\ (snd ended !! p = None
            \/ os_unlink_refused os p = true /\ snd ended = snd run)
        /\ (forall os' fs',
              fst (os_run os' (argv (Mace4Wrapper.mace4_exe self) p)
                     (cwd (Mace4Wrapper.mace4_exe self)) t fs') = fst run ->
              fst (Mace4Wrapper._run_mace4 os' self p t fs') = fst ended)).
Proof.
  split; intros self run ended.
  - pose proof (prover_ended os self p t fs) as [Hfs [Hres Hraise]].
    cbv zeta in Hfs, Hres, Hraise. fold run ended in Hfs, Hres, Hraise.
    split; [exact Hres|]. split; [exact Hraise|]. split; [exact Hfs|]. split.
    + rewrite Hfs. apply after_cleanup_gone.
    + intros os' fs' Hsame. unfold ended.
      apply prover_result_of_run. exact Hsame.
  - pose proof (mace4_ended os self p t fs) as [Hfs [Hres Hraise]].
    cbv zeta in Hfs, Hres, Hraise. fold run ended in Hfs, Hres, Hraise.
    split; [exact Hres|]. split; [exact Hraise|]. split; [exact Hfs|]. split.
    + rewrite Hfs. apply after_cleanup_gone.
    + intros os' fs' Hsame. unfold ended.
      apply mace4_result_of_run. exact Hsame.
Qed.

Lemma cleanup_always_after_timeout :
  let os := sample_os (inl (Exn TimeoutExpired "timed out after 5 seconds")) in
  let fs : filesystem := {[ sample_path := "formulas(assumptions)." ]} in
  snd (LogicEngine._run_prover os sample_engine sample_path 5%Z fs)
  = after_cleanup os sample_path fs
  /\ after_cleanup os sample_path fs !! sample_path = None.
Proof.
  split.
  - exact (proj1 (proj2 (proj2
             (proj1 (cleanup_always
                       (sample_os
                          (inl (Exn TimeoutExpired
                                  "timed out after 5 seconds")))
                       sample_path 5%Z
                       {[ sample_path := "formulas(assumptions)." ]})
                sample_engine)))).
  - reflexivity.
Defined.

(** How each runner answers an exception of the run. *)
Lemma timeout_or_error_parts (os : os_model) (p : path) (t : Z)
    (fs fs1 : filesystem) (e : exn) :
  (forall self,
     os_run os (argv (LogicEngine.prover_exe self) p)
       (cwd (LogicEngine.prover_exe self)) t fs = (inl e, fs1) ->
     fst (LogicEngine._run_prover os self p t fs)
     = if bool_decide (exn_cls e = TimeoutExpired)
       then inr {[ "result" := "timeout";
                   "reason" := "Proof search exceeded " +:+ str_of_Z t
                               +:+ " seconds" ]}
       else if is_Exception (exn_cls e)
            then inr {[ "result" := "error"; "reason" := exn_str e ]}
            else inl e)
  /\ (forall self,
        os_run os (argv (Mace4Wrapper.mace4_exe self) p)
          (cwd (Mace4Wrapper.mace4_exe self)) t fs = (inl e, fs1) ->
        fst (Mace4Wrapper._run_mace4 os self p t fs)
        = if bool_decide (exn_cls e = TimeoutExpired)
          then inr {[ "result" := Mace4Wrapper.VStr "timeout";
                      "reason" :=
                        Mace4Wrapper.VStr
                          ("Model search exceeded " +:+ str_of_Z t
                           +:+ " seconds") ]}
          else if is_Exception (exn_cls e)
               then inr {[ "result" := Mace4Wrapper.VStr "error";
                           "reason" := Mace4Wrapper.VStr (exn_str e) ]}
               else inl e).
Proof.
  split.
  - intros self Hrun. run_prover Hrun.
    destruct e as [[] msg]; reflexivity.
  - intros self Hrun. run_mace4 Hrun.
    destruct e as [[] msg]; reflexivity.
Qed.

(** C5: when the run ends by [TimeoutExpired] the outcome is tagged
    [timeout] and its reason names the timeout value; when it ends by any
    other exception that derives from [Exception] the outcome is tagged
    [error] and its reason is the text of the exception; an exception
    outside [Exception] is no outcome, and leaves the runner.  This holds
    for the prover and for the model finder. *)
Theorem timeout_or_error (os : os_model) (p : path) (t : Z)
    (fs fs1 : filesystem) (e : exn) :
  (forall self,
     os_run os (argv (LogicEngine.prover_exe self) p)
       (cwd (LogicEngine.prover_exe self)) t fs = (inl e, fs1) ->
     fst (LogicEngine._run_prover os self p t fs)
     = if bool_decide (exn_cls e = TimeoutExpired)
       then inr {[ "result" := "timeout";
                   "reason" := "Proof search exceeded " +:+ str_of_Z t
                               +:+ " seconds" ]}
       else if is_Exception (exn_cls e)
            then inr {[ "result" := "error"; "reason" := exn_str e ]}
            else inl e)
  /\ (forall self,
        os_run os (argv (Mace4Wrapper.mace4_exe self) p)
          (cwd (Mace4Wrapper.mace4_exe self)) t fs = (inl e, fs1) ->
        fst (Mace4Wrapper._run_mace4 os self p t fs)
        = if bool_decide (exn_cls e = TimeoutExpired)
          then inr {[ "result" := Mace4Wrapper.VStr "timeout";
                      "reason" :=
                        Mace4Wrapper.VStr
                          ("Model search exceeded " +:+ str_of_Z t
                           +:+ " seconds") ]}
          else if is_Exception (exn_cls e)
               then inr {[ "result" := Mace4Wrapper.VStr "error";
                           "reason" := Mace4Wrapper.VStr (exn_str e) ]}
               else inl e)
  /\ contains (str_of_Z t)
       ("Proof search exceeded " +:+ str_of_Z t +:+ " seconds") = true
  /\ contains (str_of_Z t)
       ("Model search exceeded " +:+ str_of_Z t +:+ " seconds") = true.
Proof.
  repeat split.
  - intros self Hrun. run_prover Hrun.
    destruct e as [[] msg]; reflexivity.
  - intros self Hrun. run_mace4 Hrun.
    destruct e as [[] msg]; reflexivity.
  - apply contains_app.
  - apply contains_app.
Qed.

Lemma timeout_or_error_five_seconds :
  fst (LogicEngine._run_prover
         (sample_os (inl (Exn TimeoutExpired "timed out after 5 seconds")))
         sample_engine sample_path 5%Z ∅)
  = inr {[ "result" := "timeout";
           "reason" := "Proof search exceeded 5 seconds" ]}.
Proof.
  apply (proj1 (timeout_or_error
                  (sample_os
                     (inl (Exn TimeoutExpired "timed out after 5 seconds")))
                  sample_path 5%Z ∅ ∅
                  (Exn TimeoutExpired "timed out after 5 seconds"))
           sample_engine eq_refl).
Defined.

(** ** The check-well-formed tool *)

(** The [error] field of a prover outcome: present only in the last two
    branches of the classification, where it is stderr. *)
Lemma error_field (os : os_model) (self : LogicEngine.t) (p : path) (t : Z)
    (fs fs1 : filesystem) (stdout stderr : string) :
  os_run os (argv (LogicEngine.prover_exe self) p)
    (cwd (LogicEngine.prover_exe self)) t fs
  = (inr (stdout, stderr), fs1) ->
  exists res,
    fst (LogicEngine._run_prover os self p t fs) = inr res
    /\ default "" (res !! "error")
       = if contains "THEOREM PROVED" stdout || contains "SEARCH FAILED" stdout
         then "" else stderr.
Proof.
  intros Hrun.
  destruct (contains "THEOREM PROVED" stdout) eqn:HTP.
  - destruct (contains "PROOF =" stdout) eqn:HP.
    + apply contains_after in HP as [rest Hrest].
      eexists. split; [eapply proved_with_marker; eauto|reflexivity].
    + eexists. split; [eapply error_without_marker; eauto|reflexivity].
  - destruct (contains "SEARCH FAILED" stdout) eqn:HSF.
    + eexists. split; [eapply unprovable_second; eauto|reflexivity].
    + destruct (contains "Fatal error" stderr) eqn:HFE.
      * eexists. split; [eapply syntax_error_third; eauto|reflexivity].
      * eexists. split; [eapply unexpected_last; eauto|reflexivity].
Qed.

Lemma no_error_field (os : os_model) (self : LogicEngine.t) (p : path)
    (t : Z) (fs fs1 : filesystem) (e : exn) :
  os_run os (argv (LogicEngine.prover_exe self) p)
    (cwd (LogicEngine.prover_exe self)) t fs = (inl e, fs1) ->
  is_Exception (exn_cls e) = true ->
  exists res,
    fst (LogicEngine._run_prover os self p t fs) = inr res
    /\ res !! "error" = None.
Proof.
  intros Hrun Hcls. run_prover Hrun.
  destruct e as [[] msg]; first [discriminate Hcls|eexists; split; reflexivity].
Qed.

(** C10: a check-well-formed call whose input file could be written, and
    whose run no exception outside [Exception] ended, answers with a valid
    flag and the prover outcome as details, and the flag is true exactly
    when [Fatal error] does not occur in the [error] field of the details,
    an absent field counting as empty.  So the flag is true after a timeout
    or any other exception of the run that the runner turns into an outcome,
    and after an unprovable outcome, and it is false only for an output
    without [THEOREM PROVED] and [SEARCH FAILED] whose stderr holds
    [Fatal error]. *)
Theorem valid_flag (os : os_model) (engine : LogicEngine.t)
    (statements : list string) (fs : filesystem) (p : path) :
  os_mkstemp os ".in" fs = inr p ->
  let text := join newline (LogicEngine.input_lines statements "true") in
  os_write os p text fs = None ->
  let run := os_run os (argv (LogicEngine.prover_exe engine) p)
               (cwd (LogicEngine.prover_exe engine)) 5
               (<[p := text]> fs) in
  interrupted (fst run) = false ->
  exists details,
    handle_call_tool os engine (CheckWellFormed statements) fs
    = (inr (ReplyValid
              (negb (contains "Fatal error" (default "" (details !! "error"))))
              details),
       after_cleanup os p (snd run))
    /\ fst (LogicEngine._run_prover os engine p 5 (<[p := text]> fs))
       = inr details
    /\ (forall e,
          fst run = inl e ->
          details !! "error" = None
          /\ contains "Fatal error" (default "" (details !! "error")) = false)
    /\ (forall stdout stderr,
          fst run = inr (stdout, stderr) ->
          (contains "THEOREM PROVED" stdout = false ->
           contains "SEARCH FAILED" stdout = true ->
           details !! "result" = Some "unprovable"
           /\ contains "Fatal error" (default "" (details !! "error")) = false)
          /\ (contains "Fatal error" (default "" (details !! "error")) = true
              <-> contains "THEOREM PROVED" stdout = false
                  /\ contains "SEARCH FAILED" stdout = false
                  /\ contains "Fatal error" stderr = true)).
Proof.
  intros Hp text Hw run Hint.
  destruct (prover_ended os engine p 5 (<[p := text]> fs)) as [Hfs [Hres _]].
  cbv zeta in Hfs, Hres. fold run in Hfs, Hres.
  destruct (Hres Hint) as [res Hres'].
  clear Hres. rename Hres' into Hres.
  exists res. split; [|split; [exact Hres|split]].
  - unfold handle_call_tool, try_except, bind,
      LogicEngine._create_input_file, write_temp.
    rewrite Hp. fold text. rewrite Hw.
    destruct (LogicEngine._run_prover os engine p 5 (<[p := text]> fs))
      as [r f].
    simpl in Hres, Hfs. subst r f. reflexivity.
  - intros e He. destruct run as [o f] eqn:Hrun. simpl in He. subst o.
    assert (Hcls : is_Exception (exn_cls e) = true)
      by (simpl in Hint; destruct (is_Exception (exn_cls e));
          [reflexivity|discriminate Hint]).
    destruct (no_error_field _ _ _ _ _ _ _ Hrun Hcls) as [res' [Hres' Hnone]].
    rewrite Hres in Hres'. injection Hres' as <-.
    rewrite Hnone. split; reflexivity.
  - intros stdout stderr Ho. destruct run as [o f] eqn:Hrun.
    simpl in Ho. subst o.
    destruct (error_field _ _ _ _ _ _ _ _ Hrun) as [res' [Hres' Herr]].
    rewrite Hres in Hres'. injection Hres' as <-.
    rewrite Herr. split.
    + intros HTP HSF. rewrite HTP, HSF. split; [|reflexivity].
      pose proof (unprovable_second _ _ _ _ _ _ _ _ Hrun HTP HSF) as Hu.
      rewrite Hres in Hu. injection Hu as ->. reflexivity.
    + destruct (contains "THEOREM PROVED" stdout),
        (contains "SEARCH FAILED" stdout); simpl;
        try (split; [discriminate|intros (? & ? & ?); discriminate]).
      split; [intros H; auto|intros (_ & _ & H); exact H].
Qed.

Lemma valid_flag_after_timeout :
  exists details,
    handle_call_tool
      (sample_os (inl (Exn TimeoutExpired "timed out after 5 seconds")))
      sample_engine (CheckWellFormed ["all x (p(x)"]) ∅
    = (inr (ReplyValid
              (negb (contains "Fatal error" (default "" (details !! "error"))))
              details), ∅)
    /\ fst (LogicEngine._run_prover
              (sample_os (inl (Exn TimeoutExpired "timed out after 5 seconds")))
              sample_engine sample_path 5%Z
              (<[sample_path :=
                   join newline
                     (LogicEngine.input_lines ["all x (p(x)"] "true")]> ∅))
       = inr details
    /\ negb (contains "Fatal error" (default "" (details !! "error"))) = true.
Proof.
  destruct (valid_flag
              (sample_os (inl (Exn TimeoutExpired "timed out after 5 seconds")))
              sample_engine ["all x (p(x)"] ∅ sample_path eq_refl eq_refl
              eq_refl)
    as [details [Hcall [Hrun [Hexn _]]]].
  exists details. split; [exact Hcall|split; [exact Hrun|]].
  destruct (Hexn _ eq_refl) as [_ ->]. reflexivity.
Defined.

(** ** Locating the solver binaries *)

(** C9, at a directory that holds [prover9] and [mace4] without the [.exe]
    suffix: the model-finder wrapper falls back to the unsuffixed name, the
    prover wrapper probes the suffixed name only and fails. *)
Theorem prover_probe_without_fallback :
  let fs : filesystem :=
    {[ [""; "opt"; "ladr"; "bin"; "prover9"] := "";
       [""; "opt"; "ladr"; "bin"; "mace4"] := "" ]} in
  LogicEngine.__init__ [""; "opt"; "ladr"; "bin"] fs
  = (inl (Exn FileNotFoundError
            "Prover9 not found at /opt/ladr/bin/prover9.exe"), fs)
  /\ Mace4Wrapper.__init__ [""; "opt"; "ladr"; "bin"] fs
     = (inr sample_finder, fs).
Proof. split; reflexivity. Qed.

(** ** Parsing the model finder output *)

Section ModelParsing.

Import Mace4Wrapper.

(** The loop over the lines keeps the last size that reads as an integer. *)
Lemma read_sizes (lines : list string) (m : model) :
  let m' := fold_left read_size lines m in
  domain_size m'
  = match last (omap (fun line => last (fields line) ≫= int)
                  (List.filter (contains "DOMAIN SIZE") lines)) with
    | Some size => Some size
    | None => domain_size m
    end
  /\ raw_interpretation m' = raw_interpretation m.
Proof.
  revert m. induction lines as [|line rest IH]; intros m; [split; reflexivity|].
  simpl fold_left. destruct (IH (read_size m line)) as [IHd IHr].
  cbv zeta. rewrite IHd, IHr. unfold read_size. simpl List.filter.
  destruct (contains "DOMAIN SIZE" line); [|split; reflexivity].
  simpl omap. destruct (last (fields line) ≫= int) as [size|];
    [|split; reflexivity].
  rewrite last_cons. split; [|reflexivity].
  destruct (last _); reflexivity.
Qed.

(** The loop over the block appends the listed lines and leaves the size. *)
Lemma list_lines (lines : list string) (m : model) :
  let m' := fold_left list_line lines m in
  domain_size m' = domain_size m
  /\ raw_interpretation m' = raw_interpretation m +:+ listed lines.
Proof.
  revert m. induction lines as [|line rest IH]; intros m.
  - split; [reflexivity|]. simpl. rewrite sapp_nil_r. reflexivity.
  - simpl fold_left. destruct (IH (list_line m line)) as [IHd IHr].
    cbv zeta. rewrite IHd, IHr. unfold list_line. simpl listed.
    destruct (startswith "function(" (strip line)
              || startswith "relation(" (strip line)).
    + split; [reflexivity|]. simpl raw_interpretation.
      rewrite !sapp_assoc. reflexivity.
    + split; reflexivity.
Qed.

Lemma find_end_after_start (x : string) :
  find_nat "end_of_list" ("interpretation(" +:+ x)
  = (fun j => 15 + j) <$> find_nat "end_of_list" x.
Proof.
  change ("interpretation(" +:+ x)
    with (String "i" (String "n" (String "t" (String "e" (String "r"
            (String "p" (String "r" (String "e" (String "t" (String "a"
              (String "t" (String "i" (String "o" (String "n" (String "("
                x))))))))))))))).
  rewrite !find_nat_cons, !prefix_cons.
  cbv [Ascii.eqb Bool.eqb andb].
  destruct (find_nat "end_of_list" x); reflexivity.
Qed.

(** Where the interpretation block lies, and that trimming leaves it. *)
Lemma block_located (a b c : string) :
  find_nat "interpretation(" (a +:+ "interpretation(")
  = Some (String.length a) ->
  find_nat "end_of_list" (b +:+ "end_of_list") = Some (String.length b) ->
  let output := a +:+ "interpretation(" +:+ b +:+ "end_of_list" +:+ c in
  let block := "interpretation(" +:+ b +:+ "end_of_list" in
  let start := find "interpretation(" output in
  let end_ := find_from "end_of_list" output start in
  (end_ >? start)%Z = true
  /\ slice output start (end_ + len "end_of_list") = block
  /\ strip block = block.
Proof.
  intros Ha Hb output block start end_.
  assert (Hstart : start = Z.of_nat (String.length a)).
  { unfold start, find, output. rewrite (find_nat_app_here _ _ _ Ha).
    reflexivity. }
  assert (Hlen : len output
                 = (Z.of_nat (String.length a) + 15
                    + Z.of_nat (String.length b) + 11
                    + Z.of_nat (String.length c))%Z).
  { unfold len, output. rewrite !length_sapp. simpl String.length. lia. }
  assert (Hend : end_ = (Z.of_nat (String.length a) + 15
                         + Z.of_nat (String.length b))%Z).
  { unfold end_, find_from. rewrite Hstart, Hlen. unfold clamp.
    destruct (Z.ltb_spec (Z.of_nat (String.length a)) 0); [lia|].
    rewrite Z.min_l by lia.
    destruct (Z.ltb_spec
                (Z.of_nat (String.length a) + 15
                 + Z.of_nat (String.length b) + 11
                 + Z.of_nat (String.length c))
                (Z.of_nat (String.length a))); [lia|].
    rewrite Nat2Z.id. unfold output. rewrite drop_app.
    rewrite find_end_after_start, (find_nat_app_here _ _ _ Hb).
    simpl fmap. cbv beta iota. lia. }
  split; [|split].
  - rewrite Hstart, Hend. apply Z.gtb_lt. lia.
  - unfold slice. rewrite Hstart, Hend, Hlen. unfold clamp.
    destruct (Z.ltb_spec (Z.of_nat (String.length a)) 0); [lia|].
    change (len "end_of_list") with 11%Z.
    destruct (Z.ltb_spec
                (Z.of_nat (String.length a) + 15
                 + Z.of_nat (String.length b) + 11) 0); [lia|].
    rewrite !Z.min_l by lia. rewrite Nat2Z.id.
    unfold output. rewrite drop_app.
    replace (Z.to_nat
               (Z.of_nat (String.length a) + 15
                + Z.of_nat (String.length b) + 11
                - Z.of_nat (String.length a)))
      with (String.length block)
      by (unfold block; rewrite !length_sapp; simpl String.length; lia).
    rewrite <- (take_app block c) at 2. f_equal.
    unfold block. rewrite !sapp_assoc. reflexivity.
  - unfold strip, rstrip, block.
    change "end_of_list" with ("end_of_lis" +:+ "t").
    rewrite <- !sapp_assoc.
    rewrite rstrip_by_app by reflexivity. reflexivity.
Qed.

(** Reading the sizes leaves [raw_interpretation] empty. *)
Lemma read_sizes_raw (lines : list string) :
  raw_interpretation
    (fold_left read_size lines
       {| domain_size := None;
          predicates := ∅;
          functions := ∅;
          constants := ∅;
          raw_interpretation := "" |}) = "".
Proof.
  destruct (read_sizes lines
              {| domain_size := None;
                 predicates := ∅;
                 functions := ∅;
                 constants := ∅;
                 raw_interpretation := "" |}) as [_ H].
  exact H.
Qed.

(** Without an [end_of_list] after the first [interpretation(], the search
    for it answers -1 and no block is taken. *)
Lemma block_missing (a b : string) :
  find_nat "interpretation(" (a +:+ "interpretation(")
  = Some (String.length a) ->
  contains "end_of_list" b = false ->
  raw_interpretation (_parse_model (a +:+ "interpretation(" +:+ b)) = "".
Proof.
  intros Ha Hb.
  unfold _parse_model. cbv zeta.
  destruct (contains "interpretation(" _); [|apply read_sizes_raw].
  replace (find_from "end_of_list" (a +:+ "interpretation(" +:+ b)
             (find "interpretation(" (a +:+ "interpretation(" +:+ b)))
    with (-1)%Z.
  - unfold find. rewrite (find_nat_app_here _ _ _ Ha).
    destruct (Z.gtb_spec (-1) (Z.of_nat (String.length a))); [lia|].
    apply read_sizes_raw.
  - unfold find. rewrite (find_nat_app_here _ _ _ Ha).
    unfold find_from, clamp, len. rewrite length_sapp.
    destruct (Z.ltb_spec (Z.of_nat (String.length a)) 0); [lia|].
    rewrite Z.min_l by lia.
    destruct (Z.ltb_spec
                (Z.of_nat (String.length a
                           + String.length ("interpretation(" +:+ b)))
                (Z.of_nat (String.length a))); [lia|].
    rewrite Nat2Z.id, drop_app, find_end_after_start.
    unfold contains in Hb.
    destruct (find_nat "end_of_list" b); [discriminate|]. reflexivity.
Qed.

End ModelParsing.

(** C8, as stated, fails: when several lines mention [DOMAIN SIZE], the
    size kept is not that of the first of them. *)
Lemma first_size_line_overwritten :
  ~ (forall output,
       contains "DOMAIN SIZE" output = true ->
       contains "interpretation(" output = true ->
       Mace4Wrapper.domain_size (Mace4Wrapper._parse_model output)
       = List.find (contains "DOMAIN SIZE") (split newline output)
           ≫= (fun line => last (fields line) ≫= int)).
Proof.
  intros H.
  specialize (H sample_output eq_refl eq_refl).
  vm_compute in H. discriminate H.
Qed.

(** C8, amended: a stdout holding both [DOMAIN SIZE] and [interpretation(]
    is classified as model_found, whatever its lines read as.  The model's
    domain_size is the integer read from the final whitespace-delimited token
    of the last line containing [DOMAIN SIZE] whose final token is an
    integer, and is left unset when no such line has one.  When an
    [end_of_list] follows the first [interpretation(], raw_interpretation
    starts with the text from that occurrence through the [end_of_list]
    inclusive, followed by the listed function and relation lines of that
    text; when none follows, raw_interpretation is left empty, and the
    outcome is model_found all the same. *)
Theorem model_parsing (os : os_model) (self : Mace4Wrapper.t) (p : path)
    (t : Z) (fs fs1 : filesystem) (stdout stderr : string) :
  os_run os (argv (Mace4Wrapper.mace4_exe self) p)
    (cwd (Mace4Wrapper.mace4_exe self)) t fs
  = (inr (stdout, stderr), fs1) ->
  contains "DOMAIN SIZE" stdout = true ->
  contains "interpretation(" stdout = true ->
  let m := Mace4Wrapper._parse_model stdout in
  fst (Mace4Wrapper._run_mace4 os self p t fs)
  = inr {[ "result" := Mace4Wrapper.VStr "model_found";
           "model" := Mace4Wrapper.VModel m;
           "complete_output" := Mace4Wrapper.VStr stdout ]}
  /\ Mace4Wrapper.domain_size m = last (sizes_read stdout)
  /\ (sizes_read stdout = [] -> Mace4Wrapper.domain_size m = None)
  /\ (forall a b c,
        stdout = a +:+ "interpretation(" +:+ b +:+ "end_of_list" +:+ c ->
        find_nat "interpretation(" (a +:+ "interpretation(")
        = Some (String.length a) ->
        find_nat "end_of_list" (b +:+ "end_of_list")
        = Some (String.length b) ->
        let block := "interpretation(" +:+ b +:+ "end_of_list" in
        Mace4Wrapper.raw_interpretation m
        = block +:+ listed (split newline block))
  /\ (forall a b,
        stdout = a +:+ "interpretation(" +:+ b ->
        find_nat "interpretation(" (a +:+ "interpretation(")
        = Some (String.length a) ->
        contains "end_of_list" b = false ->
        Mace4Wrapper.raw_interpretation m = "").
Proof.
  intros Hrun HDS HI m.
  assert (Hsize : Mace4Wrapper.domain_size m = last (sizes_read stdout)).
  { unfold m, Mace4Wrapper._parse_model. rewrite HI.
    destruct (read_sizes (split newline stdout)
                {| Mace4Wrapper.domain_size := None;
                   Mace4Wrapper.predicates := ∅;
                   Mace4Wrapper.functions := ∅;
                   Mace4Wrapper.constants := ∅;
                   Mace4Wrapper.raw_interpretation := "" |}) as [Hd _].
    cbv zeta in Hd.
    assert (Hd' : Mace4Wrapper.domain_size
                    (fold_left Mace4Wrapper.read_size (split newline stdout)
                       {| Mace4Wrapper.domain_size := None;
                          Mace4Wrapper.predicates := ∅;
                          Mace4Wrapper.functions := ∅;
                          Mace4Wrapper.constants := ∅;
                          Mace4Wrapper.raw_interpretation := "" |})
                  = last (sizes_read stdout)).
    { rewrite Hd. unfold sizes_read. destruct (last _); reflexivity. }
    cbv zeta. destruct (_ >? _)%Z; [|exact Hd'].
    destruct (list_lines
                (split newline
                   (slice stdout (find "interpretation(" stdout)
                      (find_from "end_of_list" stdout
                         (find "interpretation(" stdout)
                       + len "end_of_list")))
                (Mace4Wrapper.set_raw_interpretation
                   (fold_left Mace4Wrapper.read_size (split newline stdout)
                      {| Mace4Wrapper.domain_size := None;
                         Mace4Wrapper.predicates := ∅;
                         Mace4Wrapper.functions := ∅;
                         Mace4Wrapper.constants := ∅;
                         Mace4Wrapper.raw_interpretation := "" |})
                   (strip
                      (slice stdout (find "interpretation(" stdout)
                         (find_from "end_of_list" stdout
                            (find "interpretation(" stdout)
                          + len "end_of_list"))))) as [Hd2 _].
    cbv zeta in Hd2. rewrite Hd2. exact Hd'. }
  split; [|split; [exact Hsize|split; [|split]]].
  - run_mace4 Hrun. rewrite HDS, HI. reflexivity.
  - intros Hnone. rewrite Hsize, Hnone. reflexivity.
  - intros a b c Hout Ha Hb block.
    destruct (block_located a b c Ha Hb) as [Hgt [Hslice Hstrip]].
    cbv zeta in Hgt, Hslice, Hstrip. rewrite <- Hout in Hgt, Hslice.
    unfold m, Mace4Wrapper._parse_model. rewrite HI. cbv zeta.
    rewrite Hgt, Hslice, Hstrip.
    match goal with
    | |- Mace4Wrapper.raw_interpretation (fold_left _ ?ls ?m0) = _ =>
        destruct (list_lines ls m0) as [_ Hr]
    end.
    cbv zeta in Hr. rewrite Hr. reflexivity.
  - intros a b Hout Ha Hb. unfold m. rewrite Hout.
    apply block_missing; assumption.
Qed.

Lemma model_parsing_last_size :
  Mace4Wrapper.domain_size (Mace4Wrapper._parse_model sample_output)
  = Some 3%Z
  /\ Mace4Wrapper.raw_interpretation (Mace4Wrapper._parse_model sample_output)
     = ("interpretation( 3, [number=1], [" +:+ newline
        +:+ "  relation(P(_), [1,0,0])" +:+ newline
        +:+ "]). end_of_list")
       +:+ newline +:+ "relation(P(_), [1,0,0])".
Proof.
  pose proof (model_parsing (sample_os (inr (sample_output, "")))
                sample_finder sample_path 60%Z ∅ ∅ sample_output ""
                eq_refl eq_refl eq_refl) as [_ [Hsize [_ [Hraw _]]]].
  split; [exact Hsize|].
  exact (Hraw ("DOMAIN SIZE 2" +:+ newline +:+ "DOMAIN SIZE 3" +:+ newline)
           (" 3, [number=1], [" +:+ newline
            +:+ "  relation(P(_), [1,0,0])" +:+ newline +:+ "]). ")
           newline eq_refl eq_refl eq_refl).
Defined.

(** ** The validator: reserved names *)

Section Scanning.

Import Re.

Lemma space_not_word (c : ascii) : isspace c = true -> is_word c = false.
Proof.
  destruct c as [[] [] [] [] [] [] [] []]; intros H;
    first [reflexivity | discriminate H].
Qed.

Lemma ident_is_word (c : ascii) : is_ident_char c = true -> is_word c = true.
Proof. unfold is_word. intros ->. reflexivity. Qed.

Lemma ident_start_is_ident (c : ascii) :
  is_ident_start c = true -> is_ident_char c = true.
Proof. unfold is_ident_char. intros ->. reflexivity. Qed.

Lemma space_not_ident (c : ascii) :
  isspace c = true -> is_ident_char c = false.
Proof.
  intros H. apply space_not_word in H.
  destruct (is_ident_char c) eqn:E; [|reflexivity].
  apply ident_is_word in E. congruence.
Qed.

Lemma take_while_cons (p : ascii -> bool) (c : ascii) (t : string) :
  take_while p (String c t)
  = if p c then String c (take_while p t) else "".
Proof. reflexivity. Qed.

Lemma lstrip_by_cons (p : ascii -> bool) (c : ascii) (t : string) :
  lstrip_by p (String c t) = if p c then lstrip_by p t else String c t.
Proof. reflexivity. Qed.

Lemma length_take_while (p : ascii -> bool) (s : string) :
  String.length (take_while p s) + String.length (lstrip_by p s)
  = String.length s.
Proof.
  induction s as [|c s IH]; [reflexivity|].
  rewrite take_while_cons, lstrip_by_cons.
  destruct (p c); simpl; lia.
Qed.

(** A run of [p] that stops inside [a] is not affected by what follows. *)
Lemma lstrip_by_stops (p : ascii -> bool) (a b : string) :
  lstrip_by p a <> "" -> lstrip_by p (a +:+ b) = lstrip_by p a +:+ b.
Proof.
  induction a as [|c a IH]; intros H; [exfalso; apply H; reflexivity|].
  rewrite sapp_cons, !lstrip_by_cons in *.
  destruct (p c); [apply IH, H|reflexivity].
Qed.

(** A run of [p] that takes all of [a] goes on in what follows. *)
Lemma lstrip_by_through (p : ascii -> bool) (a b : string) :
  lstrip_by p a = "" -> lstrip_by p (a +:+ b) = lstrip_by p b.
Proof.
  induction a as [|c a IH]; intros H; [reflexivity|].
  rewrite sapp_cons, !lstrip_by_cons in *.
  destruct (p c); [apply IH, H|discriminate].
Qed.

Lemma take_while_all (p : ascii -> bool) (a b : string) :
  all_chars p a = true ->
  take_while p (a +:+ b) = a +:+ take_while p b
  /\ lstrip_by p (a +:+ b) = lstrip_by p b.
Proof.
  induction a as [|c a IH]; intros H; [split; reflexivity|].
  simpl in H. apply andb_true_iff in H as [Hc Ha].
  destruct (IH Ha) as [IH1 IH2].
  rewrite sapp_cons, take_while_cons, lstrip_by_cons, Hc, IH1, IH2.
  split; reflexivity.
Qed.

Lemma last_before_app (prev : option ascii) (a b : string) :
  last_before prev (a +:+ b) = last_before (last_before prev a) b.
Proof.
  revert prev. induction a as [|c a IH]; intros prev; [reflexivity|].
  rewrite sapp_cons. simpl. apply IH.
Qed.

(** Text that ends before a character outside the words does not consist
    of name characters only. *)
Lemma boundary_stops_name (prev : option ascii) (pre : string) :
  pre <> "" ->
  is_word_opt (last_before prev pre) = false ->
  lstrip_by is_ident_char pre <> "".
Proof.
  revert prev. induction pre as [|c t IH]; intros prev Hne Hb; [congruence|].
  rewrite lstrip_by_cons. destruct (is_ident_char c) eqn:E; [|discriminate].
  destruct t as [|d t].
  - change (is_word c = false) in Hb. apply ident_is_word in E. congruence.
  - apply (IH (Some c)); [discriminate|exact Hb].
Qed.

(** Skipping the characters of a match is the same as searching on from
    its end. *)
Lemma finditer_skip (m : matcher) (k : nat) (s : string) (pos : nat)
    (prev : option ascii) :
  k <= String.length s ->
  finditer_from m k pos prev s
  = finditer_from m 0 (pos + k) (last_before prev (take k s)) (PyStr.drop k s).
Proof.
  revert s pos prev. induction k as [|k IH]; intros s pos prev Hk.
  - rewrite take_0, drop_0, Nat.add_0_r. reflexivity.
  - destruct s as [|c t]; [simpl in Hk; lia|].
    simpl. rewrite IH by (simpl in Hk; lia).
    replace (S pos + k) with (pos + S k) by lia. reflexivity.
Qed.

(** A name at a word boundary, followed by whitespace and an opening
    parenthesis, is matched whole. *)
Lemma match_name_here (prev : option ascii) (c : ascii)
    (name ws post : string) :
  is_word_opt prev = false ->
  is_ident_start c = true ->
  all_chars is_ident_char name = true ->
  all_chars isspace ws = true ->
  match_name prev (String c name +:+ ws +:+ "(" +:+ post)
  = Some (String c name,
          String.length (String c name) + String.length ws + 1).
Proof.
  intros Hprev Hc Hname Hws.
  assert (Hall : all_chars is_ident_char (String c name) = true).
  { simpl. rewrite (ident_start_is_ident _ Hc), Hname. reflexivity. }
  assert (Hstop : forall p, p "("%char = false ->
                    take_while p ("(" +:+ post) = ""
                    /\ lstrip_by p ("(" +:+ post) = "(" +:+ post).
  { intros q Hq. change ("(" +:+ post) with (String "(" post).
    rewrite take_while_cons, lstrip_by_cons, Hq. split; reflexivity. }
  assert (Hws' : take_while is_ident_char (ws +:+ "(" +:+ post) = ""
                 /\ lstrip_by is_ident_char (ws +:+ "(" +:+ post)
                    = ws +:+ "(" +:+ post).
  { destruct ws as [|w ws]; [apply Hstop; reflexivity|].
    simpl in Hws. apply andb_true_iff in Hws as [Hw _].
    rewrite sapp_cons, take_while_cons, lstrip_by_cons,
      (space_not_ident _ Hw).
    split; reflexivity. }
  destruct (take_while_all is_ident_char (String c name)
              (ws +:+ "(" +:+ post) Hall) as [T1 L1].
  destruct Hws' as [T2 L2]. rewrite T2 in T1. rewrite L2 in L1.
  destruct (take_while_all isspace ws ("(" +:+ post) Hws) as [T3 L3].
  destruct (Hstop isspace eq_refl) as [T4 L4].
  rewrite T4 in T3. rewrite L4 in L3.
  rewrite sapp_nil_r in T1, T3.
  unfold match_name. rewrite (sapp_cons c name).
  rewrite <- (sapp_cons c name).
  unfold word_boundary. rewrite Hprev.
  change (head (String c name +:+ ws +:+ "(" +:+ post)) with (Some c).
  simpl is_word_opt.
  rewrite (ident_is_word _ (ident_start_is_ident _ Hc)), Hc.
  simpl xorb. cbv iota.
  rewrite T1, L1, T3, L3. reflexivity.
Qed.

(** A match that starts in text ending before a character outside the
    words, itself followed by the first letter of a name, ends in that
    text. *)
Lemma match_name_ends_before (prev : option ascii) (pre : string)
    (x : ascii) (rest : string) (g : string) (n : nat) :
  pre <> "" ->
  is_word_opt (last_before prev pre) = false ->
  is_ident_start x = true ->
  match_name prev (pre +:+ String x rest) = Some (g, n) ->
  1 <= n <= String.length pre.
Proof.
  intros Hne Hb Hx Hm.
  destruct pre as [|c t]; [congruence|].
  unfold match_name in Hm. rewrite sapp_cons in Hm.
  destruct (word_boundary prev _ && is_ident_start c); [|discriminate].
  rewrite <- sapp_cons in Hm.
  pose proof (boundary_stops_name prev _ Hne Hb) as Hstop.
  pose proof (length_take_while is_ident_char
                (String c t +:+ String x rest)) as L1.
  rewrite (lstrip_by_stops _ _ (String x rest) Hstop) in Hm, L1.
  set (a1 := lstrip_by is_ident_char (String c t)) in *.
  pose proof (length_take_while isspace (a1 +:+ String x rest)) as L2.
  destruct (lstrip_by isspace a1) as [|y a2] eqn:E2.
  - rewrite (lstrip_by_through _ _ (String x rest) E2) in Hm.
    rewrite lstrip_by_cons in Hm.
    destruct (isspace x) eqn:Sx.
    + apply space_not_ident in Sx.
      rewrite (ident_start_is_ident _ Hx) in Sx. discriminate.
    + destruct (Ascii.eqb_spec x "(") as [->|Hneq]; [discriminate Hx|].
      destruct x as [[] [] [] [] [] [] [] []]; try discriminate Hm;
        exfalso; apply Hneq; reflexivity.
  - assert (Hne2 : lstrip_by isspace a1 <> "") by (rewrite E2; discriminate).
    rewrite (lstrip_by_stops _ _ (String x rest) Hne2) in Hm, L2.
    rewrite E2, sapp_cons in Hm, L2.
    rewrite !length_sapp in L1, L2. simpl String.length in L1, L2.
    destruct y as [[] [] [] [] [] [] [] []]; try discriminate Hm.
    injection Hm as _ <-.
    rewrite !length_sapp in *. simpl String.length in *. lia.
Qed.

Lemma finditer_from_cons (m : matcher) (pos : nat) (prev : option ascii)
    (c : ascii) (t : string) :
  finditer_from m 0 pos prev (String c t)
  = match m prev (String c t) with
    | Some (g, n) =>
        (g, pos + n) :: finditer_from m (n - 1) (S pos) (Some c) t
    | None => finditer_from m 0 (S pos) (Some c) t
    end.
Proof. reflexivity. Qed.

(** The search of [_check_naming] reports every name that stands at a word
    boundary before whitespace and an opening parenthesis. *)
Lemma finditer_name_found (c : ascii) (name ws post : string) (bound : nat) :
  is_ident_start c = true ->
  all_chars is_ident_char name = true ->
  all_chars isspace ws = true ->
  forall (pre : string) (pos : nat) (prev : option ascii),
    String.length pre <= bound ->
    is_word_opt (last_before prev pre) = false ->
    exists e,
      In (String c name, e)
        (finditer_from match_name 0 pos prev
           (pre +:+ String c name +:+ ws +:+ "(" +:+ post)).
Proof.
  intros Hc Hname Hws.
  induction bound as [|bound IH]; intros pre pos prev Hlen Hb.
  - destruct pre; [|simpl in Hlen; lia].
    rewrite sapp_nil_l. simpl in Hb.
    pose proof (match_name_here prev c name ws post Hb Hc Hname Hws) as Hm.
    rewrite sapp_cons in *. rewrite finditer_from_cons, Hm.
    eexists. left. reflexivity.
  - destruct pre as [|d t].
    + apply (IH "" pos prev); [simpl; lia|exact Hb].
    + rewrite sapp_cons, finditer_from_cons.
      destruct (match_name prev
                  (String d (t +:+ String c name +:+ ws +:+ "(" +:+ post)))
        as [[g n]|] eqn:Hm.
      * rewrite <- sapp_cons, (sapp_cons c name) in Hm.
        pose proof (match_name_ends_before prev (String d t) c _ g n
                      ltac:(discriminate) Hb Hc Hm) as Hn.
        simpl String.length in Hn, Hlen.
        rewrite finditer_skip by (rewrite length_sapp; lia).
        rewrite take_app_le, drop_app_le by lia.
        destruct (IH (PyStr.drop (n - 1) t) (S pos + (n - 1))
                    (last_before (Some d) (take (n - 1) t)))
          as [e He].
        { rewrite length_drop. lia. }
        { rewrite <- last_before_app, take_drop. exact Hb. }
        exists e. right. exact He.
      * destruct (IH t (S pos) (Some d)) as [e He];
          [simpl in Hlen; lia|exact Hb|].
        exists e. exact He.
Qed.

End Scanning.

Section Validator.

Import SyntaxValidator.

Lemma fold_left_errors_kept {A} (step : t -> A -> t) (xs : list A)
    (self : t) (e : string) :
  (forall self x, In e (errors self) -> In e (errors (step self x))) ->
  In e (errors self) -> In e (errors (fold_left step xs self)).
Proof.
  intros Hstep. revert self. induction xs as [|x xs IH]; intros self H.
  - exact H.
  - simpl. apply IH, Hstep, H.
Qed.

Lemma in_add_error (msg e : string) (self : t) :
  In e (errors self) -> In e (errors (add_error msg self)).
Proof. intros H. simpl. apply in_or_app. left. exact H. Qed.

Lemma in_added_error (msg : string) (self : t) :
  In msg (errors (add_error msg self)).
Proof. simpl. apply in_or_app. right. left. reflexivity. Qed.

(** A reserved name that is not a quantifier, once found, is reported. *)
Lemma naming_reports (formula name : string) (e : nat) (self : t) :
  In (name, e) (Re.finditer Re.match_name formula) ->
  bool_decide (name ∈ QUANTIFIERS) = false ->
  bool_decide (name ∈ RESERVED) = true ->
  In ("'" +:+ name
      +:+ "' is a reserved keyword and cannot be used as a predicate/function")
    (errors (_check_naming formula self)).
Proof.
  intros Hin Hq Hr. unfold _check_naming.
  revert self. induction (Re.finditer Re.match_name formula) as [|m ms IH];
    intros self; [destruct Hin|].
  destruct Hin as [->|Hin]; [|apply IH, Hin].
  simpl fold_left. apply fold_left_errors_kept.
  - intros s x H. destruct (bool_decide (x.1 ∈ QUANTIFIERS)); [exact H|].
    destruct (bool_decide (x.1 ∈ RESERVED)).
    + apply in_add_error.
      destruct (match Re.head x.1 with Some c => isupper c | None => false end);
        exact H.
    + destruct (match Re.head x.1 with Some c => isupper c | None => false end);
        exact H.
  - simpl fst. rewrite Hq, Hr. apply in_added_error.
Qed.

Lemma common_mistakes_keep (formula e : string) (self : t) :
  In e (errors self) -> In e (errors (_check_common_mistakes formula self)).
Proof.
  intros H. unfold _check_common_mistakes.
  match goal with
  | |- In e (errors (if ?b then add_error ?msg ?s else ?s)) =>
      assert (Hs : In e (errors s)); [|destruct b; [apply in_add_error|]; exact Hs]
  end.
  assert (Hfold : forall ops : list string,
            In e (errors
                    (fold_left
                       (fun self op =>
                          if Re.search_between_words op formula
                          then add_warning
                                 ("Consider adding spaces around '" +:+ op
                                  +:+ "' for readability") self
                          else self) ops self))).
  { intros ops. apply fold_left_errors_kept; [|exact H].
    intros s x Hx. destruct (Re.search_between_words x formula); exact Hx. }
  destruct (contains _ formula || contains _ formula); apply Hfold.
Qed.

End Validator.

(** C7, as stated, fails: the quantifier names are skipped by the naming
    check, and [all(x)] passes validation without an error. *)
Lemma quantifier_name_accepted :
  ~ (forall order formula pre name ws post,
       formula = pre +:+ name +:+ ws +:+ "(" +:+ post ->
       name ∈ SyntaxValidator.RESERVED ->
       Re.is_word_opt (last_before None pre) = false ->
       all_chars isspace ws = true ->
       fst (fst (SyntaxValidator.validate order formula)) = false).
Proof.
  intros H.
  specialize (H SyntaxValidator.AllFirst "all(x)" "" "all" "" "x)" eq_refl).
  assert (Hin : "all" ∈ SyntaxValidator.RESERVED).
  { unfold SyntaxValidator.RESERVED, SyntaxValidator.QUANTIFIERS.
    set_solver. }
  specialize (H Hin eq_refl eq_refl). vm_compute in H. discriminate H.
Qed.

(** C7, amended: for every formula containing one of the names true, false
    and end_of_list at a word boundary, followed (after whitespace, if any)
    by an opening parenthesis, validate reports the reserved-keyword error
    for that name and returns is_valid = false.  The reserved words all and
    exists are skipped by this check. *)
Theorem reserved_name_rejected (order : SyntaxValidator.set_order)
    (formula pre name ws post : string) :
  formula = pre +:+ name +:+ ws +:+ "(" +:+ post ->
  In name ["true"; "false"; "end_of_list"] ->
  Re.is_word_opt (last_before None pre) = false ->
  all_chars isspace ws = true ->
  In ("'" +:+ name
      +:+ "' is a reserved keyword and cannot be used as a predicate/function")
    (snd (fst (SyntaxValidator.validate order formula)))
  /\ fst (fst (SyntaxValidator.validate order formula)) = false.
Proof.
  intros -> Hname Hb Hws.
  assert (Hclean : rstrip_dot (pre +:+ name +:+ ws +:+ "(" +:+ post)
                   = pre +:+ name +:+ ws +:+ "(" +:+ rstrip_dot post).
  { unfold rstrip_dot.
    replace (pre +:+ name +:+ ws +:+ "(" +:+ post)
      with ((pre +:+ name +:+ ws) +:+ String "(" post)
      by (rewrite !sapp_assoc; reflexivity).
    rewrite rstrip_by_app by reflexivity.
    rewrite !sapp_assoc. reflexivity. }
  assert (Hfound : exists e,
             In (name, e)
               (Re.finditer Re.match_name
                  (pre +:+ name +:+ ws +:+ "(" +:+ rstrip_dot post))
             /\ bool_decide (name ∈ SyntaxValidator.QUANTIFIERS) = false
             /\ bool_decide (name ∈ SyntaxValidator.RESERVED) = true).
  { unfold Re.finditer.
    destruct Hname as [<-|[<-|[<-|[]]]].
    - destruct (finditer_name_found "t" "rue" ws (rstrip_dot post)
                  (String.length pre) eq_refl eq_refl Hws pre 0 None
                  (le_n _) Hb) as [e He].
      exists e. split; [exact He|split; reflexivity].
    - destruct (finditer_name_found "f" "alse" ws (rstrip_dot post)
                  (String.length pre) eq_refl eq_refl Hws pre 0 None
                  (le_n _) Hb) as [e He].
      exists e. split; [exact He|split; reflexivity].
    - destruct (finditer_name_found "e" "nd_of_list" ws (rstrip_dot post)
                  (String.length pre) eq_refl eq_refl Hws pre 0 None
                  (le_n _) Hb) as [e He].
      exists e. split; [exact He|split; reflexivity]. }
  destruct Hfound as [e [He [Hq Hr]]].
  unfold SyntaxValidator.validate. rewrite Hclean. cbv zeta.
  simpl fst. simpl snd.
  match goal with
  | |- In ?msg (SyntaxValidator.errors ?s) /\ _ =>
      assert (Hin : In msg (SyntaxValidator.errors s))
  end.
  { apply common_mistakes_keep. eapply naming_reports; eauto. }
  split; [exact Hin|].
  destruct (SyntaxValidator.errors _); [destruct Hin|reflexivity].
Qed.

Lemma reserved_name_rejected_true :
  In "'true' is a reserved keyword and cannot be used as a predicate/function"
    (snd (fst (SyntaxValidator.validate SyntaxValidator.AllFirst
                 "p(a) -> true (a).")))
  /\ fst (fst (SyntaxValidator.validate SyntaxValidator.AllFirst
                 "p(a) -> true (a).")) = false.
Proof.
  exact (reserved_name_rejected SyntaxValidator.AllFirst
           "p(a) -> true (a)." "p(a) -> " "true" " " "a)."
           eq_refl (or_introl eq_refl) eq_refl eq_refl).
Defined.

(** ** Further properties: the model finder runner *)

Section FinderOutput.

Import Mace4Wrapper.

Variable os : os_model.
Variable self : Mace4Wrapper.t.
Variable p : path.
Variable t : Z.
Variables fs fs1 : filesystem.
Variables stdout stderr : string.

Hypothesis Hrun :
  os_run os (argv (mace4_exe self) p) (cwd (mace4_exe self)) t fs
  = (inr (stdout, stderr), fs1).

Lemma finder_model_first :
  contains "DOMAIN SIZE" stdout && contains "interpretation(" stdout = true ->
  fst (_run_mace4 os self p t fs)
  = inr {[ "result" := VStr "model_found";
           "model" := VModel (_parse_model stdout);
           "complete_output" := VStr stdout ]}.
Proof. intros H. run_mace4 Hrun. rewrite H. reflexivity. Qed.

Lemma finder_no_model_second :
  contains "DOMAIN SIZE" stdout && contains "interpretation(" stdout = false ->
  contains "SEARCH FAILED" stdout || contains "SEARCH TERMINATED" stdout
  = true ->
  fst (_run_mace4 os self p t fs)
  = inr {[ "result" := VStr "no_model_found";
           "reason" :=
             VStr "No finite model found within domain size limits";
           "complete_output" := VStr stdout ]}.
Proof. intros H1 H2. run_mace4 Hrun. rewrite H1, H2. reflexivity. Qed.

Lemma finder_error_third :
  contains "DOMAIN SIZE" stdout && contains "interpretation(" stdout = false ->
  contains "SEARCH FAILED" stdout || contains "SEARCH TERMINATED" stdout
  = false ->
  contains "Fatal error" stderr || contains "Fatal error" stdout = true ->
  fst (_run_mace4 os self p t fs)
  = inr {[ "result" := VStr "error";
           "reason" := VStr "Syntax error or invalid input";
           "error" := VStr (if (stderr =? "")%string then stdout
                            else stderr) ]}.
Proof.
  intros H1 H2 H3. run_mace4 Hrun. rewrite H1, H2, H3. reflexivity.
Qed.

Lemma finder_unknown_last :
  contains "DOMAIN SIZE" stdout && contains "interpretation(" stdout = false ->
  contains "SEARCH FAILED" stdout || contains "SEARCH TERMINATED" stdout
  = false ->
  contains "Fatal error" stderr || contains "Fatal error" stdout = false ->
  fst (_run_mace4 os self p t fs)
  = inr {[ "result" := VStr "unknown";
           "reason" := VStr "Unexpected Mace4 output";
           "output" := VStr stdout;
           "error" := VStr stderr ]}.
Proof.
  intros H1 H2 H3. run_mace4 Hrun. rewrite H1, H2, H3. reflexivity.
Qed.

End FinderOutput.

(** The model finder output is classified in a fixed order, the first match
    winning: both [DOMAIN SIZE] and [interpretation(] in stdout give
    model_found; else [SEARCH FAILED] or [SEARCH TERMINATED] in stdout gives
    no_model_found; else [Fatal error] in stderr or in stdout gives error,
    whose error field is stderr unless that is empty, and then stdout; else
    the outcome is unknown and carries both streams. *)
Theorem finder_classification_order (os : os_model) (self : Mace4Wrapper.t)
    (p : path) (t : Z) (fs fs1 : filesystem) (stdout stderr : string) :
  os_run os (argv (Mace4Wrapper.mace4_exe self) p)
    (cwd (Mace4Wrapper.mace4_exe self)) t fs
  = (inr (stdout, stderr), fs1) ->
  let outcome := fst (Mace4Wrapper._run_mace4 os self p t fs) in
  let found :=
    contains "DOMAIN SIZE" stdout && contains "interpretation(" stdout in
  let exhausted :=
    contains "SEARCH FAILED" stdout || contains "SEARCH TERMINATED" stdout in
  let fatal :=
    contains "Fatal error" stderr || contains "Fatal error" stdout in
  (found = true ->
   outcome
   = inr {[ "result" := Mace4Wrapper.VStr "model_found";
            "model" :=
              Mace4Wrapper.VModel (Mace4Wrapper._parse_model stdout);
            "complete_output" := Mace4Wrapper.VStr stdout ]})
  /\ (found = false -> exhausted = true ->
      outcome
      = inr {[ "result" := Mace4Wrapper.VStr "no_model_found";
               "reason" :=
                 Mace4Wrapper.VStr
                   "No finite model found within domain size limits";
               "complete_output" := Mace4Wrapper.VStr stdout ]})
  /\ (found = false -> exhausted = false -> fatal = true ->
      outcome
      = inr {[ "result" := Mace4Wrapper.VStr "error";
               "reason" :=
                 Mace4Wrapper.VStr "Syntax error or invalid input";
               "error" :=
                 Mace4Wrapper.VStr (if (stderr =? "")%string then stdout
                                    else stderr) ]})
  /\ (found = false -> exhausted = false -> fatal = false ->
      outcome
      = inr {[ "result" := Mace4Wrapper.VStr "unknown";
               "reason" := Mace4Wrapper.VStr "Unexpected Mace4 output";
               "output" := Mace4Wrapper.VStr stdout;
               "error" := Mace4Wrapper.VStr stderr ]}).
Proof.
  intros Hrun outcome found exhausted fatal.
  unfold outcome, found, exhausted, fatal. repeat split.
  - eapply finder_model_first; eauto.
  - eapply finder_no_model_second; eauto.
  - eapply finder_error_third; eauto.
  - eapply finder_unknown_last; eauto.
Qed.

Lemma finder_classification_order_fatal_in_stdout :
  fst (Mace4Wrapper._run_mace4
         (sample_os (inr ("Fatal error: syntax", "")))
         sample_finder sample_path 60%Z ∅)
  = inr {[ "result" := Mace4Wrapper.VStr "error";
           "reason" := Mace4Wrapper.VStr "Syntax error or invalid input";
           "error" := Mace4Wrapper.VStr "Fatal error: syntax" ]}.
Proof.
  exact (proj1 (proj2 (proj2
           (finder_classification_order
              (sample_os (inr ("Fatal error: syntax", "")))
              sample_finder sample_path 60%Z ∅ ∅
              "Fatal error: syntax" "" eq_refl)))
           eq_refl eq_refl eq_refl).
Defined.

Lemma finder_outcomes (os : os_model) (self : Mace4Wrapper.t) (p : path)
    (t : Z) (fs : filesystem) (res : gmap string Mace4Wrapper.value) :
  fst (Mace4Wrapper._run_mace4 os self p t fs) = inr res ->
  finder_outcome t res.
Proof.
  destruct (os_run os (argv (Mace4Wrapper.mace4_exe self) p)
              (cwd (Mace4Wrapper.mace4_exe self)) t fs)
    as [[e|[stdout stderr]] fs1] eqn:Hrun.
  - rewrite (proj2 (timeout_or_error_parts os p t fs fs1 e) self Hrun).
    destruct (bool_decide (exn_cls e = TimeoutExpired));
      [|destruct (is_Exception (exn_cls e))]; intros H;
      first [discriminate H|injection H as <-; constructor].
  - destruct (contains "DOMAIN SIZE" stdout
              && contains "interpretation(" stdout) eqn:H1.
    { rewrite (finder_model_first _ _ _ _ _ _ _ _ Hrun H1).
      intros H. injection H as <-. constructor. }
    destruct (contains "SEARCH FAILED" stdout
              || contains "SEARCH TERMINATED" stdout) eqn:H2.
    { rewrite (finder_no_model_second _ _ _ _ _ _ _ _ Hrun H1 H2).
      intros H. injection H as <-. constructor. }
    destruct (contains "Fatal error" stderr
              || contains "Fatal error" stdout) eqn:H3.
    { rewrite (finder_error_third _ _ _ _ _ _ _ _ Hrun H1 H2 H3).
      intros H. injection H as <-. constructor. }
    rewrite (finder_unknown_last _ _ _ _ _ _ _ _ Hrun H1 H2 H3).
    intros H. injection H as <-. constructor.
Qed.

(** [find_counterexample], once its input file is written, in terms of the
    run on that file. *)
Lemma counterexample_parts (os : os_model) (self : Mace4Wrapper.t)
    (premises : list string) (conclusion : string) (d : option Z)
    (fs : filesystem) (p : path) :
  os_mkstemp os ".in" fs = inr p ->
  let text :=
    join newline (Mace4Wrapper.input_lines premises (Some conclusion) d) in
  os_write os p text fs = None ->
  let ended := Mace4Wrapper._run_mace4 os self p 60 (<[p := text]> fs) in
  Mace4Wrapper.find_counterexample os self premises conclusion d fs
  = (match fst ended with
     | inl e => inl e
     | inr res =>
         inr match res !! "result" with
             | Some (Mace4Wrapper.VStr "model_found") =>
                 <[ "interpretation" :=
                      Mace4Wrapper.VStr
                        ("Counterexample found: The premises are satisfied "
                         +:+ "but the conclusion '" +:+ conclusion
                         +:+ "' is FALSE in this model.") ]> res
             | _ => res
             end
     end, snd ended).
Proof.
  intros Hp text Hw ended.
  unfold Mace4Wrapper.find_counterexample, bind,
    Mace4Wrapper._create_input_file, write_temp.
  rewrite Hp. fold text. rewrite Hw. fold ended.
  destruct ended as [[e|res] f] eqn:Hended; [reflexivity|].
  pose proof (finder_outcomes os self p 60 (<[p := text]> fs) res) as Hshape.
  fold ended in Hshape. rewrite Hended in Hshape.
  destruct (Hshape eq_refl); reflexivity.
Qed.

(** ** Further properties: the entry points *)

(** [find_counterexample] adds the [interpretation] note to the outcome of
    the run exactly when that outcome is tagged model_found, and hands back
    every other outcome as the run produced it. *)
Theorem counterexample_note (os : os_model) (self : Mace4Wrapper.t)
    (premises : list string) (conclusion : string) (d : option Z)
    (fs : filesystem) (p : path) :
  os_mkstemp os ".in" fs = inr p ->
  let text :=
    join newline (Mace4Wrapper.input_lines premises (Some conclusion) d) in
  os_write os p text fs = None ->
  interrupted
    (fst (os_run os (argv (Mace4Wrapper.mace4_exe self) p)
            (cwd (Mace4Wrapper.mace4_exe self)) 60 (<[p := text]> fs)))
  = false ->
  let ended := Mace4Wrapper._run_mace4 os self p 60 (<[p := text]> fs) in
  let note :=
    Mace4Wrapper.VStr
      ("Counterexample found: The premises are satisfied "
       +:+ "but the conclusion '" +:+ conclusion
       +:+ "' is FALSE in this model.") in
  exists res,
    fst ended = inr res
    /\ (res !! "result" = Some (Mace4Wrapper.VStr "model_found")
        /\ Mace4Wrapper.find_counterexample os self premises conclusion d fs
           = (inr (<[ "interpretation" := note ]> res), snd ended)
        \/ res !! "result" <> Some (Mace4Wrapper.VStr "model_found")
           /\ Mace4Wrapper.find_counterexample os self premises conclusion d fs
              = (inr res, snd ended)).
Proof.
  intros Hp text Hw Hint ended note.
  destruct (mace4_ended os self p 60 (<[p := text]> fs)) as [_ [Hres _]].
  cbv zeta in Hres. destruct (Hres Hint) as [res Hended].
  fold ended in Hended. exists res. split; [exact Hended|].
  pose proof (finder_outcomes os self p 60 (<[p := text]> fs) res Hended)
    as Hshape.
  rewrite (counterexample_parts os self premises conclusion d fs p Hp Hw).
  fold text. fold ended. rewrite Hended.
  destruct Hshape;
    first [left; split; reflexivity
          |right; split; [intros H; discriminate H|reflexivity]].
Qed.

Lemma counterexample_note_P_b :
  exists res,
    fst (Mace4Wrapper._run_mace4 (sample_os (inr (sample_output, "")))
           sample_finder sample_path 60
           (<[sample_path :=
                join newline
                  (Mace4Wrapper.input_lines ["P(a)"] (Some "P(b)")
                     (Some 2%Z))]> ∅))
    = inr res
    /\ (res !! "result" = Some (Mace4Wrapper.VStr "model_found")
        /\ Mace4Wrapper.find_counterexample
             (sample_os (inr (sample_output, ""))) sample_finder
             ["P(a)"] "P(b)" (Some 2%Z) ∅
           = (inr (<[ "interpretation" :=
                        Mace4Wrapper.VStr
                          ("Counterexample found: The premises are satisfied "
                           +:+ "but the conclusion '" +:+ "P(b)"
                           +:+ "' is FALSE in this model.") ]> res), ∅)
        \/ res !! "result" <> Some (Mace4Wrapper.VStr "model_found")
           /\ Mace4Wrapper.find_counterexample
                (sample_os (inr (sample_output, ""))) sample_finder
                ["P(a)"] "P(b)" (Some 2%Z) ∅
              = (inr res, ∅)).
Proof.
  exact (counterexample_note (sample_os (inr (sample_output, "")))
           sample_finder ["P(a)"] "P(b)" (Some 2%Z) ∅ sample_path eq_refl
           eq_refl eq_refl).
Defined.

(** With an empty conclusion [find_counterexample] runs the solver on the
    very input of [find_model], so whenever [find_model] finds a model of the
    premises, [find_counterexample] presents that model as a counterexample
    to the empty conclusion. *)
Theorem empty_conclusion_counterexample (os : os_model)
    (self : Mace4Wrapper.t) (premises : list string) (d : option Z)
    (fs fs' : filesystem) (res : gmap string Mace4Wrapper.value) :
  Mace4Wrapper.find_model os self premises d fs = (inr res, fs') ->
  res !! "result" = Some (Mace4Wrapper.VStr "model_found") ->
  Mace4Wrapper.find_counterexample os self premises "" d fs
  = (inr (<[ "interpretation" :=
               Mace4Wrapper.VStr
                 ("Counterexample found: The premises are satisfied but "
                  +:+ "the conclusion '' is FALSE in this model.") ]> res),
     fs').
Proof.
  unfold Mace4Wrapper.find_model, Mace4Wrapper.find_counterexample, bind.
  change (Mace4Wrapper._create_input_file os premises (Some "") d)
    with (Mace4Wrapper._create_input_file os premises None d).
  destruct (Mace4Wrapper._create_input_file os premises None d fs)
    as [[e|p] f]; [discriminate|].
  intros Hrun Hfound. rewrite Hrun, Hfound. reflexivity.
Qed.

Lemma empty_conclusion_counterexample_P_a :
  Mace4Wrapper.find_counterexample (sample_os (inr (sample_output, "")))
    sample_finder ["P(a)"] "" (Some 2%Z) ∅
  = (inr (<[ "interpretation" :=
               Mace4Wrapper.VStr
                 ("Counterexample found: The premises are satisfied but "
                  +:+ "the conclusion '' is FALSE in this model.") ]>
            {[ "result" := Mace4Wrapper.VStr "model_found";
               "model" :=
                 Mace4Wrapper.VModel (Mace4Wrapper._parse_model sample_output);
               "complete_output" := Mace4Wrapper.VStr sample_output ]}),
     ∅).
Proof.
  exact (empty_conclusion_counterexample
           (sample_os (inr (sample_output, ""))) sample_finder ["P(a)"]
           (Some 2%Z) ∅ ∅ _ eq_refl eq_refl).
Defined.

(** An exception leaves [handle_call_tool] only when it does not derive
    from [Exception].  A prove call whose solver run is ended by such an
    exception (a keyboard interrupt, an exit) is one: the exception passes
    through the runner and through the dispatcher, and the input file has
    been cleaned up by then.  Every other end of the run is answered with
    the outcome of the runner. *)
Theorem interrupt_leaves_dispatcher (os : os_model) (engine : LogicEngine.t)
    (fs : filesystem) :
  (forall call e fs',
     handle_call_tool os engine call fs = (inl e, fs') ->
     is_Exception (exn_cls e) = false)
  /\ (forall p premises conclusion,
        os_mkstemp os ".in" fs = inr p ->
        let text :=
          join newline (LogicEngine.input_lines premises conclusion) in
        os_write os p text fs = None ->
        let run := os_run os (argv (LogicEngine.prover_exe engine) p)
                     (cwd (LogicEngine.prover_exe engine)) 60
                     (<[p := text]> fs) in
        let called :=
          handle_call_tool os engine (Prove premises conclusion) fs in
        snd called = after_cleanup os p (snd run)
        /\ (forall e,
              fst run = inl e -> is_Exception (exn_cls e) = false ->
              fst called = inl e)
        /\ (interrupted (fst run) = false ->
            exists results,
              fst (LogicEngine._run_prover os engine p 60 (<[p := text]> fs))
              = inr results
              /\ fst called = inr (ReplyResults results))).
Proof.
  split.
  - intros call e fs'. unfold handle_call_tool, try_except.
    match goal with
    | |- context [match ?m fs with _ => _ end] =>
        destruct (m fs) as [[e0|r] f]
    end; [|discriminate].
    destruct (is_Exception (exn_cls e0)) eqn:Hcls; [discriminate|].
    intros H. injection H as <- _. exact Hcls.
  - intros p premises conclusion Hp text Hw run called.
    destruct (prover_ended os engine p 60 (<[p := text]> fs))
      as [Hfs [Hres Hraise]].
    cbv zeta in Hfs, Hres, Hraise. fold run in Hfs, Hres, Hraise.
    assert (Hcalled : called
                      = match LogicEngine._run_prover os engine p 60
                                (<[p := text]> fs) with
                        | (inl e, f) =>
                            if is_Exception (exn_cls e)
                            then (inr (ReplyError ("Error: " +:+ exn_str e)), f)
                            else (inl e, f)
                        | (inr results, f) => (inr (ReplyResults results), f)
                        end).
    { unfold called, handle_call_tool, try_except, bind,
        LogicEngine._create_input_file, write_temp.
      rewrite Hp. fold text. rewrite Hw.
      destruct (LogicEngine._run_prover os engine p 60 (<[p := text]> fs))
        as [[e|r] f]; [|reflexivity].
      destruct (is_Exception (exn_cls e)); reflexivity. }
    rewrite Hcalled.
    destruct (LogicEngine._run_prover os engine p 60 (<[p := text]> fs))
      as [[e|r] f]; simpl in Hfs, Hres, Hraise.
    + split; [destruct (is_Exception (exn_cls e)); exact Hfs|]. split.
      * intros e' He' Hcls. specialize (Hraise e' He' Hcls).
        injection Hraise as ->. rewrite Hcls. reflexivity.
      * intros Hint. destruct (Hres Hint) as [res Hno]. discriminate Hno.
    + split; [exact Hfs|]. split.
      * intros e' He' Hcls. specialize (Hraise e' He' Hcls).
        discriminate Hraise.
      * intros _. exists r. split; reflexivity.
Qed.

Lemma interrupt_leaves_dispatcher_ctrl_c :
  fst (handle_call_tool (sample_os (inl (Exn KeyboardInterrupt "")))
         sample_engine (Prove ["p(a)"] "p(a)") ∅)
  = inl (Exn KeyboardInterrupt "").
Proof.
  exact (proj1 (proj2
           (proj2 (interrupt_leaves_dispatcher
                     (sample_os (inl (Exn KeyboardInterrupt "")))
                     sample_engine ∅)
              sample_path ["p(a)"] "p(a)" eq_refl eq_refl))
           (Exn KeyboardInterrupt "") eq_refl eq_refl).
Defined.

(** A call that fails before any solver runs.  An unknown tool name is
    answered with its error text, and the files are left as they were.  When
    no temporary file can be made, the files are left as they were too.
    When the file is made and writing to it fails, the file stays behind
    with what was written, since only the runner deletes it.
    [handle_call_tool] answers such a failure with its text after
    [Error: ], unless it is outside [Exception]; [find_model] and
    [find_counterexample] have no such net and raise it. *)
Theorem failure_before_run (os : os_model) (engine : LogicEngine.t)
    (finder : Mace4Wrapper.t) (fs : filesystem) :
  (forall name,
     handle_call_tool os engine (OtherTool name) fs
     = (inr (ReplyError ("Error: Unknown tool: " +:+ name)), fs))
  /\ (forall e,
        os_mkstemp os ".in" fs = inl e ->
        (forall premises conclusion,
           handle_call_tool os engine (Prove premises conclusion) fs
           = (answered e, fs))
        /\ (forall statements,
              handle_call_tool os engine (CheckWellFormed statements) fs
              = (answered e, fs))
        /\ (forall premises d,
              Mace4Wrapper.find_model os finder premises d fs = (inl e, fs))
        /\ (forall premises conclusion d,
              Mace4Wrapper.find_counterexample os finder premises conclusion
                d fs
              = (inl e, fs)))
  /\ (forall p e written,
        os_mkstemp os ".in" fs = inr p ->
        (forall premises conclusion,
           let text :=
             join newline (LogicEngine.input_lines premises conclusion) in
           os_write os p text fs = Some (e, written) ->
           handle_call_tool os engine (Prove premises conclusion) fs
           = (answered e, <[p := take written text]> fs))
        /\ (forall statements,
              let text :=
                join newline (LogicEngine.input_lines statements "true") in
              os_write os p text fs = Some (e, written) ->
              handle_call_tool os engine (CheckWellFormed statements) fs
              = (answered e, <[p := take written text]> fs))
        /\ (forall premises d,
              let text :=
                join newline (Mace4Wrapper.input_lines premises None d) in
              os_write os p text fs = Some (e, written) ->
              Mace4Wrapper.find_model os finder premises d fs
              = (inl e, <[p := take written text]> fs))
        /\ (forall premises conclusion d,
              let text :=
                join newline
                  (Mace4Wrapper.input_lines premises (Some conclusion) d) in
              os_write os p text fs = Some (e, written) ->
              Mace4Wrapper.find_counterexample os finder premises conclusion
                d fs
              = (inl e, <[p := take written text]> fs))).
Proof.
  split; [reflexivity|]. split.
  - intros e He. repeat split; intros;
      unfold handle_call_tool, Mace4Wrapper.find_model,
        Mace4Wrapper.find_counterexample, try_except, bind,
        LogicEngine._create_input_file, Mace4Wrapper._create_input_file,
        write_temp, answered;
      rewrite He; try reflexivity;
      destruct (is_Exception (exn_cls e)); reflexivity.
  - intros p e written Hp. repeat split; intros;
      repeat match goal with text := _ |- _ => subst text end;
      unfold handle_call_tool, Mace4Wrapper.find_model,
        Mace4Wrapper.find_counterexample, try_except, bind,
        LogicEngine._create_input_file, Mace4Wrapper._create_input_file,
        write_temp, answered;
      rewrite Hp;
      match goal with Hw : os_write _ _ _ _ = _ |- _ => rewrite Hw end;
      try reflexivity;
      destruct (is_Exception (exn_cls e)); reflexivity.
Qed.

Lemma failure_before_run_disk_full :
  handle_call_tool (full_disk_os 22) sample_engine (Prove ["p(a)"] "p(a)") ∅
  = (inr (ReplyError "Error: [Errno 28] No space left on device"),
     {[ sample_path := "formulas(assumptions)." ]}).
Proof.
  exact (proj1 (proj2 (proj2 (failure_before_run (full_disk_os 22)
                                sample_engine sample_finder ∅))
                  sample_path
                  (Exn OSError "[Errno 28] No space left on device") 22
                  eq_refl)
           ["p(a)"] "p(a)" eq_refl).
Defined.

(** A prove call, a well-formedness check, or a model search, whose
    temporary file gets a fresh name, is written, can be deleted, and is
    left alone by the solver (which changes no other file either), leaves
    the files exactly as they were before the call, however the run ends. *)
Theorem no_file_left_behind (os : os_model) (fs : filesystem) (p : path) :
  os_mkstemp os ".in" fs = inr p ->
  fs !! p = None ->
  (forall text, os_write os p text fs = None) ->
  os_unlink_refused os p = false ->
  (forall argv cwd t fs0, snd (os_run os argv cwd t fs0) = fs0) ->
  (forall engine premises conclusion,
     snd (handle_call_tool os engine (Prove premises conclusion) fs) = fs)
  /\ (forall engine statements,
        snd (handle_call_tool os engine (CheckWellFormed statements) fs) = fs)
  /\ (forall finder premises d,
        snd (Mace4Wrapper.find_model os finder premises d fs) = fs)
  /\ (forall finder premises conclusion d,
        snd (Mace4Wrapper.find_counterexample os finder premises conclusion
               d fs) = fs).
Proof.
  intros Hp Hfresh Hw Hdel Hquiet.
  assert (Hclean : forall text argv cwd t,
            after_cleanup os p (snd (os_run os argv cwd t (<[p := text]> fs)))
            = fs).
  { intros. rewrite Hquiet. unfold after_cleanup. rewrite Hdel.
    rewrite delete_insert_eq. apply delete_id, Hfresh. }
  repeat split.
  - intros engine premises conclusion.
    unfold handle_call_tool, try_except, bind,
      LogicEngine._create_input_file, write_temp.
    rewrite Hp, Hw.
    destruct (prover_ended os engine p 60
                (<[p := join newline
                          (LogicEngine.input_lines premises conclusion)]> fs))
      as [Hfs _].
    cbv zeta in Hfs. rewrite Hclean in Hfs.
    destruct (LogicEngine._run_prover _ _ _ _ _) as [[e|r] f];
      simpl in Hfs; subst f; [|reflexivity].
    destruct (is_Exception (exn_cls e)); reflexivity.
  - intros engine statements.
    unfold handle_call_tool, try_except, bind,
      LogicEngine._create_input_file, write_temp.
    rewrite Hp, Hw.
    destruct (prover_ended os engine p 5
                (<[p := join newline
                          (LogicEngine.input_lines statements "true")]> fs))
      as [Hfs _].
    cbv zeta in Hfs. rewrite Hclean in Hfs.
    destruct (LogicEngine._run_prover _ _ _ _ _) as [[e|r] f];
      simpl in Hfs; subst f; [|reflexivity].
    destruct (is_Exception (exn_cls e)); reflexivity.
  - intros finder premises d.
    unfold Mace4Wrapper.find_model, bind,
      Mace4Wrapper._create_input_file, write_temp.
    rewrite Hp, Hw.
    destruct (mace4_ended os finder p 60
                (<[p := join newline
                          (Mace4Wrapper.input_lines premises None d)]> fs))
      as [Hfs _].
    cbv zeta in Hfs. rewrite Hfs. apply Hclean.
  - intros finder premises conclusion d.
    rewrite (counterexample_parts os finder premises conclusion d fs p Hp
               (Hw _)).
    destruct (mace4_ended os finder p 60
                (<[p := join newline
                          (Mace4Wrapper.input_lines premises
                             (Some conclusion) d)]> fs))
      as [Hfs _].
    cbv zeta in Hfs. simpl snd. rewrite Hfs. apply Hclean.
Qed.

Lemma no_file_left_behind_socrates :
  snd (handle_call_tool
         (sample_os (inr ("THEOREM PROVED PROOF = 1 ====", "")))
         sample_engine
         (Prove ["all x (man(x) -> mortal(x))"; "man(socrates)"]
            "mortal(socrates)")
         {[ [""; "home"; "notes.txt"] := "keep" ]})
  = {[ [""; "home"; "notes.txt"] := "keep" ]}.
Proof.
  exact (proj1 (no_file_left_behind
                  (sample_os (inr ("THEOREM PROVED PROOF = 1 ====", "")))
                  {[ [""; "home"; "notes.txt"] := "keep" ]} sample_path
                  eq_refl eq_refl (fun _ => eq_refl) eq_refl
                  (fun _ _ _ _ => eq_refl))
           sample_engine
           ["all x (man(x) -> mortal(x))"; "man(socrates)"]
           "mortal(socrates)").
Defined.

(** A prover run that an exception outside [Exception] ends has no outcome:
    the exception leaves [_run_prover].  Every other run has one, and it
    carries a [result] tag that is one of proved, unprovable, error and
    timeout; a proved outcome carries its proof and the complete output,
    and every other outcome carries a reason. *)
Theorem prover_outcome_tags (os : os_model) (self : LogicEngine.t)
    (p : path) (t : Z) (fs : filesystem) :
  let run := os_run os (argv (LogicEngine.prover_exe self) p)
               (cwd (LogicEngine.prover_exe self)) t fs in
  let ended := LogicEngine._run_prover os self p t fs in
  (forall e,
     fst run = inl e -> is_Exception (exn_cls e) = false -> fst ended = inl e)
  /\ (interrupted (fst run) = false ->
      exists res tag,
        fst ended = inr res
        /\ res !! "result" = Some tag
        /\ In tag ["proved"; "unprovable"; "error"; "timeout"]
        /\ (if (tag =? "proved")%string
            then is_Some (res !! "proof")
                 /\ is_Some (res !! "complete_output")
                 /\ res !! "reason" = None
            else is_Some (res !! "reason") /\ res !! "proof" = None)).
Proof.
  intros run ended.
  split; [exact (proj2 (proj2 (prover_ended os self p t fs)))|].
  unfold run, ended.
  destruct (os_run os (argv (LogicEngine.prover_exe self) p)
              (cwd (LogicEngine.prover_exe self)) t fs)
    as [[e|[stdout stderr]] fs1] eqn:Hrun.
  - simpl. intros Hint.
    pose proof (proj1 (timeout_or_error_parts os p t fs fs1 e) self Hrun)
      as H.
    destruct (is_Exception (exn_cls e)); [|discriminate Hint].
    destruct (bool_decide (exn_cls e = TimeoutExpired));
      eexists; eexists; (split; [exact H|]);
      (split; [reflexivity|]); simpl; eauto 10.
  - intros _. destruct (contains "THEOREM PROVED" stdout) eqn:HTP.
    + destruct (contains "PROOF =" stdout) eqn:HP.
      * apply contains_after in HP as [rest Hrest].
        eexists; eexists;
          (split; [eapply proved_with_marker; eauto|]);
          (split; [reflexivity|]); simpl; eauto 10.
      * eexists; eexists;
          (split; [eapply error_without_marker; eauto|]);
          (split; [reflexivity|]); simpl; eauto 10.
    + destruct (contains "SEARCH FAILED" stdout) eqn:HSF.
      * eexists; eexists;
          (split; [eapply unprovable_second; eauto|]);
          (split; [reflexivity|]); simpl; eauto 10.
      * destruct (contains "Fatal error" stderr) eqn:HFE;
          eexists; eexists;
          (split; [first [solve [eapply syntax_error_third; eauto]
                         |solve [eapply unexpected_last; eauto]]|]);
          (split; [reflexivity|]); simpl; eauto 10.
Qed.

Lemma prover_outcome_tags_exit :
  fst (LogicEngine._run_prover (sample_os (inl (Exn SystemExit "1")))
         sample_engine sample_path 60%Z ∅)
  = inl (Exn SystemExit "1").
Proof.
  exact (proj1 (prover_outcome_tags (sample_os (inl (Exn SystemExit "1")))
                  sample_engine sample_path 60%Z ∅)
           (Exn SystemExit "1") eq_refl eq_refl).
Defined.

(** A model finder run that an exception outside [Exception] ends has no
    outcome: the exception leaves [_run_mace4].  Every other run has one,
    and it carries a [result] tag that is one of model_found,
    no_model_found, error, unknown and timeout; a model_found outcome
    carries the model and the complete output, and every other outcome
    carries a reason and no model. *)
Theorem finder_outcome_tags (os : os_model) (self : Mace4Wrapper.t)
    (p : path) (t : Z) (fs : filesystem) :
  let run := os_run os (argv (Mace4Wrapper.mace4_exe self) p)
               (cwd (Mace4Wrapper.mace4_exe self)) t fs in
  let ended := Mace4Wrapper._run_mace4 os self p t fs in
  (forall e,
     fst run = inl e -> is_Exception (exn_cls e) = false -> fst ended = inl e)
  /\ (interrupted (fst run) = false ->
      exists res tag,
        fst ended = inr res
        /\ res !! "result" = Some (Mace4Wrapper.VStr tag)
        /\ In tag ["model_found"; "no_model_found"; "error"; "unknown";
                   "timeout"]
        /\ (if (tag =? "model_found")%string
            then (exists m, res !! "model" = Some (Mace4Wrapper.VModel m))
                 /\ is_Some (res !! "complete_output")
                 /\ res !! "reason" = None
            else is_Some (res !! "reason") /\ res !! "model" = None)).
Proof.
  intros run ended.
  destruct (mace4_ended os self p t fs) as [_ [Hres Hraise]].
  cbv zeta in Hres, Hraise. fold run ended in Hres, Hraise.
  split; [exact Hraise|]. intros Hint.
  destruct (Hres Hint) as [res Hended]. exists res.
  destruct (finder_outcomes os self p t fs res Hended);
    eexists; (split; [exact Hended|]);
    (split; [reflexivity|]); simpl; eauto 10.
Qed.

Lemma finder_outcome_tags_ctrl_c :
  fst (Mace4Wrapper._run_mace4 (sample_os (inl (Exn KeyboardInterrupt "")))
         sample_finder sample_path 60%Z ∅)
  = inl (Exn KeyboardInterrupt "").
Proof.
  exact (proj1 (finder_outcome_tags
                  (sample_os (inl (Exn KeyboardInterrupt "")))
                  sample_finder sample_path 60%Z ∅)
           (Exn KeyboardInterrupt "") eq_refl eq_refl).
Defined.

(** ** Further properties: the parsed model *)

Section ModelFields.

Import Mace4Wrapper.

Lemma fold_left_kept {S A B} (proj : S -> B) (step : S -> A -> S)
    (xs : list A) (s : S) :
  (forall s x, proj (step s x) = proj s) ->
  proj (fold_left step xs s) = proj s.
Proof.
  intros Hstep. revert s. induction xs as [|x xs IH]; intros s.
  - reflexivity.
  - simpl. rewrite IH. apply Hstep.
Qed.

Lemma read_size_maps (m : model) (line : string) :
  (predicates (read_size m line), functions (read_size m line),
   constants (read_size m line))
  = (predicates m, functions m, constants m).
Proof.
  unfold read_size. destruct (contains "DOMAIN SIZE" line); [|reflexivity].
  destruct (last (fields line) ≫= int); reflexivity.
Qed.

Lemma list_line_maps (m : model) (line : string) :
  (predicates (list_line m line), functions (list_line m line),
   constants (list_line m line))
  = (predicates m, functions m, constants m).
Proof.
  unfold list_line.
  destruct (startswith "function(" (strip line)
            || startswith "relation(" (strip line)); reflexivity.
Qed.

End ModelFields.

(** The model that [_parse_model] returns never has an entry in its
    [predicates], [functions] and [constants] mappings, whatever the
    output. *)
Theorem structured_maps_stay_empty (output : string) :
  Mace4Wrapper.predicates (Mace4Wrapper._parse_model output) = ∅
  /\ Mace4Wrapper.functions (Mace4Wrapper._parse_model output) = ∅
  /\ Mace4Wrapper.constants (Mace4Wrapper._parse_model output) = ∅.
Proof.
  pose (proj := fun m => (Mace4Wrapper.predicates m,
                          Mace4Wrapper.functions m,
                          Mace4Wrapper.constants m)).
  assert (Hread : forall lines m,
            proj (fold_left Mace4Wrapper.read_size lines m) = proj m)
    by (intros; apply fold_left_kept, read_size_maps).
  assert (Hlist : forall lines m,
            proj (fold_left Mace4Wrapper.list_line lines m) = proj m)
    by (intros; apply fold_left_kept, list_line_maps).
  assert (H : proj (Mace4Wrapper._parse_model output) = (∅, ∅, ∅)).
  { unfold Mace4Wrapper._parse_model. cbv zeta.
    destruct (contains "interpretation(" output);
      [destruct (_ >? _)%Z|]; rewrite ?Hlist;
      try match goal with
          | |- proj (Mace4Wrapper.set_raw_interpretation ?m ?t) = _ =>
              change (proj m = (∅, ∅, ∅))
          end;
      rewrite Hread; reflexivity. }
  unfold proj in H.
  injection H as -> -> ->. repeat split.
Qed.

(** [raw_interpretation] is empty when the output has no [interpretation(],
    and also when no [end_of_list] follows the first [interpretation(]. *)
Theorem raw_interpretation_empty (output : string) :
  (contains "interpretation(" output = false ->
   Mace4Wrapper.raw_interpretation (Mace4Wrapper._parse_model output) = "")
  /\ (forall a b,
        output = a +:+ "interpretation(" +:+ b ->
        find_nat "interpretation(" (a +:+ "interpretation(")
        = Some (String.length a) ->
        contains "end_of_list" b = false ->
        Mace4Wrapper.raw_interpretation (Mace4Wrapper._parse_model output)
        = "").
Proof.
  split.
  - intros Hno. unfold Mace4Wrapper._parse_model. rewrite Hno.
    apply read_sizes_raw.
  - intros a b -> Ha Hb. apply block_missing; assumption.
Qed.

Lemma raw_interpretation_empty_cut_off :
  Mace4Wrapper.raw_interpretation
    (Mace4Wrapper._parse_model
       ("DOMAIN SIZE 2" +:+ newline +:+ "interpretation( 2, [], ["))
  = "".
Proof.
  exact (proj2 (raw_interpretation_empty
                  ("DOMAIN SIZE 2" +:+ newline +:+ "interpretation( 2, [], ["))
           ("DOMAIN SIZE 2" +:+ newline) " 2, [], ["
           eq_refl eq_refl eq_refl).
Defined.

(** ** Further properties: the validator *)

Section ValidatorChecks.

Import SyntaxValidator.

Lemma in_add_warning (msg e : string) (self : t) :
  In e (errors self) -> In e (errors (add_warning msg self)).
Proof. intros H. exact H. Qed.

Lemma fold_left_errors_added {A} (step : t -> A -> t) (xs : list A) (x : A)
    (self : t) (e : string) :
  In x xs ->
  (forall self, In e (errors (step self x))) ->
  (forall self y, In e (errors self) -> In e (errors (step self y))) ->
  In e (errors (fold_left step xs self)).
Proof.
  intros Hin Hadd Hkeep. revert self.
  induction xs as [|y ys IH]; intros self; [destruct Hin|].
  destruct Hin as [->|Hin].
  - simpl. apply fold_left_errors_kept; [exact Hkeep|apply Hadd].
  - simpl. apply IH, Hin.
Qed.

(** What the loop of [_check_balanced_parens] adds and leaves. *)
Lemma scan_parens_adds (formula : string) (i : nat) (stack : list nat)
    (self : t) :
  exists extra,
    errors (snd (scan_parens i stack formula self)) = errors self ++ extra
    /\ warnings (snd (scan_parens i stack formula self)) = warnings self
    /\ List.length extra = unmatched_closings (List.length stack) formula
    /\ List.length (fst (scan_parens i stack formula self))
       = open_at_end (List.length stack) formula
    /\ Forall (fun e => startswith "Unmatched closing parenthesis at position "
                          e = true) extra.
Proof.
  revert i stack self.
  induction formula as [|c rest IH]; intros i stack self.
  - exists []. simpl. rewrite app_nil_r. repeat split. constructor.
  - simpl. destruct (Ascii.eqb c "(").
    + destruct (IH (S i) (stack ++ [i]) self) as [extra H].
      rewrite length_app, Nat.add_1_r in H. exists extra. exact H.
    + destruct (Ascii.eqb c ")"); [|apply IH].
      destruct stack as [|x stack].
      * destruct (IH (S i) []
                    (add_error ("Unmatched closing parenthesis at position "
                                +:+ str_of_nat i) self))
          as [extra (He & Hw & Hn & Ho & Hf)].
        exists (("Unmatched closing parenthesis at position "
                 +:+ str_of_nat i) :: extra).
        rewrite He, Hw, Ho. simpl. rewrite <- app_assoc, Hn.
        repeat split. constructor; [apply prefix_app|exact Hf].
      * destruct (IH (S i) (removelast (x :: stack)) self) as [extra H].
        assert (Hlen : List.length (removelast (x :: stack))
                       = List.length stack).
        { clear. revert x. induction stack as [|y stack IH]; intros x;
            [reflexivity|].
          change (S (List.length (removelast (y :: stack)))
                  = S (List.length stack)).
          f_equal. apply IH. }
        rewrite Hlen in H. exists extra. exact H.
Qed.

Lemma balanced_parens_adds (formula : string) (self : t) :
  exists extra,
    errors (_check_balanced_parens formula self) = errors self ++ extra
    /\ warnings (_check_balanced_parens formula self) = warnings self
    /\ List.length extra
       = unmatched_closings 0 formula
         + (if Nat.eqb (open_at_end 0 formula) 0 then 0 else 1)
    /\ Forall (fun e => startswith "Unmatched " e = true) extra.
Proof.
  unfold _check_balanced_parens.
  destruct (scan_parens_adds formula 0 [] self)
    as [extra (He & Hw & Hn & Ho & Hf)].
  destruct (scan_parens 0 [] formula self) as [stack self'].
  simpl in He, Hw, Hn, Ho.
  assert (Hf' : Forall (fun e => startswith "Unmatched " e = true) extra).
  { eapply List.Forall_impl; [|exact Hf]. intros e H.
    unfold startswith in *. apply prefix_inv in H. rewrite H.
    apply (prefix_app "Unmatched "). }
  destruct stack as [|first stack].
  - exists extra. rewrite <- Ho. simpl. rewrite Nat.add_0_r. auto.
  - exists (extra ++ ["Unmatched opening parenthesis at position "
                      +:+ str_of_nat first]).
    rewrite <- Ho. simpl. rewrite He, <- app_assoc, length_app, Hn.
    repeat split; [exact Hw|].
    apply List.Forall_app. split; [exact Hf'|].
    constructor; [apply (prefix_app "Unmatched ")|constructor].
Qed.

End ValidatorChecks.

Section ValidatorVerdict.

Import SyntaxValidator.

Lemma quantifiers_keep (order : set_order) (formula e : string) (self : t) :
  In e (errors self) -> In e (errors (_check_quantifiers order formula self)).
Proof.
  unfold _check_quantifiers. apply fold_left_errors_kept.
  intros s q. apply fold_left_errors_kept.
  intros s' [var pos] H.
  destruct (lstrip (PyStr.drop pos formula)) as [|c rest];
    [apply in_add_error|].
  - destruct (negb _); exact H.
  - destruct c as [[] [] [] [] [] [] [] []];
      first [apply in_add_error; destruct (negb _); exact H
            |destruct (negb _); exact H].
Qed.

Lemma operators_keep (formula e : string) (self : t) :
  In e (errors self) -> In e (errors (_check_operators formula self)).
Proof.
  intros H. unfold _check_operators.
  assert (Hfold : forall ops : list string,
            In e (errors
                    (fold_left
                       (fun self op =>
                          if contains (op +:+ op) formula
                          then add_warning
                                 ("Double operator '" +:+ op +:+ op
                                  +:+ "' found - did you mean to use it twice?")
                                 self
                          else self) ops self))).
  { intros ops. apply fold_left_errors_kept; [|exact H].
    intros s x Hx. destruct (contains (x +:+ x) formula); exact Hx. }
  destruct (_ && _); apply Hfold.
Qed.

Lemma naming_keep (formula e : string) (self : t) :
  In e (errors self) -> In e (errors (_check_naming formula self)).
Proof.
  unfold _check_naming. apply fold_left_errors_kept.
  intros s x H. destruct (bool_decide (x.1 ∈ QUANTIFIERS)); [exact H|].
  destruct (bool_decide (x.1 ∈ RESERVED)).
  - apply in_add_error.
    destruct (match Re.head x.1 with Some c => isupper c | None => false end);
      exact H.
  - destruct (match Re.head x.1 with Some c => isupper c | None => false end);
      exact H.
Qed.

(** An error reported by one of the checks makes the verdict invalid. *)
Lemma verdict_of_error (order : set_order) (formula e : string) :
  In e (errors (_check_balanced_parens (rstrip_dot formula)
                  {| errors := []; warnings := [] |}))
  \/ (forall self,
        In e (errors (_check_quantifiers order (rstrip_dot formula) self)))
  \/ (forall self,
        In e (errors (_check_common_mistakes (rstrip_dot formula) self))) ->
  In e (snd (fst (validate order formula)))
  /\ fst (fst (validate order formula)) = false.
Proof.
  intros H. unfold validate. cbv zeta. simpl fst. simpl snd.
  match goal with
  | |- In e (errors ?s) /\ _ => assert (Hin : In e (errors s))
  end.
  { destruct H as [H|[H|H]].
    - apply common_mistakes_keep, naming_keep, operators_keep,
        quantifiers_keep, H.
    - apply common_mistakes_keep, naming_keep, operators_keep, H.
    - apply H. }
  split; [exact Hin|].
  match goal with
  | |- Nat.eqb (List.length (errors ?s)) 0 = false =>
      destruct (errors s); [destruct Hin|reflexivity]
  end.
Qed.

Lemma dots_no_parens (k depth : nat) :
  unmatched_closings depth (dots k) = 0 /\ open_at_end depth (dots k) = depth.
Proof. induction k as [|k [IH1 IH2]]; split; simpl; auto. Qed.

Lemma parens_app_dots (s : string) (k depth : nat) :
  unmatched_closings depth (s +:+ dots k) = unmatched_closings depth s
  /\ open_at_end depth (s +:+ dots k) = open_at_end depth s.
Proof.
  revert depth. induction s as [|c s IH]; intros depth.
  - rewrite sapp_nil_l. apply dots_no_parens.
  - rewrite sapp_cons. simpl.
    destruct (Ascii.eqb c "("); [apply IH|].
    destruct (Ascii.eqb c ")"); [|apply IH].
    destruct depth; [|apply IH].
    split; [f_equal; apply IH|apply (IH 0)].
Qed.

Lemma balanced_rstrip_dot (s : string) : balanced (rstrip_dot s) = balanced s.
Proof.
  destruct (rstrip_dot_dots s) as [k Hk]. unfold balanced.
  rewrite Hk at 3 4.
  destruct (parens_app_dots (rstrip_dot s) k 0) as [-> ->]. reflexivity.
Qed.

Lemma rstrip_dot_app_dots (s : string) (k : nat) :
  rstrip_dot (s +:+ dots k) = rstrip_dot s.
Proof.
  unfold rstrip_dot. induction s as [|c s IH].
  - rewrite sapp_nil_l. induction k as [|k IHk]; [reflexivity|].
    simpl dots. rewrite rstrip_by_cons, IHk. reflexivity.
  - rewrite sapp_cons, !rstrip_by_cons, IH. reflexivity.
Qed.

End ValidatorVerdict.

(** For every formula, [_check_balanced_parens] reports one error for each
    closing parenthesis met while none is open, and one more error, a single
    one, when some opening parenthesis is never closed; it reports nothing
    else and adds no warning. *)
Theorem paren_error_count (formula : string) (self : SyntaxValidator.t) :
  let checked := SyntaxValidator._check_balanced_parens formula self in
  exists extra,
    SyntaxValidator.errors checked = SyntaxValidator.errors self ++ extra
    /\ SyntaxValidator.warnings checked = SyntaxValidator.warnings self
    /\ List.length extra
       = unmatched_closings 0 formula
         + (if Nat.eqb (open_at_end 0 formula) 0 then 0 else 1)
    /\ (extra = [] <-> balanced formula = true).
Proof.
  intros checked.
  destruct (balanced_parens_adds formula self) as [extra (He & Hw & Hn & _)].
  exists extra. repeat split; try assumption.
  - intros ->. simpl in Hn. unfold balanced.
    destruct (Nat.eqb (open_at_end 0 formula) 0); [|lia].
    assert (unmatched_closings 0 formula = 0) as -> by lia. reflexivity.
  - unfold balanced. intros H. apply andb_true_iff in H as [H1 H2].
    apply Nat.eqb_eq in H1. rewrite H1, H2 in Hn.
    destruct extra; [reflexivity|discriminate].
Qed.

(** A formula whose parentheses are not balanced is invalid, and one of its
    errors names an unmatched parenthesis. *)
Theorem unbalanced_is_invalid (order : SyntaxValidator.set_order)
    (formula : string) :
  balanced formula = false ->
  fst (fst (SyntaxValidator.validate order formula)) = false
  /\ exists e,
       In e (snd (fst (SyntaxValidator.validate order formula)))
       /\ startswith "Unmatched " e = true.
Proof.
  intros Hb. rewrite <- balanced_rstrip_dot in Hb.
  destruct (balanced_parens_adds (rstrip_dot formula)
              {| SyntaxValidator.errors := [];
                 SyntaxValidator.warnings := [] |})
    as [extra (He & _ & Hn & Hf)].
  destruct extra as [|e extra].
  - exfalso. unfold balanced in Hb. simpl in Hn.
    destruct (Nat.eqb (open_at_end 0 (rstrip_dot formula)) 0); [|lia].
    assert (unmatched_closings 0 (rstrip_dot formula) = 0) as H0 by lia.
    rewrite H0 in Hb. discriminate.
  - destruct (verdict_of_error order formula e) as [Hin Hv].
    { left. rewrite He. left. reflexivity. }
    split; [exact Hv|]. exists e. split; [exact Hin|].
    inversion Hf. assumption.
Qed.

Lemma unbalanced_is_invalid_missing_close :
  fst (fst (SyntaxValidator.validate SyntaxValidator.AllFirst
              "all x (P(x) -> Q(x)")) = false
  /\ exists e,
       In e (snd (fst (SyntaxValidator.validate SyntaxValidator.AllFirst
                         "all x (P(x) -> Q(x)")))
       /\ startswith "Unmatched " e = true.
Proof.
  exact (unbalanced_is_invalid SyntaxValidator.AllFirst
           "all x (P(x) -> Q(x)" eq_refl).
Defined.

(** A formula that contains an empty pair of parentheses is invalid, and
    the error about empty parentheses is among its errors. *)
Theorem empty_parentheses_invalid (order : SyntaxValidator.set_order)
    (formula : string) :
  contains "()" formula = true ->
  In ("Empty parentheses found - predicates and functions must "
      +:+ "have arguments")
    (snd (fst (SyntaxValidator.validate order formula)))
  /\ fst (fst (SyntaxValidator.validate order formula)) = false.
Proof.
  intros H. apply verdict_of_error. right. right. intros self.
  apply contains_inv in H as [a [b ->]].
  assert (Hc : contains "()" (rstrip_dot (a +:+ "()" +:+ b)) = true).
  { unfold rstrip_dot.
    replace (a +:+ "()" +:+ b) with ((a +:+ "(") +:+ String ")" b)
      by (rewrite sapp_assoc; reflexivity).
    rewrite rstrip_by_app by reflexivity.
    rewrite sapp_assoc. apply (contains_app "()" a). }
  unfold SyntaxValidator._check_common_mistakes. rewrite Hc.
  apply in_added_error.
Qed.

Lemma empty_parentheses_invalid_call :
  In ("Empty parentheses found - predicates and functions must "
      +:+ "have arguments")
    (snd (fst (SyntaxValidator.validate SyntaxValidator.AllFirst
                 "p(a) -> f().")))
  /\ fst (fst (SyntaxValidator.validate SyntaxValidator.AllFirst
                 "p(a) -> f().")) = false.
Proof.
  exact (empty_parentheses_invalid SyntaxValidator.AllFirst "p(a) -> f()."
           eq_refl).
Defined.

(** Trailing periods never change what [validate] answers. *)
Theorem validate_ignores_trailing_periods
    (order : SyntaxValidator.set_order) (formula : string) (k : nat) :
  SyntaxValidator.validate order (formula +:+ dots k)
  = SyntaxValidator.validate order formula.
Proof.
  unfold SyntaxValidator.validate. rewrite rstrip_dot_app_dots. reflexivity.
Qed.

Section QuantifierScope.

Import Re.

Lemma word_not_space (c : ascii) : is_word c = true -> isspace c = false.
Proof.
  intros H. destruct (isspace c) eqn:E; [|reflexivity].
  apply space_not_word in E. congruence.
Qed.

Lemma take_while_stops_at (p : ascii -> bool) (s : string) :
  match head s with Some c => p c | None => false end = false ->
  take_while p s = "" /\ lstrip_by p s = s.
Proof.
  destruct s as [|c t]; [split; reflexivity|].
  simpl. intros ->. split; reflexivity.
Qed.

(** A quantifier, whitespace and a variable at the start of a text are
    matched as such. *)
Lemma match_quantifier_at_start (q ws var rest : string) :
  In q ["all"; "exists"] ->
  ws <> "" -> all_chars isspace ws = true ->
  var <> "" -> all_chars is_word var = true ->
  is_word_opt (head rest) = false ->
  match_quantifier q None (q +:+ ws +:+ var +:+ rest)
  = Some (var, String.length q + String.length ws + String.length var).
Proof.
  intros Hq Hws Hspace Hvar Hword Hrest.
  unfold match_quantifier.
  assert (Hb : word_boundary None (q +:+ ws +:+ var +:+ rest) = true)
    by (destruct Hq as [<-|[<-|[]]]; reflexivity).
  rewrite Hb, prefix_app, drop_app. cbv iota beta. simpl andb.
  destruct var as [|v var']; [congruence|].
  assert (Hv : isspace v = false).
  { simpl in Hword. apply andb_true_iff in Hword as [Hv _].
    apply word_not_space, Hv. }
  destruct (take_while_all isspace ws (String v var' +:+ rest) Hspace)
    as [T1 L1].
  destruct (take_while_stops_at isspace (String v var' +:+ rest))
    as [T2 L2]; [exact Hv|].
  rewrite T2 in T1. rewrite L2 in L1. rewrite sapp_nil_r in T1.
  destruct (take_while_all is_word (String v var') rest Hword) as [T3 _].
  destruct (take_while_stops_at is_word rest) as [T4 _].
  { destruct rest; [reflexivity|exact Hrest]. }
  rewrite T4, sapp_nil_r in T3.
  rewrite T1, L1, T3.
  destruct ws; [congruence|]. reflexivity.
Qed.

End QuantifierScope.

(** A formula that, once its trailing periods are removed, opens with a
    quantifier, whitespace and a variable, and does not go on (after
    whitespace, if any) with an opening parenthesis, is invalid: the error
    about the quantifier's missing scope is among its errors.  A formula
    with several quantifiers in a row before its parenthesis, such as
    [all x all y (p(x,y))], is of this kind. *)
Theorem quantifier_needs_parenthesis (order : SyntaxValidator.set_order)
    (formula q ws var rest : string) :
  rstrip_dot formula = q +:+ ws +:+ var +:+ rest ->
  In q ["all"; "exists"] ->
  ws <> "" -> all_chars isspace ws = true ->
  var <> "" -> all_chars is_word var = true ->
  Re.is_word_opt (Re.head rest) = false ->
  Re.head (lstrip rest) <> Some "("%char ->
  In ("Quantifier '" +:+ q +:+ " " +:+ var
      +:+ "' must be followed by a formula in parentheses")
    (snd (fst (SyntaxValidator.validate order formula)))
  /\ fst (fst (SyntaxValidator.validate order formula)) = false.
Proof.
  intros Hclean Hq Hws Hspace Hvar Hword Hrest Hscope.
  apply verdict_of_error. right. left. intros self.
  rewrite Hclean. unfold SyntaxValidator._check_quantifiers.
  assert (Hin : In q (SyntaxValidator.quantifiers_in order)).
  { destruct order, Hq as [<-|[<-|[]]]; simpl; auto. }
  eapply fold_left_errors_added; [exact Hin| |].
  - intros s. unfold Re.finditer.
    pose proof (match_quantifier_at_start q ws var rest Hq Hws Hspace Hvar
                  Hword Hrest) as Hm.
    destruct (q +:+ ws +:+ var +:+ rest) as [|c t] eqn:Htext.
    { destruct Hq as [<-|[<-|[]]]; discriminate Htext. }
    rewrite finditer_from_cons, Hm. simpl fold_left.
    apply fold_left_errors_kept.
    + intros s' [var' pos'] H.
      destruct (lstrip (PyStr.drop pos' (String c t))) as [|c' rest'];
        [apply in_add_error; destruct (negb _); exact H|].
      destruct c' as [[] [] [] [] [] [] [] []];
        first [apply in_add_error; destruct (negb _); exact H
              |destruct (negb _); exact H].
    + rewrite <- Htext.
      replace (PyStr.drop
                 (String.length q + String.length ws + String.length var)
                 (q +:+ ws +:+ var +:+ rest))
        with rest.
      * destruct (lstrip rest) as [|c' rest'];
          [apply in_or_app; right; left; reflexivity|].
        destruct c' as [[] [] [] [] [] [] [] []];
          first [apply in_or_app; right; left; reflexivity
                |exfalso; apply Hscope; reflexivity].
      * rewrite <- (drop_app (q +:+ ws +:+ var) rest) at 1.
        rewrite !length_sapp, !sapp_assoc. f_equal. lia.
  - intros s y H. apply fold_left_errors_kept; [|exact H].
    intros s' [var' pos'] H'.
    destruct (lstrip (PyStr.drop pos' (q +:+ ws +:+ var +:+ rest)))
      as [|c' rest'];
      [apply in_add_error; destruct (negb _); exact H'|].
    destruct c' as [[] [] [] [] [] [] [] []];
      first [apply in_add_error; destruct (negb _); exact H'
            |destruct (negb _); exact H'].
Qed.

Lemma quantifier_needs_parenthesis_chain :
  In "Quantifier 'all x' must be followed by a formula in parentheses"
    (snd (fst (SyntaxValidator.validate SyntaxValidator.AllFirst
                 "all x all i1 all i2 ((identity(i1,x) & identity(i2,x)) -> i1 = i2)")))
  /\ fst (fst (SyntaxValidator.validate SyntaxValidator.AllFirst
                 "all x all i1 all i2 ((identity(i1,x) & identity(i2,x)) -> i1 = i2)"))
     = false.
Proof.
  exact (quantifier_needs_parenthesis SyntaxValidator.AllFirst
           "all x all i1 all i2 ((identity(i1,x) & identity(i2,x)) -> i1 = i2)"
           "all" " " "x"
           " all i1 all i2 ((identity(i1,x) & identity(i2,x)) -> i1 = i2)"
           eq_refl (or_introl eq_refl) ltac:(discriminate) eq_refl
           ltac:(discriminate) eq_refl eq_refl ltac:(discriminate)).
Defined.

(** ** Further properties: the module-level helpers of the validator *)

Lemma validate_one_folds (order : SyntaxValidator.set_order)
    (formulas : list string) (acc : Results.t) :
  fold_left (validate_one order) formulas acc
  = {| Results.valid :=
         Results.valid acc
         && forallb (fun f => fst (fst (SyntaxValidator.validate order f)))
              formulas;
       Results.formula_results :=
         Results.formula_results acc
         ++ map (fun f =>
                   {| FormulaResult.formula := f;
                      FormulaResult.valid :=
                        fst (fst (SyntaxValidator.validate order f));
                      FormulaResult.errors :=
                        snd (fst (SyntaxValidator.validate order f));
                      FormulaResult.warnings :=
                        snd (SyntaxValidator.validate order f) |})
              formulas |}.
Proof.
  revert acc. induction formulas as [|f rest IH]; intros [v rs].
  - simpl. rewrite andb_true_r, app_nil_r. reflexivity.
  - simpl fold_left. rewrite IH. cbn [forallb map]. unfold validate_one.
    destruct (SyntaxValidator.validate order f) as [[is_valid es] ws].
    destruct is_valid;
      cbn [negb fst snd Results.valid Results.formula_results forallb map
           andb];
      rewrite <- app_assoc, ?andb_false_r; reflexivity.
Qed.

(** [validate_formulas] answers with one entry per formula, in the order
    given, each holding the formula and what [validate] says of it; the
    overall flag is true exactly when every formula is valid, so it is true
    for the empty list. *)
Theorem validate_formulas_all (order : SyntaxValidator.set_order)
    (formulas : list string) :
  Results.valid (validate_formulas order formulas)
  = forallb (fun f => fst (fst (SyntaxValidator.validate order f))) formulas
  /\ Results.formula_results (validate_formulas order formulas)
     = map (fun f =>
              {| FormulaResult.formula := f;
                 FormulaResult.valid :=
                   fst (fst (SyntaxValidator.validate order f));
                 FormulaResult.errors :=
                   snd (fst (SyntaxValidator.validate order f));
                 FormulaResult.warnings :=
                   snd (SyntaxValidator.validate order f) |})
         formulas.
Proof.
  unfold validate_formulas. rewrite validate_one_folds. split; reflexivity.
Qed.

(** [get_syntax_help] answers every error type other than quantifier,
    implication and parentheses with the text that no specific help is
    available. *)
Theorem no_specific_help (error_type : string) :
  error_type <> "quantifier" ->
  error_type <> "implication" ->
  error_type <> "parentheses" ->
  get_syntax_help error_type = "No specific help available".
Proof.
  intros H1 H2 H3. unfold get_syntax_help, help_messages.
  rewrite !lookup_insert_ne by congruence.
  rewrite lookup_singleton_ne by congruence. reflexivity.
Qed.

Lemma no_specific_help_unknown :
  get_syntax_help "operator" = "No specific help available".
Proof.
  exact (no_specific_help "operator" ltac:(discriminate) ltac:(discriminate)
           ltac:(discriminate)).
Defined.

(** ** Further properties: the categorical helpers *)

Section Categorical.

Import CategoricalHelpers.

Lemma lower_char_idem (c : ascii) : lower_char (lower_char c) = lower_char c.
Proof. destruct c as [[] [] [] [] [] [] [] []]; reflexivity. Qed.

Lemma lower_idem (s : string) : lower (lower s) = lower s.
Proof.
  induction s as [|c s IH]; [reflexivity|].
  simpl. rewrite lower_char_idem, IH. reflexivity.
Qed.

Lemma str_of_Z_inj (a b : Z) : str_of_Z a = str_of_Z b -> a = b.
Proof.
  unfold str_of_Z. intros H.
  apply DecimalZ.to_int_inj.
  assert (Hn : forall z, Z.to_int z <> Decimal.Pos Decimal.Nil
                         /\ Z.to_int z <> Decimal.Neg Decimal.Nil).
  { intros z. destruct z as [|q|q]; simpl; split; try discriminate;
      intros E; injection E as E;
      exact (DecimalPos.Unsigned.to_uint_nonnil q E). }
  pose proof (NilZero.isi (Z.to_int a) (proj1 (Hn a)) (proj2 (Hn a))) as Ha.
  pose proof (NilZero.isi (Z.to_int b) (proj1 (Hn b)) (proj2 (Hn b))) as Hb.
  rewrite H in Ha. rewrite Ha in Hb. injection Hb as Hb. exact Hb.
Qed.

(** The name that stands in a premise of the composition at index [i] as
    what has been composed so far. *)
Lemma compose_fold (path : list string) (result_name : string) (n k : nat)
    (state : composition) :
  1 <= k ->
  result state
  = (if (k =? 1)%nat then nth 0 path ""
     else temp_name path result_name (k - 1)) ->
  let ended := fold_left (compose_step path result_name) (seq k n) state in
  premises ended
  = premises state
    ++ map (fun i =>
              "compose(" +:+ nth i path "" +:+ ", "
              +:+ (if (i =? 1)%nat then nth 0 path ""
                   else temp_name path result_name (i - 1))
              +:+ ", " +:+ temp_name path result_name i +:+ ")")
         (seq k n)
  /\ result ended
     = (if (k + n =? 1)%nat then nth 0 path ""
        else temp_name path result_name (k + n - 1)).
Proof.
  revert k state. induction n as [|n IH]; intros k state Hk Hres.
  - simpl. rewrite app_nil_r, Nat.add_0_r. split; [reflexivity|exact Hres].
  - simpl seq. simpl fold_left.
    destruct (IH (S k) (compose_step path result_name state k)) as [IHp IHr].
    + lia.
    + simpl result. destruct (Nat.eqb_spec (S k) 1); [lia|].
      f_equal. lia.
    + cbv zeta. rewrite IHp, IHr. simpl premises. rewrite Hres.
      rewrite <- app_assoc. split; [reflexivity|].
      replace (S k + n) with (k + S n) by lia. reflexivity.
Qed.

End Categorical.

(** [_compose_path_helper] raises [IndexError] on an empty path; on a path
    of one morphism it answers that morphism and no premise; on a longer
    path it answers [result_name], with one premise per further morphism:
    the premise at index [i] composes [path[i]] with what the premise before
    it named (the first morphism, for the first premise) and names the
    outcome. *)
Theorem compose_path (path : list string) (result_name : string)
    (fs : filesystem) :
  (path = [] ->
   CategoricalHelpers._compose_path_helper path result_name fs
   = (inl (Exn IndexError "list index out of range"), fs))
  /\ (forall f,
        path = [f] ->
        CategoricalHelpers._compose_path_helper path result_name fs
        = (inr {| CategoricalHelpers.premises := [];
                  CategoricalHelpers.result := f |}, fs))
  /\ (2 <= List.length path ->
      CategoricalHelpers._compose_path_helper path result_name fs
      = (inr {| CategoricalHelpers.premises :=
                  map (fun i =>
                         "compose(" +:+ nth i path "" +:+ ", "
                         +:+ (if (i =? 1)%nat then nth 0 path ""
                              else CategoricalHelpers.temp_name path
                                     result_name (i - 1))
                         +:+ ", "
                         +:+ CategoricalHelpers.temp_name path result_name i
                         +:+ ")")
                    (seq 1 (List.length path - 1));
                CategoricalHelpers.result := result_name |}, fs)).
Proof.
  repeat split.
  - intros ->. reflexivity.
  - intros f ->. reflexivity.
  - intros Hlen. unfold CategoricalHelpers._compose_path_helper.
    destruct (Nat.eqb_spec (List.length path) 1); [lia|].
    destruct path as [|first rest]; [simpl in Hlen; lia|].
    unfold bind.
    change (getitem (first :: rest) 0 fs) with (@inr exn _ first, fs).
    cbv beta iota.
    unfold ret.
    destruct (compose_fold (first :: rest) result_name
                (List.length (first :: rest) - 1) 1
                {| CategoricalHelpers.premises := [];
                   CategoricalHelpers.result := first |}
                (le_n 1) eq_refl) as [Hp Hr].
    cbv zeta in Hp, Hr.
    change (nth 0 (first :: rest) "") with first.
    set (ended := fold_left _ _ _) in *.
    assert (Hrec : ended
                   = {| CategoricalHelpers.premises :=
                          CategoricalHelpers.premises ended;
                        CategoricalHelpers.result :=
                          CategoricalHelpers.result ended |})
      by (destruct ended; reflexivity).
    rewrite Hrec, Hp, Hr. simpl app.
    change (nth 0 (first :: rest) "") with first.
    do 3 f_equal.
    destruct (Nat.eqb_spec (1 + (List.length (first :: rest) - 1)) 1);
      [simpl in *; lia|].
    unfold CategoricalHelpers.temp_name.
    destruct (Nat.ltb_spec (1 + (List.length (first :: rest) - 1) - 1)
                (List.length (first :: rest) - 1)); [lia|reflexivity].
Qed.

Lemma compose_path_three :
  CategoricalHelpers._compose_path_helper ["f"; "g"; "h"] "comp_a" ∅
  = (inr {| CategoricalHelpers.premises :=
              ["compose(g, f, comp_a_temp_1)";
               "compose(h, comp_a_temp_1, comp_a)"];
            CategoricalHelpers.result := "comp_a" |}, ∅).
Proof.
  exact (proj2 (proj2 (compose_path ["f"; "g"; "h"] "comp_a" ∅))
           (le_S 2 2 (le_n 2))).
Defined.

(** The names introduced for the compositions along the first path of
    [verify_commutativity] all differ from those introduced along the
    second path. *)
Theorem composition_names_apart (path_a path_b : list string) (i j : nat) :
  CategoricalHelpers.temp_name path_a "comp_a" i
  <> CategoricalHelpers.temp_name path_b "comp_b" j.
Proof.
  assert (H : forall path name k,
            exists suffix,
              CategoricalHelpers.temp_name path name k = name +:+ suffix).
  { intros path name k. unfold CategoricalHelpers.temp_name.
    destruct (_ <? _)%nat; [eexists; reflexivity|].
    exists "". symmetry. apply sapp_nil_r. }
  destruct (H path_a "comp_a" i) as [sa ->].
  destruct (H path_b "comp_b" j) as [sb ->].
  intros E. apply (f_equal (take 6)) in E.
  change 6 with (String.length "comp_a") in E at 1.
  change 6 with (String.length "comp_b") in E.
  rewrite (take_app "comp_a" sa), (take_app "comp_b" sb) in E.
  discriminate E.
Qed.

(** Within one path, the names introduced for the compositions at two
    different indices differ. *)
Theorem composition_names_distinct (path : list string)
    (result_name : string) (i j : nat) :
  1 <= i < List.length path ->
  1 <= j < List.length path ->
  i <> j ->
  CategoricalHelpers.temp_name path result_name i
  <> CategoricalHelpers.temp_name path result_name j.
Proof.
  intros Hi Hj Hne. unfold CategoricalHelpers.temp_name.
  assert (Hlonger : forall k,
            result_name +:+ "_temp_" +:+ str_of_Z (Z.of_nat k)
            <> result_name).
  { intros k E. apply (f_equal String.length) in E.
    rewrite length_sapp in E. simpl in E. lia. }
  destruct (Nat.ltb_spec i (List.length path - 1)),
    (Nat.ltb_spec j (List.length path - 1)).
  - intros E. apply String.app_inj in E. apply String.app_inj in E.
    apply str_of_Z_inj in E. lia.
  - apply Hlonger.
  - intros E. symmetry in E. exact (Hlonger j E).
  - lia.
Qed.

Lemma composition_names_distinct_four :
  CategoricalHelpers.temp_name ["f"; "g"; "h"; "k"] "comp_a" 1
  <> CategoricalHelpers.temp_name ["f"; "g"; "h"; "k"] "comp_a" 3.
Proof.
  apply (composition_names_distinct ["f"; "g"; "h"; "k"] "comp_a" 1 3);
    simpl; lia.
Defined.

(** The functor names are used in lower case: [functor_axioms] and
    [natural_transformation_condition] answer the same for a name and for
    its lower-case form, while the component name is used as given. *)
Theorem functor_names_lowered (functor_f functor_g component : string) :
  CategoricalHelpers.functor_axioms (lower functor_f)
  = CategoricalHelpers.functor_axioms functor_f
  /\ CategoricalHelpers.natural_transformation_condition
       (lower functor_f) (lower functor_g) component
     = CategoricalHelpers.natural_transformation_condition
         functor_f functor_g component
  /\ contains (lower functor_f +:+ "(id), " +:+ lower functor_f +:+ "(x)")
       (nth 0 (CategoricalHelpers.functor_axioms functor_f) "") = true
  /\ contains (component +:+ "(a), comp1)")
       (nth 0 (CategoricalHelpers.natural_transformation_condition
                 functor_f functor_g component) "") = true.
Proof.
  unfold CategoricalHelpers.functor_axioms,
    CategoricalHelpers.natural_transformation_condition.
  rewrite !lower_idem. repeat split.
  - simpl nth.
    rewrite <- (sapp_nil_r
                  (lower functor_f +:+ "(id), " +:+ lower functor_f +:+ "(x)")).
    rewrite !sapp_assoc.
    match goal with
    | |- contains ?sub (?a +:+ _) = true =>
        pose proof (contains_app (lower functor_f +:+ "(id), "
                                  +:+ lower functor_f +:+ "(x)") a "))") as H
    end.
    rewrite !sapp_assoc in H. exact H.
  - simpl nth.
    match goal with
    | |- contains ?sub (?a +:+ ?g +:+ ?b +:+ ?c +:+ ?rest) = true =>
        pose proof (contains_app sub (a +:+ g +:+ b)
                      (" & compose(" +:+ component +:+ "(b), "
                       +:+ lower functor_f
                       +:+ "(morph), comp2) & comp1 = comp2))")) as H
    end.
    rewrite !sapp_assoc in H. exact H.
Qed.

Section Commutativity.

Import CategoricalHelpers.

Lemma compose_path_nonempty (path : list string) (result_name : string)
    (fs : filesystem) :
  path <> [] ->
  exists composed,
    _compose_path_helper path result_name fs
    = (inr {| premises := composed;
              result := if (List.length path =? 1)%nat then nth 0 path ""
                        else result_name |}, fs)
    /\ List.length composed = List.length path - 1.
Proof.
  intros Hne. destruct path as [|first rest]; [congruence|].
  unfold _compose_path_helper.
  destruct (Nat.eqb_spec (List.length (first :: rest)) 1) as [Hone|Hmore].
  - exists []. split; [reflexivity|]. rewrite Hone. reflexivity.
  - unfold bind.
    change (getitem (first :: rest) 0 fs) with (@inr exn _ first, fs).
    cbv beta iota. unfold ret.
    destruct (compose_fold (first :: rest) result_name
                (List.length (first :: rest) - 1) 1
                {| premises := []; result := first |}
                (le_n 1) eq_refl) as [Hp Hr].
    cbv zeta in Hp, Hr.
    set (ended := fold_left _ _ _) in *.
    exists (premises ended). split.
    + assert (Hrec : ended
                     = {| premises := premises ended;
                          result := result ended |})
        by (destruct ended; reflexivity).
      rewrite Hrec at 1. rewrite Hr. do 3 f_equal.
      destruct (Nat.eqb_spec (1 + (List.length (first :: rest) - 1)) 1);
        [simpl in *; lia|].
      unfold temp_name.
      destruct (Nat.ltb_spec (1 + (List.length (first :: rest) - 1) - 1)
                  (List.length (first :: rest) - 1)); [lia|reflexivity].
    + rewrite Hp. simpl app. rewrite length_map, length_seq. reflexivity.
Qed.

Lemma declare_step_length (path : list string) (object_start object_end : string)
    (declared : list string) (i : nat) (morph : string) :
  List.length (declare_step path object_start object_end declared (i, morph))
  = List.length declared + 1
    + (if (i =? 0)%nat then 1 else 0)
    + (if (i =? List.length path - 1)%nat then 1 else 0).
Proof.
  unfold declare_step.
  destruct (i =? 0)%nat, (i =? List.length path - 1)%nat;
    rewrite ?length_app; simpl; lia.
Qed.

Lemma declare_fold_length (path : list string) (object_start object_end : string)
    (l : list string) (k : nat) (declared : list string) :
  List.length
    (fold_left (declare_step path object_start object_end)
       (combine (seq k (List.length l)) l) declared)
  = List.length declared + List.length l
    + (if (k =? 0)%nat && (0 <? List.length l)%nat then 1 else 0)
    + (if (k <=? List.length path - 1)%nat
          && (List.length path - 1 <? k + List.length l)%nat
       then 1 else 0).
Proof.
  revert k declared. induction l as [|x l IH]; intros k declared.
  - simpl. rewrite andb_false_r.
    destruct (Nat.leb_spec k (List.length path - 1)),
      (Nat.ltb_spec (List.length path - 1) (k + 0)); simpl; lia.
  - cbn [List.length seq combine fold_left]. rewrite IH, declare_step_length.
    change (S k =? 0)%nat with false. cbn [andb].
    change (0 <? S (List.length l))%nat with true. rewrite andb_true_r.
    destruct (Nat.eqb_spec k 0), (Nat.eqb_spec k (List.length path - 1)),
      (Nat.leb_spec (S k) (List.length path - 1)),
      (Nat.leb_spec k (List.length path - 1)),
      (Nat.ltb_spec (List.length path - 1) (S k + List.length l)),
      (Nat.ltb_spec (List.length path - 1) (k + S (List.length l)));
      cbn [andb]; lia.
Qed.

Lemma declare_path_length (path : list string) (object_start object_end : string)
    (declared : list string) :
  path <> [] ->
  List.length
    (fold_left (declare_step path object_start object_end)
       (enumerate path) declared)
  = List.length declared + List.length path + 2.
Proof.
  intros Hne. unfold enumerate. rewrite declare_fold_length.
  destruct path as [|x path]; [congruence|].
  cbn [List.length].
  change (0 =? 0)%nat with true. change (0 <? S (List.length path))%nat with true.
  cbn [andb].
  destruct (Nat.leb_spec 0 (S (List.length path) - 1)),
    (Nat.ltb_spec (S (List.length path) - 1) (0 + S (List.length path)));
    cbn [andb]; lia.
Qed.

End Commutativity.

(** [verify_commutativity] raises [IndexError] when one of the two paths is
    empty.  For two non-empty paths of [m] and [n] morphisms it answers
    [2 * (m + n) + 2] premises, and the conclusion equates the two composed
    morphisms: a path of one morphism stands for itself, a longer one is
    named [comp_a] or [comp_b]. *)
Theorem commutativity_statement (path_a path_b : list string)
    (object_start object_end : string) (fs : filesystem) :
  (path_a = [] \/ path_b = [] ->
   CategoricalHelpers.verify_commutativity path_a path_b
     object_start object_end fs
   = (inl (Exn IndexError "list index out of range"), fs))
  /\ (path_a <> [] -> path_b <> [] ->
      exists stated,
        CategoricalHelpers.verify_commutativity path_a path_b
          object_start object_end fs
        = (inr (stated,
                (if (List.length path_a =? 1)%nat then nth 0 path_a ""
                 else "comp_a")
                +:+ " = "
                +:+ (if (List.length path_b =? 1)%nat then nth 0 path_b ""
                     else "comp_b")), fs)
        /\ List.length stated
           = 2 * (List.length path_a + List.length path_b) + 2).
Proof.
  split.
  - intros [-> | ->].
    + reflexivity.
    + unfold CategoricalHelpers.verify_commutativity. cbv zeta.
      destruct path_a as [|first rest]; [reflexivity|].
      destruct (compose_path_nonempty (first :: rest) "comp_a" fs)
        as (composed & Hrun & _); [discriminate|].
      unfold bind. rewrite Hrun. reflexivity.
  - intros Ha Hb.
    destruct (compose_path_nonempty path_a "comp_a" fs Ha)
      as (composed_a & Hrun_a & Hlen_a).
    destruct (compose_path_nonempty path_b "comp_b" fs Hb)
      as (composed_b & Hrun_b & Hlen_b).
    unfold CategoricalHelpers.verify_commutativity. cbv zeta.
    unfold bind. rewrite Hrun_a, Hrun_b. unfold ret.
    eexists. split; [reflexivity|].
    cbn [CategoricalHelpers.premises].
    rewrite !length_app, !declare_path_length by assumption.
    rewrite Hlen_a, Hlen_b. simpl List.length.
    destruct path_a; [congruence|]. destruct path_b; [congruence|].
    simpl List.length. lia.
Qed.

Lemma commutativity_statement_square :
  exists stated,
    CategoricalHelpers.verify_commutativity ["f"; "g"] ["h"] "a" "c" ∅
    = (inr (stated, "comp_a = h"), ∅)
    /\ List.length stated = 8.
Proof.
  exact (proj2 (commutativity_statement ["f"; "g"] ["h"] "a" "c" ∅)
           ltac:(discriminate) ltac:(discriminate)).
Defined.

(** ** Further properties: locating the executables *)

(** Neither constructor touches the file system.  The model finder prefers
    [mace4.exe] to [mace4], and is refused only when both are missing; an
    object that a constructor builds names an executable that exists, in
    the directory that was given. *)
Theorem probed_executable_exists (dir : path) (fs : filesystem) :
  (forall engine fs',
     LogicEngine.__init__ dir fs = (inr engine, fs') ->
     fs' = fs
     /\ is_Some (fs !! LogicEngine.prover_exe engine)
     /\ parent (LogicEngine.prover_exe engine) = dir
     /\ LogicEngine.prover_path engine = dir)
  /\ (forall finder fs',
        Mace4Wrapper.__init__ dir fs = (inr finder, fs') ->
        fs' = fs
        /\ is_Some (fs !! Mace4Wrapper.mace4_exe finder)
        /\ parent (Mace4Wrapper.mace4_exe finder) = dir
        /\ Mace4Wrapper.mace4_path finder = dir)
  /\ (is_Some (fs !! joinpath dir "mace4.exe") ->
      Mace4Wrapper.__init__ dir fs
      = (inr {| Mace4Wrapper.mace4_path := dir;
                Mace4Wrapper.mace4_exe := joinpath dir "mace4.exe" |}, fs))
  /\ (fs !! joinpath dir "mace4.exe" = None ->
      is_Some (fs !! joinpath dir "mace4") ->
      Mace4Wrapper.__init__ dir fs
      = (inr {| Mace4Wrapper.mace4_path := dir;
                Mace4Wrapper.mace4_exe := joinpath dir "mace4" |}, fs))
  /\ (fs !! joinpath dir "mace4.exe" = None ->
      fs !! joinpath dir "mace4" = None ->
      Mace4Wrapper.__init__ dir fs
      = (inl (Exn FileNotFoundError
                ("Mace4 not found at " +:+ str_of_path (joinpath dir "mace4")
                 +:+ " or with .exe extension")), fs)).
Proof.
  assert (Hparent : forall name, parent (joinpath dir name) = dir)
    by (intros name; apply removelast_last).
  unfold LogicEngine.__init__, Mace4Wrapper.__init__, bind, path_exists, ret,
    raise.
  cbv beta iota zeta.
  repeat split.
  - destruct (decide (is_Some (fs !! joinpath dir "prover9.exe"))) as [Hex|Hno];
      [rewrite (bool_decide_eq_true_2 _ Hex) in H
      |rewrite (bool_decide_eq_false_2 _ Hno) in H]; simpl in H; congruence.
  - destruct (decide (is_Some (fs !! joinpath dir "prover9.exe"))) as [Hex|Hno];
      [rewrite (bool_decide_eq_true_2 _ Hex) in H
      |rewrite (bool_decide_eq_false_2 _ Hno) in H]; simpl in H;
      [|discriminate].
    injection H as <- _. exact Hex.
  - destruct (decide (is_Some (fs !! joinpath dir "prover9.exe"))) as [Hex|Hno];
      [rewrite (bool_decide_eq_true_2 _ Hex) in H
      |rewrite (bool_decide_eq_false_2 _ Hno) in H]; simpl in H;
      [|discriminate].
    injection H as <- _. apply Hparent.
  - destruct (decide (is_Some (fs !! joinpath dir "prover9.exe"))) as [Hex|Hno];
      [rewrite (bool_decide_eq_true_2 _ Hex) in H
      |rewrite (bool_decide_eq_false_2 _ Hno) in H]; simpl in H;
      [|discriminate].
    injection H as <- _. reflexivity.
  - destruct (decide (is_Some (fs !! joinpath dir "mace4.exe"))) as [Hex|Hno];
      [rewrite (bool_decide_eq_true_2 _ Hex) in H
      |rewrite (bool_decide_eq_false_2 _ Hno) in H]; simpl in H;
      [congruence|].
    destruct (decide (is_Some (fs !! joinpath dir "mace4"))) as [Hex'|Hno'];
      [rewrite (bool_decide_eq_true_2 _ Hex') in H
      |rewrite (bool_decide_eq_false_2 _ Hno') in H]; simpl in H; congruence.
  - destruct (decide (is_Some (fs !! joinpath dir "mace4.exe"))) as [Hex|Hno];
      [rewrite (bool_decide_eq_true_2 _ Hex) in H
      |rewrite (bool_decide_eq_false_2 _ Hno) in H]; simpl in H.
    { injection H as <- _. exact Hex. }
    destruct (decide (is_Some (fs !! joinpath dir "mace4"))) as [Hex'|Hno'];
      [rewrite (bool_decide_eq_true_2 _ Hex') in H
      |rewrite (bool_decide_eq_false_2 _ Hno') in H]; simpl in H;
      [|discriminate].
    injection H as <- _. exact Hex'.
  - destruct (decide (is_Some (fs !! joinpath dir "mace4.exe"))) as [Hex|Hno];
      [rewrite (bool_decide_eq_true_2 _ Hex) in H
      |rewrite (bool_decide_eq_false_2 _ Hno) in H]; simpl in H.
    { injection H as <- _. apply Hparent. }
    destruct (decide (is_Some (fs !! joinpath dir "mace4"))) as [Hex'|Hno'];
      [rewrite (bool_decide_eq_true_2 _ Hex') in H
      |rewrite (bool_decide_eq_false_2 _ Hno') in H]; simpl in H;
      [|discriminate].
    injection H as <- _. apply Hparent.
  - destruct (decide (is_Some (fs !! joinpath dir "mace4.exe"))) as [Hex|Hno];
      [rewrite (bool_decide_eq_true_2 _ Hex) in H
      |rewrite (bool_decide_eq_false_2 _ Hno) in H]; simpl in H.
    { injection H as <- _. reflexivity. }
    destruct (decide (is_Some (fs !! joinpath dir "mace4"))) as [Hex'|Hno'];
      [rewrite (bool_decide_eq_true_2 _ Hex') in H
      |rewrite (bool_decide_eq_false_2 _ Hno') in H]; simpl in H;
      [|discriminate].
    injection H as <- _. reflexivity.
  - intros Hex. rewrite (bool_decide_eq_true_2 _ Hex). reflexivity.
  - intros Hno Hex. rewrite Hno.
    rewrite (bool_decide_eq_false_2 (is_Some None)) by (apply is_Some_None).
    cbn [negb]. cbv beta iota.
    rewrite (bool_decide_eq_true_2 _ Hex). reflexivity.
  - intros Hno Hno'. rewrite Hno.
    rewrite (bool_decide_eq_false_2 (is_Some None)) by (apply is_Some_None).
    cbn [negb]. cbv beta iota. rewrite Hno'.
    rewrite (bool_decide_eq_false_2 (is_Some None)) by (apply is_Some_None).
    reflexivity.
Qed.

Lemma probed_executable_exists_both :
  let fs : filesystem :=
    {[ [""; "opt"; "ladr"; "bin"; "mace4.exe"] := "";
       [""; "opt"; "ladr"; "bin"; "mace4"] := "" ]} in
  Mace4Wrapper.__init__ [""; "opt"; "ladr"; "bin"] fs
  = (inr {| Mace4Wrapper.mace4_path := [""; "opt"; "ladr"; "bin"];
            Mace4Wrapper.mace4_exe :=
              [""; "opt"; "ladr"; "bin"; "mace4.exe"] |}, fs).
Proof.
  exact (proj1 (proj2 (proj2
           (probed_executable_exists [""; "opt"; "ladr"; "bin"]
              {[ [""; "opt"; "ladr"; "bin"; "mace4.exe"] := "";
                 [""; "opt"; "ladr"; "bin"; "mace4"] := "" ]})))
           ltac:(vm_compute; eexists; reflexivity)).
Defined.
